(** * Mondaq analytics dashboards: ingestion, join, filter and aggregation

    A shallow embedding of the data pipeline of [mondaq_dashboard_master.py]
    and [mondaq_dashboard_app.py].  The scripts are straight-line pandas
    code, so the development has two layers:

    - [Pandas]: the data-frame primitives the scripts call ([merge],
      [rename], boolean indexing, [groupby(...).sum()], [pivot_table],
      [reindex], [idxmax], [to_datetime]), over frames of labelled columns
      and indexed rows.  Python exceptions are values of an error monad.
    - [Master] and [App]: the two scripts, one definition per statement or
      block, in the order the scripts execute them.

    Read counts are mathematical integers ([Z]); a missing value (NaN, NaT,
    None) is the single cell [NA]. *)

From Stdlib Require Import ZArith List String Ascii Bool Lia Sorted Permutation.
Import ListNotations.
Local Open Scope string_scope.
Local Open Scope list_scope.
Local Open Scope Z_scope.

(** ** Exceptions *)

Inductive error : Type :=
| KeyError (label : string)
| ValueError (msg : string)
| TypeError (msg : string)
| AttributeError (msg : string)
| DateParseError (value : string).

Inductive result (A : Type) : Type :=
| Ok (a : A)
| Raise (e : error).
Arguments Ok {A} a.
Arguments Raise {A} e.

Definition bind {A B : Type} (r : result A) (k : A -> result B) : result B :=
  match r with
  | Ok a => k a
  | Raise e => Raise e
  end.

Notation "x <- r ;; k" := (bind r (fun x => k))
  (at level 61, r at next level, right associativity).

(** [mapM] runs [f] left to right and stops at the first exception. *)
Fixpoint mapM {A B : Type} (f : A -> result B) (l : list A) : result (list B) :=
  match l with
  | [] => Ok []
  | a :: l' => b <- f a ;; bs <- mapM f l' ;; Ok (b :: bs)
  end.

(** ** Timestamps and monthly periods *)

(** A naive (zone-less) timestamp with calendar fields, as [datetime] and
    [pandas.Timestamp] expose them. *)
Record Timestamp : Type := mkTimestamp {
  year : Z; month : Z; day : Z; hour : Z; minute : Z; second : Z
}.

Definition ts_fields (t : Timestamp) : list Z :=
  [year t; month t; day t; hour t; minute t; second t].

Fixpoint lex_compare (a b : list Z) : comparison :=
  match a, b with
  | [], [] => Eq
  | [], _ :: _ => Lt
  | _ :: _, [] => Gt
  | x :: a', y :: b' =>
      match x ?= y with
      | Eq => lex_compare a' b'
      | c => c
      end
  end.

Definition ts_compare (s t : Timestamp) : comparison :=
  lex_compare (ts_fields s) (ts_fields t).

(** [s <= t] and [s < t] on timestamps. *)
Definition ts_leb (s t : Timestamp) : bool :=
  match ts_compare s t with Gt => false | _ => true end.
Definition ts_ltb (s t : Timestamp) : bool :=
  match ts_compare s t with Lt => true | _ => false end.

(** A monthly period ([freq='M']) is its ordinal: months since 1970-01. *)
Definition to_period_M (t : Timestamp) : Z := (year t - 1970) * 12 + (month t - 1).

(** [Period.to_timestamp()]: the first instant of the month. *)
Definition period_to_timestamp (p : Z) : Timestamp :=
  mkTimestamp (1970 + p / 12) (p mod 12 + 1) 1 0 0 0.

(** Days since 1970-01-01 of a civil date (proleptic Gregorian). *)
Definition days_from_civil (y m d : Z) : Z :=
  let y' := if m <=? 2 then y - 1 else y in
  let era := y' / 400 in
  let yoe := y' - era * 400 in
  let doy := (153 * (if 2 <? m then m - 3 else m + 9) + 2) / 5 + d - 1 in
  let doe := yoe * 365 + yoe / 4 - yoe / 100 + doy in
  era * 146097 + doe - 719468.

(** [Timestamp.weekday()]: Monday is 0. *)
Definition weekday (t : Timestamp) : Z :=
  (days_from_civil (year t) (month t) (day t) + 3) mod 7.

Definition day_names : list string :=
  ["Monday"; "Tuesday"; "Wednesday"; "Thursday"; "Friday"; "Saturday"; "Sunday"].

(** [Timestamp.day_name()] in the default (English) locale. *)
Definition day_name (t : Timestamp) : string :=
  nth (Z.to_nat (weekday t)) day_names "Monday".

(** ** Cells, rows and frames *)

Inductive cell : Type :=
| NA
| Num (z : Z)
| Str (s : string)
| Time (t : Timestamp)
| Period (ordinal : Z).

Definition ts_eqb (s t : Timestamp) : bool :=
  match ts_compare s t with Eq => true | _ => false end.

Definition cell_eqb (a b : cell) : bool :=
  match a, b with
  | NA, NA => true
  | Num x, Num y => x =? y
  | Str s, Str t => String.eqb s t
  | Time s, Time t => ts_eqb s t
  | Period p, Period q => p =? q
  | _, _ => false
  end.

Definition isna (c : cell) : bool :=
  match c with NA => true | _ => false end.

(** A row carries its index label and one cell per column. *)
Record Row : Type := mkRow { label : Z; cells : list cell }.

Record DataFrame : Type := mkDataFrame {
  columns : list string;
  rows : list Row
}.

Definition len (df : DataFrame) : Z := Z.of_nat (List.length (rows df)).

(** Position of the first column carrying the label. *)
Fixpoint col_pos (c : string) (cols : list string) : option nat :=
  match cols with
  | [] => None
  | c' :: cols' =>
      if String.eqb c c' then Some O
      else option_map S (col_pos c cols')
  end.

Definition at_pos (i : nat) (r : Row) : cell := nth i (cells r) NA.

(** A series: index label and value, in row order. *)
Definition Series (L : Type) : Type := list (L * cell).

(** [df[c]]: [KeyError] when no column has the label. *)
Definition getitem (df : DataFrame) (c : string) : result (Series Z) :=
  match col_pos c (columns df) with
  | Some i => Ok (map (fun r => (label r, at_pos i r)) (rows df))
  | None => Raise (KeyError c)
  end.

Definition values {L : Type} (s : Series L) : list cell := map snd s.

(** ** Column labels *)

(** The characters [str.strip()] removes (the ASCII ones: tab, line feed,
    vertical tab, form feed, carriage return, the separators 28-31, space). *)
Definition is_space (a : ascii) : bool :=
  let n := Z.of_nat (nat_of_ascii a) in
  ((9 <=? n) && (n <=? 13)) || ((28 <=? n) && (n <=? 32)).

Fixpoint lstrip (s : string) : string :=
  match s with
  | EmptyString => EmptyString
  | String a s' => if is_space a then lstrip s' else s
  end.

Fixpoint rstrip (s : string) : string :=
  match s with
  | EmptyString => EmptyString
  | String a s' =>
      match rstrip s' with
      | EmptyString => if is_space a then EmptyString else String a EmptyString
      | t => String a t
      end
  end.

Definition strip (s : string) : string := rstrip (lstrip s).

(** [df.columns = df.columns.str.strip()] *)
Definition strip_columns (df : DataFrame) : DataFrame :=
  mkDataFrame (map strip (columns df)) (rows df).

(** [df.rename(columns=mapper)]: labels absent from the mapper are kept, and
    mapper keys absent from the frame are ignored. *)
Fixpoint lookup_label (c : string) (mapper : list (string * string)) : option string :=
  match mapper with
  | [] => None
  | (k, v) :: mapper' => if String.eqb c k then Some v else lookup_label c mapper'
  end.

Definition rename_label (mapper : list (string * string)) (c : string) : string :=
  match lookup_label c mapper with
  | Some v => v
  | None => c
  end.

Definition rename (mapper : list (string * string)) (df : DataFrame) : DataFrame :=
  mkDataFrame (map (rename_label mapper) (columns df)) (rows df).

(** ** Column assignment *)

(** Writes position [i] of a row, padding a short row with missing cells. *)
Fixpoint set_nth (i : nat) (v : cell) (l : list cell) : list cell :=
  match i, l with
  | O, [] => [v]
  | O, _ :: l' => v :: l'
  | S i', [] => NA :: set_nth i' v []
  | S i', x :: l' => x :: set_nth i' v l'
  end.

(** [df[c] = vals], [vals] aligned with the rows of [df]: an existing column is
    overwritten in place, a new label becomes the last column. *)
Definition setitem (df : DataFrame) (c : string) (vals : list cell) : DataFrame :=
  match col_pos c (columns df) with
  | Some i =>
      mkDataFrame (columns df)
        (map (fun rv => mkRow (label (fst rv)) (set_nth i (snd rv) (cells (fst rv))))
             (combine (rows df) vals))
  | None =>
      mkDataFrame (columns df ++ [c])
        (map (fun rv => mkRow (label (fst rv))
                          (set_nth (List.length (columns df)) (snd rv) (cells (fst rv))))
             (combine (rows df) vals))
  end.

(** ** Date parsing *)

Inductive errors_mode : Type := ErrorsRaise | ErrorsCoerce.

Definition repr (c : cell) : string :=
  match c with
  | Str s => s
  | _ => ""
  end.

Section ToDatetime.
(** The library's conversion of one non-null value to a timestamp, [None]
    when the value does not parse.  It receives the whole column as well,
    since the expected format may be inferred from the column. *)
Variable parse : list cell -> cell -> option Timestamp.

Definition to_datetime_cell (errors : errors_mode) (col : list cell) (c : cell)
  : result cell :=
  match c with
  | NA => Ok NA
  | Time t => Ok (Time t)
  | _ =>
      match parse col c with
      | Some t => Ok (Time t)
      | None =>
          match errors with
          | ErrorsCoerce => Ok NA
          | ErrorsRaise => Raise (DateParseError (repr c))
          end
      end
  end.

(** [pd.to_datetime(series, errors=...)] *)
Definition to_datetime (errors : errors_mode) (col : list cell) : result (list cell) :=
  mapM (to_datetime_cell errors col) col.

(** [df[c] = pd.to_datetime(df[c], errors=...)] *)
Definition parse_date_column (errors : errors_mode) (df : DataFrame) (c : string)
  : result DataFrame :=
  s <- getitem df c ;;
  parsed <- to_datetime errors (values s) ;;
  Ok (setitem df c parsed).
End ToDatetime.

(** ** Left join *)

Definition remove_at {A : Type} (i : nat) (l : list A) : list A :=
  firstn i l ++ skipn (S i) l.

Definition mem (c : string) (l : list string) : bool := existsb (String.eqb c) l.

Definition add_suffix (overlap : list string) (suffix : string) (c : string) : string :=
  if mem c overlap then String.append c suffix else c.

Fixpoint range_index (start : Z) (data : list (list cell)) : list Row :=
  match data with
  | [] => []
  | cs :: data' => mkRow start cs :: range_index (start + 1) data'
  end.

(** The rows of [right] whose key equals [k]; a missing key matches a missing
    key. *)
Definition matches (j : nat) (k : cell) (right : DataFrame) : list Row :=
  filter (fun r => cell_eqb (at_pos j r) k) (rows right).

(** The output rows one left row contributes: one per match, or one padded
    with missing cells when nothing matches. *)
Definition join_row (i j : nat) (right : DataFrame) (l : Row) : list (list cell) :=
  match matches j (at_pos i l) right with
  | [] => [cells l ++ repeat NA (List.length (remove_at j (columns right)))]
  | ms => map (fun r => cells l ++ remove_at j (cells r)) ms
  end.

(** [left.merge(right, on=key, how='left', suffixes=(lsuffix, rsuffix))]: the
    frame the call returns.  The key column is kept once; a label (other
    than the key) carried by both frames gets the side's suffix; left order
    is preserved and the result has a fresh range index.  Before it joins,
    the library validates its arguments and rejects some pairs of frames
    that carry the key (a numeric key column against one of strings,
    suffixes that make two labels of one side equal); that validation is not
    part of this definition, so what is proved of a join below is proved of
    the frame a join returns, not that it returns. *)
Definition merge_left (left right : DataFrame) (key lsuffix rsuffix : string)
  : result DataFrame :=
  match col_pos key (columns left), col_pos key (columns right) with
  | Some i, Some j =>
      let rcols := remove_at j (columns right) in
      let overlap := filter (fun c => mem c rcols) (columns left) in
      Ok (mkDataFrame
            (map (add_suffix overlap lsuffix) (columns left)
             ++ map (add_suffix overlap rsuffix) rcols)
            (range_index 0 (flat_map (join_row i j right) (rows left))))
  | _, _ => Raise (KeyError key)
  end.

(** ** Boolean indexing and element-wise tests *)

(** [df[mask]]: the rows whose mask entry is true, labels kept. *)
Definition select (df : DataFrame) (mask : list bool) : DataFrame :=
  mkDataFrame (columns df)
    (map fst (filter (fun rb => snd rb) (combine (rows df) mask))).

(** A cell of a datetime column; anything else is a dtype error. *)
Definition as_datetime (e : error) (c : cell) : result (option Timestamp) :=
  match c with
  | NA => Ok None
  | Time t => Ok (Some t)
  | _ => Raise e
  end.

Definition invalid_comparison : error :=
  TypeError "Invalid comparison between non-datetime values and Timestamp".

(** [series >= t] and [series <= t]: a missing date compares false. *)
Definition ge_timestamp (t : Timestamp) (col : list cell) : result (list bool) :=
  mapM (fun c => d <- as_datetime invalid_comparison c ;;
                 Ok (match d with Some u => ts_leb t u | None => false end)) col.

Definition le_timestamp (t : Timestamp) (col : list cell) : result (list bool) :=
  mapM (fun c => d <- as_datetime invalid_comparison c ;;
                 Ok (match d with Some u => ts_leb u t | None => false end)) col.

(** [a & b] on aligned masks. *)
Definition mask_and (a b : list bool) : list bool :=
  map (fun p => fst p && snd p) (combine a b).

(** [series.isin(allowed)] *)
Definition isin (allowed : list cell) (col : list cell) : list bool :=
  map (fun c => existsb (cell_eqb c) allowed) col.

(** [df.dropna(subset=[c])] *)
Definition dropna_subset (df : DataFrame) (c : string) : result DataFrame :=
  s <- getitem df c ;;
  Ok (select df (map (fun v => negb (isna v)) (values s))).

(** ** Ordering of keys *)

Definition cell_rank (c : cell) : Z :=
  match c with
  | NA => 0 | Num _ => 1 | Str _ => 2 | Time _ => 3 | Period _ => 4
  end.

(** The order group keys and pivot labels are sorted by: numbers, strings
    (code-point order), timestamps and periods each by their own order. *)
Definition cell_compare (a b : cell) : comparison :=
  match a, b with
  | Num x, Num y => Z.compare x y
  | Str s, Str t => String.compare s t
  | Time s, Time t => ts_compare s t
  | Period p, Period q => Z.compare p q
  | _, _ => Z.compare (cell_rank a) (cell_rank b)
  end.

Fixpoint insert_sorted (x : cell) (l : list cell) : list cell :=
  match l with
  | [] => [x]
  | y :: l' =>
      match cell_compare x y with
      | Gt => y :: insert_sorted x l'
      | _ => x :: l
      end
  end.

Definition sort_cells (l : list cell) : list cell := fold_right insert_sorted [] l.

(** [series.unique()]: distinct values in order of first appearance. *)
Fixpoint unique (l : list cell) : list cell :=
  match l with
  | [] => []
  | x :: l' => x :: filter (fun y => negb (cell_eqb x y)) (unique l')
  end.

Definition notna (c : cell) : bool := negb (isna c).

(** The sorted distinct non-null keys: the index of a group-by result. *)
Definition group_keys (keys : list cell) : list cell :=
  sort_cells (unique (filter notna keys)).

(** ** Sums, group-by and extremal labels *)

Definition unsupported_sum : error := TypeError "unsupported operand type(s) for +".

(** A cell of a numeric column. *)
Definition as_number (c : cell) : result (option Z) :=
  match c with
  | NA => Ok None
  | Num z => Ok (Some z)
  | _ => Raise unsupported_sum
  end.

Definition numeric (col : list cell) : result (list (option Z)) := mapM as_number col.

(** Sum that skips missing values; the sum of nothing is 0. *)
Fixpoint nansum (l : list (option Z)) : Z :=
  match l with
  | [] => 0
  | Some z :: l' => z + nansum l'
  | None :: l' => nansum l'
  end.

(** [series.sum()] *)
Definition series_sum (col : list cell) : result Z :=
  n <- numeric col ;; Ok (nansum n).

(** The values of the rows whose key is [k]. *)
Definition group_values (k : cell) (keyed : list (cell * option Z)) : list (option Z) :=
  map snd (filter (fun kv => cell_eqb (fst kv) k) keyed).

(** [df.groupby(keys)[c].sum()]: one entry per distinct non-null key, sorted
    by key; rows with a missing key belong to no group. *)
Definition groupby_sum (keys : list cell) (vals : list cell) : result (list (cell * Z)) :=
  n <- numeric vals ;;
  let keyed := combine keys n in
  Ok (map (fun k => (k, nansum (group_values k keyed))) (group_keys keys)).

(** [series.reset_index()] of a group-by result: the keys become a column
    named after the key series, the sums one named after the value column. *)
Definition reset_index (key_label val_label : string) (s : list (cell * Z)) : DataFrame :=
  mkDataFrame [key_label; val_label]
    (range_index 0 (map (fun kv => [fst kv; Num (snd kv)]) s)).

(** Label and value of the first maximum among the non-missing entries. *)
Fixpoint argmax {L : Type} (best : option (L * Z)) (s : list (L * option Z))
  : option (L * Z) :=
  match s with
  | [] => best
  | (_, None) :: s' => argmax best s'
  | (l, Some v) :: s' =>
      match best with
      | Some (_, b) => if b <? v then argmax (Some (l, v)) s' else argmax best s'
      | None => argmax (Some (l, v)) s'
      end
  end.

Definition empty_argmax : error :=
  ValueError "attempt to get argmax of an empty sequence".

(** [series.idxmax()]: raises on an empty series (and on one with only
    missing values). *)
Definition idxmax {L : Type} (s : list (L * option Z)) : result L :=
  match s with
  | [] => Raise empty_argmax
  | _ =>
      match argmax None s with
      | Some (l, _) => Ok l
      | None => Raise (ValueError "Encountered all NA values")
      end
  end.

(** [df.loc[l, c]] for a unique index. *)
Definition loc (df : DataFrame) (l : Z) (c : string) : result cell :=
  match col_pos c (columns df) with
  | None => Raise (KeyError c)
  | Some i =>
      match find (fun r => label r =? l) (rows df) with
      | Some r => Ok (at_pos i r)
      | None => Raise (KeyError "index label")
      end
  end.

(** ** Datetime accessors *)

Definition not_datetimelike : error :=
  AttributeError "Can only use .dt accessor with datetimelike values".

(** [series.dt.to_period('M')] *)
Definition dt_to_period_M (col : list cell) : result (list cell) :=
  mapM (fun c => d <- as_datetime not_datetimelike c ;;
                 Ok (match d with Some t => Period (to_period_M t) | None => NA end)) col.

(** [series.dt.day_name()] and [series.dt.hour] *)
Definition dt_day_name (col : list cell) : result (list cell) :=
  mapM (fun c => d <- as_datetime not_datetimelike c ;;
                 Ok (match d with Some t => Str (day_name t) | None => NA end)) col.

Definition dt_hour (col : list cell) : result (list cell) :=
  mapM (fun c => d <- as_datetime not_datetimelike c ;;
                 Ok (match d with Some t => Num (hour t) | None => NA end)) col.

(** [series.dt.to_timestamp()] on a period column. *)
Definition dt_to_timestamp (col : list cell) : result (list cell) :=
  mapM (fun c => match c with
                 | NA => Ok NA
                 | Period p => Ok (Time (period_to_timestamp p))
                 | _ => Raise not_datetimelike
                 end) col.

(** ** Pivot tables *)

(** A numeric table with labelled rows and columns; [None] is NaN. *)
Record Matrix : Type := mkMatrix {
  mcolumns : list cell;
  mrows : list (cell * list (option Z))
}.

(** One cell of the cross-tabulation: the sum over the rows carrying both
    labels, or the fill value when there is no such row. *)
Definition pivot_cell (fill : option Z) (keyed : list ((cell * cell) * option Z))
  (i c : cell) : option Z :=
  match filter (fun kv => cell_eqb (fst (fst kv)) i && cell_eqb (snd (fst kv)) c) keyed with
  | [] => fill
  | g => Some (nansum (map snd g))
  end.

(** The values with their two labels, for the rows that have both. *)
Definition labelled_values (ki kc : list cell) (n : list (option Z))
  : list ((cell * cell) * option Z) :=
  filter (fun kv => notna (fst (fst kv)) && notna (snd (fst kv)))
    (combine (combine ki kc) n).

(** [df.pivot_table(index=i, columns=c, values=v, aggfunc='sum',
    fill_value=fill)]: rows missing either label are left out; both axes are
    the sorted distinct labels. *)
Definition pivot_table_sum (df : DataFrame) (index cols vals : string) (fill : option Z)
  : result Matrix :=
  v <- getitem df vals ;;
  ki <- getitem df index ;;
  kc <- getitem df cols ;;
  n <- numeric (values v) ;;
  let keyed := labelled_values (values ki) (values kc) n in
  let I := group_keys (map (fun kv => fst (fst kv)) keyed) in
  let C := group_keys (map (fun kv => snd (fst kv)) keyed) in
  Ok (mkMatrix C (map (fun i => (i, map (pivot_cell fill keyed i) C)) I)).

Fixpoint lookup_row (l : cell) (rs : list (cell * list (option Z)))
  : option (list (option Z)) :=
  match rs with
  | [] => None
  | (k, r) :: rs' => if cell_eqb l k then Some r else lookup_row l rs'
  end.

(** [m.reindex(labels)]: the rows in the order of [labels]; a label the table
    does not have gets a row of NaN. *)
Definition reindex (m : Matrix) (labels : list cell) : Matrix :=
  mkMatrix (mcolumns m)
    (map (fun l => (l, match lookup_row l (mrows m) with
                       | Some r => r
                       | None => repeat None (List.length (mcolumns m))
                       end)) labels).

(** [m.sum().sum()]: the total over all cells, NaN skipped. *)
Definition grand_total (m : Matrix) : Z :=
  fold_right (fun r acc => nansum (snd r) + acc) 0 (mrows m).

(** ** Scalar comparison and distinct counts *)

(** [series == x] for a scalar [x]: a missing cell is equal to nothing. *)
Definition eq_scalar (x : cell) (col : list cell) : list bool :=
  map (fun c => notna c && cell_eqb c x) col.

(** [series.nunique()]: the number of distinct non-null values. *)
Definition nunique (col : list cell) : Z :=
  Z.of_nat (List.length (unique (filter notna col))).

(** ** Counting and top-N *)

Section Ranking.
(** [sort_values(ascending=False)] by a numeric key.  It is a parameter
    because the order the library gives to entries with equal keys depends
    on its sorting algorithm. *)
Variable sort_values_desc : forall A : Type, (A -> Z) -> list A -> list A.

(** [series.value_counts()]: the count of each distinct non-null value,
    greatest first. *)
Definition value_counts (col : list cell) : list (cell * Z) :=
  sort_values_desc (cell * Z)%type snd
    (map (fun k => (k, Z.of_nat (List.length (filter (fun c => cell_eqb c k) col))))
         (unique (filter notna col))).
End Ranking.

Section Largest.
(** The descending order in which [nlargest] lists a series of numbers; a
    parameter for the same reason. *)
Variable order_desc : list (cell * Z) -> list (cell * Z).

(** [series.nlargest(n)]: the [n] greatest entries, greatest first. *)
Definition nlargest (n : nat) (s : list (cell * Z)) : list (cell * Z) :=
  firstn n (order_desc s).
End Largest.

(** A stable descending insertion sort, one instance of the parameters: of
    two entries with the same key the earlier stays first. *)
Fixpoint insert_desc {A : Type} (key : A -> Z) (x : A) (l : list A) : list A :=
  match l with
  | [] => [x]
  | y :: l' => if key y <=? key x then x :: l else y :: insert_desc key x l'
  end.

Definition stable_sort_desc (A : Type) (key : A -> Z) (l : list A) : list A :=
  fold_right (insert_desc key) [] l.

(** [df.groupby(keys)[c].count()]: the number of non-null values of [c] in
    each group. *)
Definition groupby_count (keys vals : list cell) : list (cell * Z) :=
  let keyed := combine keys vals in
  map (fun k => (k, Z.of_nat (List.length
                       (filter (fun kv => cell_eqb (fst kv) k && notna (snd kv)) keyed))))
      (group_keys keys).

(** [df.columns = labels]: the number of labels must be the number of
    columns. *)
Definition set_columns (labels : list string) (df : DataFrame) : result DataFrame :=
  if Nat.eqb (List.length labels) (List.length (columns df)) then
    Ok (mkDataFrame labels (rows df))
  else
    Raise (ValueError "Length mismatch").

(** ** Other aggregates of a group *)

(** The values of the rows whose key is [k], in row order. *)
Definition group_cells {V : Type} (k : cell) (keyed : list (cell * V)) : list V :=
  map snd (filter (fun kv => cell_eqb (fst kv) k) keyed).

(** [min] over the timestamps of a group: the earliest one, missing ones
    skipped; missing when the group has none. *)
Fixpoint nanmin (l : list (option Timestamp)) : option Timestamp :=
  match l with
  | [] => None
  | None :: l' => nanmin l'
  | Some t :: l' =>
      match nanmin l' with
      | Some m => if ts_leb t m then Some t else Some m
      | None => Some t
      end
  end.

Definition time_cell (d : option Timestamp) : cell :=
  match d with
  | Some t => Time t
  | None => NA
  end.

(** [first] over a group: its first non-null value, missing when it has
    none. *)
Definition first_valid (l : list cell) : cell :=
  match filter notna l with
  | c :: _ => c
  | [] => NA
  end.

(** * The master dashboard, [mondaq_dashboard_master.py] *)

Module Master.

(** The values the sidebar widgets return; the two dates already passed
    through [pd.to_datetime]. *)
Record Controls : Type := mkControls {
  start_date : Timestamp;
  end_date : Timestamp;
  country_filter : list cell;
  industry_filter : list cell
}.

(** The module-level frames the tabs read. *)
Record Globals : Type := mkGlobals {
  reader_df : DataFrame;
  merged_df : DataFrame;
  filtered_articles : DataFrame;
  filtered_readers : DataFrame
}.

(** Calls to the forecasting library and to the page that the Predictive
    Insights tab makes, in order. *)
Inductive event : Type :=
| ProphetFit (ts_df : DataFrame)
| MakeFutureDataframe (periods : Z) (freq : string)
| ProphetPredict
| PlotlyChart (title : string)
| StWarning (msg : string).

Definition canonical_labels : list (string * string) :=
  [("Reads_article", "Article Reads"); ("Author Name_article", "Author Name")].

(** Lines 28-29: the join and the renaming to canonical labels. *)
Definition join_authors (article_df author_df : DataFrame) : result DataFrame :=
  merged <- merge_left article_df author_df "Author Id" "_article" "_author" ;;
  Ok (rename canonical_labels merged).

Section Loader.
Variable parse : list cell -> cell -> option Timestamp.

(** Lines 16-31; the arguments are the three tables as [read_csv]
    returns them. *)
Definition load_data (reader_csv article_csv author_csv : DataFrame)
  : result (DataFrame * DataFrame) :=
  let reader_df := strip_columns reader_csv in
  let article_df := strip_columns article_csv in
  let author_df := strip_columns author_csv in
  reader_df <- parse_date_column parse ErrorsCoerce reader_df "Last Access Date" ;;
  article_df <- parse_date_column parse ErrorsCoerce article_df "Date" ;;
  merged_df <- join_authors article_df author_df ;;
  Ok (reader_df, merged_df).
End Loader.

(** Lines 41-42. *)
Definition filter_articles (merged : DataFrame) (start_ end_ : Timestamp)
  : result DataFrame :=
  d1 <- getitem merged "Date" ;;
  ge <- ge_timestamp start_ (values d1) ;;
  d2 <- getitem merged "Date" ;;
  le <- le_timestamp end_ (values d2) ;;
  Ok (select merged (mask_and ge le)).

(** Lines 43-44. *)
Definition filter_readers (readers : DataFrame) (countries industries : list cell)
  : result DataFrame :=
  c <- getitem readers "Country" ;;
  i <- getitem readers "Industry" ;;
  Ok (select readers (mask_and (isin countries (values c)) (isin industries (values i)))).

(** Lines 33-44: the frames every later block sees. *)
Definition sidebar_filters (readers merged : DataFrame) (w : Controls) : result Globals :=
  fa <- filter_articles merged (start_date w) (end_date w) ;;
  fr <- filter_readers readers (country_filter w) (industry_filter w) ;;
  Ok (mkGlobals readers merged fa fr).

(** Line 51: [int(filtered_articles['Article Reads'].sum())]. *)
Definition total_reads (view : DataFrame) : result Z :=
  s <- getitem view "Article Reads" ;;
  series_sum (values s).

(** Line 52: [groupby('Author Name')['Article Reads'].sum().idxmax()]. *)
Definition top_author (view : DataFrame) : result cell :=
  names <- getitem view "Author Name" ;;
  reads <- getitem view "Article Reads" ;;
  sums <- groupby_sum (values names) (values reads) ;;
  idxmax (map (fun kv => (fst kv, Some (snd kv))) sums).

(** Line 53: [view.loc[view['Article Reads'].idxmax(), 'Title']]. *)
Definition top_article (view : DataFrame) : result cell :=
  reads <- getitem view "Article Reads" ;;
  n <- numeric (values reads) ;;
  l <- idxmax (combine (map fst reads) n) ;;
  loc view l "Title".

(** Lines 49-53: the four metrics, evaluated in order. *)
Definition kpis (g : Globals) : result (Z * Z * cell * cell) :=
  let readers := len (filtered_readers g) in
  total <- total_reads (filtered_articles g) ;;
  author <- top_author (filtered_articles g) ;;
  article <- top_article (filtered_articles g) ;;
  Ok (readers, total, author, article).

(** Lines 85 and 196:
    [view.groupby(view['Date'].dt.to_period('M'))['Article Reads'].sum().reset_index()]. *)
Definition monthly_sum (view : DataFrame) : result DataFrame :=
  dates <- getitem view "Date" ;;
  periods <- dt_to_period_M (values dates) ;;
  reads <- getitem view "Article Reads" ;;
  sums <- groupby_sum periods (values reads) ;;
  Ok (reset_index "Date" "Article Reads" sums).

(** Lines 86 and 197: [agg['Date'] = agg['Date'].dt.to_timestamp()]. *)
Definition month_start (agg : DataFrame) : result DataFrame :=
  months <- getitem agg "Date" ;;
  stamps <- dt_to_timestamp (values months) ;;
  Ok (setitem agg "Date" stamps).

(** Lines 85-86 and 196-197: reads summed per calendar month, the month
    shown as its first instant. *)
Definition monthly_reads (view : DataFrame) : result DataFrame :=
  agg <- monthly_sum view ;;
  month_start agg.

(** Line 85: the Article Insights tab buckets the filtered view. *)
Definition reads_over_time (g : Globals) : result DataFrame :=
  monthly_reads (filtered_articles g).

(** Lines 149-153. *)
Definition heatmap_data (readers : DataFrame) : result Matrix :=
  valid <- dropna_subset readers "Last Access Date" ;;
  t1 <- getitem valid "Last Access Date" ;;
  days <- dt_day_name (values t1) ;;
  let valid := setitem valid "Day" days in
  t2 <- getitem valid "Last Access Date" ;;
  hours <- dt_hour (values t2) ;;
  let valid := setitem valid "Hour" hours in
  table <- pivot_table_sum valid "Day" "Hour" "Reads" (Some 0) ;;
  Ok (reindex table (map Str day_names)).

(** Lines 196-198: the series handed to the forecaster. *)
Definition forecast_series (g : Globals) : result DataFrame :=
  agg_df <- monthly_reads (merged_df g) ;;
  Ok (rename [("Date", "ds"); ("Article Reads", "y")] agg_df).

(** Lines 196-207. *)
Definition predictive_insights (g : Globals) : result (list event) :=
  ts_df <- forecast_series g ;;
  if 6 <=? len ts_df then
    Ok [ProphetFit ts_df; MakeFutureDataframe 3 "M"; ProphetPredict;
        PlotlyChart "Predicted Total Article Reads"]
  else
    Ok [StWarning "Not enough data to generate a forecast."].

(** Line 38: the options of the country selector, which are its default
    selection too: [reader_df['Country'].unique()]. *)
Definition country_options (readers : DataFrame) : result (list cell) :=
  c <- getitem readers "Country" ;;
  Ok (unique (values c)).

(** Line 39: [reader_df['Industry'].dropna().unique()]. *)
Definition industry_options (readers : DataFrame) : result (list cell) :=
  i <- getitem readers "Industry" ;;
  Ok (unique (filter notna (values i))).

(** Lines 52, 93 and 167: [view.groupby('Author Name')['Article Reads'].sum()]. *)
Definition reads_by_author (view : DataFrame) : result (list (cell * Z)) :=
  names <- getitem view "Author Name" ;;
  reads <- getitem view "Article Reads" ;;
  groupby_sum (values names) (values reads).

(** Line 112: [reader_df[reader_df['Company Name'] == selected_company]]. *)
Definition company_data (readers : DataFrame) (selected_company : cell)
  : result DataFrame :=
  c <- getitem readers "Company Name" ;;
  Ok (select readers (eq_scalar selected_company (values c))).

(** Line 115: [len(company_data)]. *)
Definition company_total_readers (readers : DataFrame) (selected_company : cell)
  : result Z :=
  d <- company_data readers selected_company ;;
  Ok (len d).

(** Line 116: [int(company_data['Reads'].sum())]. *)
Definition company_total_reads (readers : DataFrame) (selected_company : cell)
  : result Z :=
  d <- company_data readers selected_company ;;
  r <- getitem d "Reads" ;;
  series_sum (values r).

(** Lines 171-175: the three summary metrics of the report. *)
Definition summary_metrics (g : Globals) : result (Z * Z * Z) :=
  total <- total_reads (filtered_articles g) ;;
  ids <- getitem (filtered_articles g) "Article Id" ;;
  users <- getitem (filtered_readers g) "User Id" ;;
  Ok (total, nunique (values ids), nunique (values users)).

Section CompanyTab.
(** Python's [sorted] on the distinct company names.  It is a parameter:
    what it returns for values that do not all compare (numbers among
    missing values) depends on the sorting algorithm.  The properties below
    assume of it only that a list it returns is a rearrangement of its
    argument, and that it raises [TypeError] when a missing value (a float)
    and a string occur together. *)
Variable sorted : list cell -> result (list cell).

(** Line 111: the options of the company selector. *)
Definition company_options (readers : DataFrame) : result (list cell) :=
  c <- getitem readers "Company Name" ;;
  sorted (unique (values c)).

(** Lines 111-116: the company picked in the selector, given by its position
    among the options (no option, hence [None], when there is none), and
    the metrics Total Readers and Total Reads of its readers. *)
Definition company_metrics (readers : DataFrame) (choice : nat) : result (Z * Z) :=
  options <- company_options readers ;;
  let selected_company := nth choice options NA in
  company <- company_data readers selected_company ;;
  reads <- getitem company "Reads" ;;
  total <- series_sum (values reads) ;;
  Ok (len company, total).
End CompanyTab.

(** One row of the author table. *)
Record AuthorStats : Type := mkAuthorStats {
  author_name : cell;
  articles : Z;
  article_reads : Z;
  historic_reads : Z;
  profile_views : Z
}.

Definition stats_row (s : AuthorStats) : list cell :=
  [author_name s; Num (articles s); Num (article_reads s);
   Num (historic_reads s); Num (profile_views s)].

(** Lines 98-103, up to the renaming: the four aggregates of each author,
    computed column by column over the same groups. *)
Definition author_stats (view : DataFrame) : result (list AuthorStats) :=
  names <- getitem view "Author Name" ;;
  ids <- getitem view "Article Id" ;;
  reads <- getitem view "Article Reads" ;;
  historic <- getitem view "Historic Reads" ;;
  profile <- getitem view "Profile Views" ;;
  let counts := groupby_count (values names) (values ids) in
  reads <- groupby_sum (values names) (values reads) ;;
  historic <- groupby_sum (values names) (values historic) ;;
  profile <- groupby_sum (values names) (values profile) ;;
  Ok (map (fun x => mkAuthorStats (fst (fst (fst (fst x)))) (snd (fst (fst (fst x))))
                      (snd (snd (fst (fst x)))) (snd (snd (fst x))) (snd (snd x)))
          (combine (combine (combine counts reads) historic) profile)).

(** One row of the Top Articles sheet. *)
Record ArticleStats : Type := mkArticleStats {
  stats_title : cell;
  stats_reads : Z;
  stats_date : cell;
  stats_author : cell
}.

Definition article_row (s : ArticleStats) : list cell :=
  [stats_title s; Num (stats_reads s); stats_date s; stats_author s].

(** Lines 162-166, up to the sort: the reads of each title summed, with the
    earliest date and the first author name of its rows.  [Date] is a
    datetime column in every frame the loader returns; the minimum of
    another kind of column is not modelled and raises here. *)
Definition article_stats (view : DataFrame) : result (list ArticleStats) :=
  titles <- getitem view "Title" ;;
  reads <- getitem view "Article Reads" ;;
  dates <- getitem view "Date" ;;
  authors <- getitem view "Author Name" ;;
  sums <- groupby_sum (values titles) (values reads) ;;
  stamps <- mapM (as_datetime (TypeError "not a datetime column")) (values dates) ;;
  Ok (map (fun kv =>
             mkArticleStats (fst kv) (snd kv)
               (time_cell (nanmin (group_cells (fst kv) (combine (values titles) stamps))))
               (first_valid
                  (group_cells (fst kv) (combine (values titles) (values authors)))))
          sums).

Section TopN.
Variable sort_values_desc : forall A : Type, (A -> Z) -> list A -> list A.
Variable order_desc : list (cell * Z) -> list (cell * Z).

(** Lines 70, 73, 76 and 120: [view[c].value_counts().nlargest(n)]. *)
Definition frequency_top (view : DataFrame) (c : string) (n : nat)
  : result (list (cell * Z)) :=
  s <- getitem view c ;;
  Ok (nlargest order_desc n (value_counts sort_values_desc (values s))).

(** Line 93:
    [view.groupby('Author Name')['Article Reads'].sum().nlargest(10).reset_index()]. *)
Definition top_authors (view : DataFrame) : result DataFrame :=
  sums <- reads_by_author view ;;
  Ok (reset_index "Author Name" "Article Reads" (nlargest order_desc 10 sums)).

(** Lines 98-103: the author table, greatest reads first. *)
Definition author_summary (view : DataFrame) : result DataFrame :=
  stats <- author_stats view ;;
  Ok (mkDataFrame
        ["Author Name"; "Articles"; "Article Reads"; "Historic Reads"; "Profile Views"]
        (range_index 0
           (map stats_row (sort_values_desc AuthorStats article_reads stats)))).

(** Line 167: the Top Authors sheet of the report,
    [....sum().reset_index().sort_values('Article Reads', ascending=False).head(10)];
    the rows keep the labels [reset_index] gave them. *)
Definition report_top_authors (view : DataFrame) : result DataFrame :=
  sums <- reads_by_author view ;;
  let frame := reset_index "Author Name" "Article Reads" sums in
  let keyed := combine (rows frame) (map snd sums) in
  Ok (mkDataFrame (columns frame)
        (firstn 10 (map fst (sort_values_desc (Row * Z)%type snd keyed)))).

(** Lines 168-169: the Country Breakdown sheet.  [reset_index] names the
    two columns after the series and its index; both labels are replaced. *)
Definition country_breakdown (readers : DataFrame) : result DataFrame :=
  c <- getitem readers "Country" ;;
  set_columns ["Country"; "Reader Count"]
    (reset_index "index" "Country" (value_counts sort_values_desc (values c))).

(** Lines 162-166: the Top Articles sheet of the report, greatest reads
    first, cut to ten rows. *)
Definition report_top_articles (view : DataFrame) : result DataFrame :=
  stats <- article_stats view ;;
  Ok (mkDataFrame ["Title"; "Article Reads"; "Date"; "Author Name"]
        (firstn 10
           (range_index 0
              (map article_row (sort_values_desc ArticleStats stats_reads stats))))).
End TopN.

Section Script.
Variable sort_values_desc : forall A : Type, (A -> Z) -> list A -> list A.
Variable order_desc : list (cell * Z) -> list (cell * Z).
Variable sorted : list cell -> result (list cell).
(** The position of the option picked in the company selector. *)
Variable company_choice : nat.

(** Lines 67-191, the seven tabs before the last, with both search boxes
    empty: the blocks defined above, in the order the script runs them.
    Left out are the table of line 81, the mean of line 117, the column
    selections handed to [st.dataframe], the plots and the workbook
    writer. *)
Definition tabs_before_forecast (g : Globals) : result unit :=
  _ <- frequency_top sort_values_desc order_desc (filtered_readers g) "Country" 10 ;;
  _ <- frequency_top sort_values_desc order_desc (filtered_readers g) "Industry" 10 ;;
  _ <- frequency_top sort_values_desc order_desc (filtered_readers g) "Position" 10 ;;
  _ <- reads_over_time g ;;
  _ <- top_authors order_desc (filtered_articles g) ;;
  _ <- author_summary sort_values_desc (filtered_articles g) ;;
  options <- company_options sorted (reader_df g) ;;
  let selected_company := nth company_choice options NA in
  company <- company_data (reader_df g) selected_company ;;
  reads <- getitem company "Reads" ;;
  _ <- series_sum (values reads) ;;
  _ <- frequency_top sort_values_desc order_desc company "Position" 5 ;;
  _ <- heatmap_data (reader_df g) ;;
  _ <- report_top_articles sort_values_desc (filtered_articles g) ;;
  _ <- report_top_authors sort_values_desc (filtered_articles g) ;;
  _ <- country_breakdown sort_values_desc (filtered_readers g) ;;
  _ <- summary_metrics g ;;
  Ok tt.

(** Lines 33-207: one run of the script from the filters on.  The script
    runs top to bottom, so the Predictive Insights tab is reached only when
    the KPI row and the tabs before it returned. *)
Definition run (readers merged : DataFrame) (w : Controls) : result (list event) :=
  g <- sidebar_filters readers merged w ;;
  _ <- kpis g ;;
  _ <- tabs_before_forecast g ;;
  predictive_insights g.
End Script.

End Master.

(** * The basic dashboard, [mondaq_dashboard_app.py] *)

Module App.

Section Loader.
Variable parse : list cell -> cell -> option Timestamp.

(** Lines 11-24: the same join, then the date column of the merged frame
    parsed with the default [errors='raise']. *)
Definition load_data (reader_csv article_csv author_csv : DataFrame)
  : result (DataFrame * DataFrame) :=
  let reader_df := strip_columns reader_csv in
  let article_df := strip_columns article_csv in
  let author_df := strip_columns author_csv in
  merged_df <- Master.join_authors article_df author_df ;;
  merged_df <- parse_date_column parse ErrorsRaise merged_df "Date" ;;
  Ok (reader_df, merged_df).
End Loader.

(** Lines 49-50. *)
Definition reads_over_time (merged : DataFrame) : result DataFrame :=
  Master.monthly_reads merged.

Section VideoAuthors.
Variable sort_values_desc : forall A : Type, (A -> Z) -> list A -> list A.

(** Lines 61-63: the articles whose tag cell is [Video], counted by author. *)
Definition video_authors (merged : DataFrame) : result DataFrame :=
  tags <- getitem merged "Mondaq Tags" ;;
  let video_df := select merged (eq_scalar (Str "Video") (values tags)) in
  a <- getitem video_df "Author Name" ;;
  set_columns ["Author Name"; "Video Count"]
    (reset_index "index" "Author Name" (value_counts sort_values_desc (values a))).
End VideoAuthors.

End App.

(** * Sample data *)

(** A parser for the [YYYY-MM-DD] fragment of the accepted date formats, used
    to run the loaders on concrete tables. *)
Definition digit (a : ascii) : option Z :=
  let n := Z.of_nat (nat_of_ascii a) in
  if (48 <=? n) && (n <=? 57) then Some (n - 48) else None.

Fixpoint digits (acc : Z) (l : list ascii) : option Z :=
  match l with
  | [] => Some acc
  | a :: l' =>
      match digit a with
      | Some d => digits (10 * acc + d) l'
      | None => None
      end
  end.

Definition iso_date (s : string) : option Timestamp :=
  match list_ascii_of_string s with
  | [y1; y2; y3; y4; "-"%char; m1; m2; "-"%char; d1; d2] =>
      match digits 0 [y1; y2; y3; y4], digits 0 [m1; m2], digits 0 [d1; d2] with
      | Some y, Some m, Some d =>
          if (1 <=? m) && (m <=? 12) && (1 <=? d) && (d <=? 31)
          then Some (mkTimestamp y m d 0 0 0) else None
      | _, _, _ => None
      end
  | _ => None
  end.

Definition iso_parse (col : list cell) (c : cell) : option Timestamp :=
  match c with
  | Str s => iso_date s
  | _ => None
  end.

(** The three exports, as [read_csv] returns them: labels still padded, dates
    still text. *)
Definition sample_readers : DataFrame :=
  mkDataFrame
    ["User Id"; "Full Name"; " Country"; "Industry"; "Reads"; "Last Access Date "]
    [ mkRow 0 [Num 1; Str "Ana"; Str "US"; Str "Tech"; Num 3; Str "2024-01-15"];
      mkRow 1 [Num 2; Str "Ben"; Str "UK"; Str "Finance"; Num 4; Str "2024-01-16"];
      mkRow 2 [Num 3; Str "Cai"; Str "UK"; NA; Num 5; Str "yesterday"];
      mkRow 3 [Num 4; Str "Dee"; Str "US"; Str "Tech"; NA; Str "2024-01-22"] ].

Definition sample_articles : DataFrame :=
  mkDataFrame
    ["Article Id"; "Title"; "Author Id"; "Author Name"; "Date "; "Reads"]
    [ mkRow 0 [Num 100; Str "On leases"; Num 10; Str "Ann"; Str "2024-01-15"; Num 10];
      mkRow 1 [Num 101; Str "On trusts"; Num 11; Str "Bob"; Str "2024-02-01"; Num 5];
      mkRow 2 [Num 102; Str "On torts"; Num 12; Str "Cy"; Str "not a date"; Num 7];
      mkRow 3 [Num 103; Str "On liens"; Num 10; Str "Ann"; Str "2024-01-20"; Num 3] ].

Definition sample_authors : DataFrame :=
  mkDataFrame
    ["Author Id"; "Author Name"; "Reads"; "Historic Reads"; "Profile Views"]
    [ mkRow 0 [Num 10; Str "Ann"; Num 13; Num 100; Num 7];
      mkRow 1 [Num 11; Str "Bob"; Num 5; Num 50; Num 2] ].

Definition empty_frame : DataFrame := mkDataFrame [] [].

(** The two frames [Master.load_data] returns on the sample exports. *)
Definition sample_reader_df : DataFrame :=
  Eval vm_compute in
    match Master.load_data iso_parse sample_readers sample_articles sample_authors with
    | Ok (r, _) => r
    | Raise _ => empty_frame
    end.

Definition sample_merged_df : DataFrame :=
  Eval vm_compute in
    match Master.load_data iso_parse sample_readers sample_articles sample_authors with
    | Ok (_, m) => m
    | Raise _ => empty_frame
    end.

Definition midnight (y m d : Z) : Timestamp := mkTimestamp y m d 0 0 0.

(** Every article and reader selected. *)
Definition controls_all : Master.Controls :=
  Master.mkControls (midnight 2024 1 1) (midnight 2024 12 31)
    [Str "US"; Str "UK"] [Str "Tech"; Str "Finance"].

(** A date range that holds no article. *)
Definition controls_2023 : Master.Controls :=
  Master.mkControls (midnight 2023 1 1) (midnight 2023 12 31)
    [Str "US"; Str "UK"] [Str "Tech"; Str "Finance"].

(** A merged frame whose articles span six calendar months. *)
Definition six_month_merged_df : DataFrame :=
  mkDataFrame ["Title"; "Date"; "Article Reads"; "Author Name"]
    [ mkRow 0 [Str "a"; Time (midnight 2024 1 15); Num 10; Str "Ann"];
      mkRow 1 [Str "b"; Time (midnight 2024 2 1); Num 5; Str "Bob"];
      mkRow 2 [Str "c"; Time (midnight 2024 3 9); Num 7; Str "Ann"];
      mkRow 3 [Str "d"; Time (midnight 2024 4 30); Num 1; Str "Bob"];
      mkRow 4 [Str "e"; Time (midnight 2024 5 2); Num 2; Str "Ann"];
      mkRow 5 [Str "f"; Time (midnight 2024 6 6); Num 4; Str "Cy"];
      mkRow 6 [Str "g"; Time (midnight 2024 6 7); Num 6; Str "Cy"] ].

Definition globals_of (readers merged : DataFrame) (w : Master.Controls) : Master.Globals :=
  match Master.sidebar_filters readers merged w with
  | Ok g => g
  | Raise _ => Master.mkGlobals readers merged empty_frame empty_frame
  end.

Definition sample_globals : Master.Globals :=
  Eval vm_compute in globals_of sample_reader_df sample_merged_df controls_all.

Definition six_month_globals : Master.Globals :=
  Eval vm_compute in globals_of sample_reader_df six_month_merged_df controls_all.

(** The columns the interface description lists for the article and the
    author export, and one table over each. *)
Definition declared_article_schema : list string :=
  ["Article Id"; "Title"; "Author Id"; "Date"; "Reads"; "Historic Reads";
   "Profile Views"; "Mondaq Tags"].

Definition declared_author_schema : list string := ["Author Id"; "Author Name"].



(** An author export that lists author 10 twice. *)
Definition repeated_authors : DataFrame :=
  mkDataFrame declared_author_schema
    [ mkRow 0 [Num 10; Str "Ann"]; mkRow 1 [Num 10; Str "Ann (London)"] ].

Definition one_article : DataFrame :=
  mkDataFrame declared_article_schema
    [ mkRow 0 [Num 100; Str "On leases"; Num 10; Time (midnight 2024 1 15); Num 10;
               Num 40; Num 2; Str "Video"] ].

(** ** Join keys *)

(** The cells of the key column, and the key of one row. *)
Definition key_column (df : DataFrame) (key : string) : list cell :=
  match col_pos key (columns df) with
  | Some j => map (at_pos j) (rows df)
  | None => []
  end.

Definition key_of (df : DataFrame) (key : string) (r : Row) : cell :=
  match col_pos key (columns df) with
  | Some i => at_pos i r
  | None => NA
  end.

(** ** Shape of a monthly series *)

(** The frame [Master.monthly_reads] returns for the months [ps], given as
    ordinal and sum. *)
Definition monthly_frame (ps : list (Z * Z)) : DataFrame :=
  mkDataFrame ["Date"; "Article Reads"]
    (range_index 0
       (map (fun x => [Time (period_to_timestamp (fst x)); Num (snd x)]) ps)).

Definition ordinal_of (c : cell) : Z :=
  match c with
  | Period p => p
  | _ => 0
  end.

(** [a] does not sort after [b]. *)
Definition cell_le (a b : cell) : Prop := cell_compare a b <> Gt.

(** The single output row of a left row when right keys are unique. *)
Definition joined_cells (i j : nat) (right : DataFrame) (l : Row) : list cell :=
  match matches j (at_pos i l) right with
  | [] => cells l ++ repeat NA (List.length (remove_at j (columns right)))
  | r :: _ => cells l ++ remove_at j (cells r)
  end.

(** ** Sums over labels *)

(** The sum of [f] over a list of labels. *)
Definition sum_over (f : cell -> Z) (labels : list cell) : Z :=
  fold_right (fun k acc => f k + acc) 0 labels.

Definition value_of (v : option Z) : Z :=
  match v with
  | Some z => z
  | None => 0
  end.

(** The timestamp in a cell of a datetime column. *)
Definition stamp_of (c : cell) : Timestamp :=
  match c with
  | Time t => t
  | _ => mkTimestamp 1970 1 1 0 0 0
  end.

(** The heatmap of the sample readers. *)
Definition sample_heatmap : Matrix :=
  Eval vm_compute in
    match Master.heatmap_data sample_reader_df with
    | Ok m => m
    | Raise _ => mkMatrix [] []
    end.

(** The monthly series of the sample articles: January 13, February 5. *)
Definition sample_monthly : DataFrame :=
  Eval vm_compute in
    match Master.monthly_reads sample_merged_df with
    | Ok out => out
    | Raise _ => empty_frame
    end.

(** ** Column dtypes *)

Definition is_datetimelike (c : cell) : bool :=
  match c with
  | NA | Time _ => true
  | _ => false
  end.

Definition is_numeric (c : cell) : bool :=
  match c with
  | NA | Num _ => true
  | _ => false
  end.

(** The frame has the column and every cell of it satisfies [p]. *)
Definition column_all (p : cell -> bool) (df : DataFrame) (c : string) : bool :=
  match col_pos c (columns df) with
  | Some i => forallb (fun r => p (at_pos i r)) (rows df)
  | None => false
  end.

Definition datetime_column : DataFrame -> string -> bool := column_all is_datetimelike.
Definition numeric_column : DataFrame -> string -> bool := column_all is_numeric.

(** ** Row predicates of the filters *)

(** The cell holds a timestamp inside [[start_, end_]], bounds included. *)
Definition in_interval (start_ end_ : Timestamp) (c : cell) : bool :=
  match c with
  | Time t => ts_leb start_ t && ts_leb t end_
  | _ => false
  end.

(** The cell is one of the allowed values. *)
Definition allowed (values_ : list cell) (c : cell) : bool :=
  existsb (cell_eqb c) values_.

(** Every row has one cell per column. *)
Definition well_formed (df : DataFrame) : bool :=
  forallb (fun r => Nat.eqb (List.length (cells r)) (List.length (columns df))) (rows df).

(** How often a key occurs in a key column. *)
Definition occurrences (k : cell) (keys : list cell) : Z :=
  Z.of_nat (List.length (filter (fun c => cell_eqb c k) keys)).

(** Column [y] of the joined frame is column [x] of the article frame: same
    position, and every joined row starts with the cells of an article row
    and shows that row's value. *)
Definition carried_over (article merged : DataFrame) (x y : string) : Prop :=
  exists i,
    col_pos x (columns article) = Some i /\
    col_pos y (columns merged) = Some i /\
    forall m, In m (rows merged) ->
      exists l, In l (rows article) /\
                at_pos i m = at_pos i l /\
                firstn (List.length (cells l)) (cells m) = cells l.

(** The sample exports, labels trimmed, joined. *)
Definition sample_joined : DataFrame :=
  Eval vm_compute in
    match Master.join_authors (strip_columns sample_articles)
            (strip_columns sample_authors) with
    | Ok m => m
    | Raise _ => empty_frame
    end.

(** A view of two articles whose author name is missing. *)
Definition anonymous_articles : DataFrame :=
  mkDataFrame ["Title"; "Date"; "Article Reads"; "Author Name"]
    [ mkRow 0 [Str "a"; Time (midnight 2024 1 15); Num 10; NA];
      mkRow 1 [Str "b"; Time (midnight 2024 2 1); Num 5; NA] ].

(** Readers of two companies, one reader without a company. *)
Definition company_readers : DataFrame :=
  mkDataFrame ["Full Name"; "Company Name"; "Reads"]
    [ mkRow 0 [Str "Ana"; Str "Acme"; Num 3];
      mkRow 1 [Str "Ben"; Str "Birch"; Num 4];
      mkRow 2 [Str "Cai"; NA; Num 5];
      mkRow 3 [Str "Dee"; Str "Acme"; NA] ].

(** ** Parsed cells *)

(** What [errors='coerce'] makes of a cell when parsing does not depend on
    the column: a timestamp, or the missing marker. *)
Definition coerce_cell (parse : list cell -> cell -> option Timestamp) (c : cell) : cell :=
  match c with
  | NA => NA
  | Time t => Time t
  | _ => match parse [] c with
         | Some t => Time t
         | None => NA
         end
  end.

(** A row with the cell at position [i] parsed. *)
Definition parse_row (parse : list cell -> cell -> option Timestamp) (i : nat) (r : Row)
  : Row :=
  mkRow (label r) (set_nth i (coerce_cell parse (at_pos i r)) (cells r)).

(** An article export whose dates all parse, and what the basic
    dashboard's loader makes of it with the sample authors. *)
Definition parsable_articles : DataFrame :=
  mkDataFrame
    ["Article Id"; "Title"; "Author Id"; "Author Name"; "Date"; "Reads"]
    [ mkRow 0 [Num 100; Str "On leases"; Num 10; Str "Ann"; Str "2024-01-15"; Num 10];
      mkRow 1 [Num 101; Str "On trusts"; Num 11; Str "Bob"; Str "2024-02-01"; Num 5];
      mkRow 2 [Num 102; Str "On torts"; Num 12; Str "Cy"; NA; Num 7] ].

Definition parsable_merged : DataFrame :=
  Eval vm_compute in
    match App.load_data iso_parse sample_readers parsable_articles sample_authors with
    | Ok (_, m) => m
    | Raise _ => empty_frame
    end.

(** The number of rows of a frame that satisfy [p]. *)
Definition count_rows (p : Row -> bool) (df : DataFrame) : Z :=
  Z.of_nat (List.length (filter p (rows df))).

(** The sum of the values of a labelled series of numbers. *)
Definition total (s : list (cell * Z)) : Z :=
  fold_right (fun kv acc => snd kv + acc) 0 s.

(** The sum of a numeric field over a list of records. *)
Definition sum_of {A : Type} (f : A -> Z) (l : list A) : Z :=
  fold_right (fun a acc => f a + acc) 0 l.

(** Articles with a tag cell: one tagged [Video] among other tags, one
    without an author name, one without tags. *)
Definition tagged_articles : DataFrame :=
  mkDataFrame
    ["Title"; "Author Name"; "Mondaq Tags"]
    [ mkRow 0 [Str "On leases"; Str "Ann"; Str "Video"];
      mkRow 1 [Str "On trusts"; Str "Bob"; Str "Video, Tax"];
      mkRow 2 [Str "On liens"; Str "Ann"; Str "Video"];
      mkRow 3 [Str "On torts"; NA; Str "Video"];
      mkRow 4 [Str "On wills"; Str "Cy"; NA] ].

(** The stable sort as the order of [nlargest]. *)
Definition stable_order : list (cell * Z) -> list (cell * Z) :=
  stable_sort_desc (cell * Z) snd.

(** The Top Authors chart of the sample articles. *)
Definition sample_top_authors : DataFrame :=
  Eval vm_compute in
    match Master.top_authors stable_order sample_merged_df with
    | Ok t => t
    | Raise _ => empty_frame
    end.

(** The Top Countries chart of the sample readers. *)
Definition sample_top_countries : list (cell * Z) :=
  Eval vm_compute in
    match Master.frequency_top stable_sort_desc stable_order sample_reader_df "Country" 10 with
    | Ok t => t
    | Raise _ => []
    end.

(** The author table of the sample articles. *)
Definition sample_author_table : DataFrame :=
  Eval vm_compute in
    match Master.author_summary stable_sort_desc sample_merged_df with
    | Ok t => t
    | Raise _ => empty_frame
    end.

(** The Country Breakdown sheet of the sample readers. *)
Definition sample_country_sheet : DataFrame :=
  Eval vm_compute in
    match Master.country_breakdown stable_sort_desc sample_reader_df with
    | Ok t => t
    | Raise _ => empty_frame
    end.

(** The video chart of the tagged articles. *)
Definition sample_video_sheet : DataFrame :=
  Eval vm_compute in
    match App.video_authors stable_sort_desc tagged_articles with
    | Ok t => t
    | Raise _ => empty_frame
    end.

(** Articles that share a title. *)
Definition retitled_articles : DataFrame :=
  mkDataFrame
    ["Title"; "Author Name"; "Date"; "Article Reads"]
    [ mkRow 0 [Str "On leases"; NA; Time (midnight 2024 3 1); Num 4];
      mkRow 1 [Str "On trusts"; Str "Bob"; NA; Num 9];
      mkRow 2 [Str "On leases"; Str "Ann"; Time (midnight 2024 1 15); Num 10];
      mkRow 3 [NA; Str "Cy"; Time (midnight 2024 2 1); Num 50];
      mkRow 4 [Str "On leases"; Str "Dee"; NA; NA] ].

(** The Top Articles sheet of these articles. *)
Definition sample_top_articles_sheet : DataFrame :=
  Eval vm_compute in
    match Master.report_top_articles stable_sort_desc retitled_articles with
    | Ok t => t
    | Raise _ => empty_frame
    end.

(** The rows of a view with a given title. *)
Definition titled (view : DataFrame) (k : cell) : list Row :=
  filter (fun r => cell_eqb (key_of view "Title" r) k) (rows view).

(** An instance of [sorted]: the order of [sort_cells], and [TypeError] when
    a missing value and a string occur together. *)
Definition is_str (c : cell) : bool :=
  match c with
  | Str _ => true
  | _ => false
  end.

Definition sorted_cells (l : list cell) : result (list cell) :=
  if existsb isna l && existsb is_str l then
    Raise (TypeError "'<' not supported between instances of 'float' and 'str'")
  else
    Ok (sort_cells l).

(** Readers that all have a company. *)
Definition named_company_readers : DataFrame :=
  mkDataFrame ["Full Name"; "Company Name"; "Reads"]
    [ mkRow 0 [Str "Ana"; Str "Birch"; Num 3];
      mkRow 1 [Str "Ben"; Str "Acme"; Num 4];
      mkRow 2 [Str "Cai"; Str "Birch"; NA];
      mkRow 3 [Str "Dee"; Str "Acme"; Num 6] ].

(** A label made of ASCII characters, on which [strip] is [str.strip]. *)
Definition ascii_text (s : string) : bool :=
  forallb (fun a => Nat.ltb (nat_of_ascii a) 128) (list_ascii_of_string s).

(** A reader frame and a joined frame with every column the master
    dashboard reads, as the loader returns them; the articles span six
    calendar months of 2024. *)
Definition full_reader_df : DataFrame :=
  mkDataFrame
    ["User Id"; "Full Name"; "Email"; "Company Name"; "Country"; "Industry";
     "Position"; "Reads"; "Last Access Date"]
    [ mkRow 0 [Num 1; Str "Ana"; Str "ana@acme.example"; Str "Acme"; Str "US";
               Str "Tech"; Str "Counsel"; Num 3; Time (mkTimestamp 2024 1 15 9 30 0)];
      mkRow 1 [Num 2; Str "Ben"; Str "ben@birch.example"; Str "Birch"; Str "UK";
               Str "Finance"; Str "Partner"; Num 4; Time (mkTimestamp 2024 1 16 14 0 0)];
      mkRow 2 [Num 3; Str "Cai"; Str "cai@acme.example"; Str "Acme"; Str "UK";
               Str "Tech"; Str "Counsel"; Num 5; Time (mkTimestamp 2024 1 22 9 5 0)] ].

Definition full_merged_df : DataFrame :=
  mkDataFrame
    ["Article Id"; "Title"; "Author Id"; "Date"; "Article Reads"; "Historic Reads";
     "Profile Views"; "Mondaq Tags"; "Author Name"]
    [ mkRow 0 [Num 100; Str "On leases"; Num 10; Time (midnight 2024 1 15); Num 10;
               Num 100; Num 7; Str "Video"; Str "Ann"];
      mkRow 1 [Num 101; Str "On trusts"; Num 11; Time (midnight 2024 2 1); Num 5;
               Num 50; Num 2; Str "Tax"; Str "Bob"];
      mkRow 2 [Num 102; Str "On torts"; Num 10; Time (midnight 2024 3 9); Num 7;
               Num 70; Num 1; Str "Tax"; Str "Ann"];
      mkRow 3 [Num 103; Str "On liens"; Num 11; Time (midnight 2024 4 30); Num 1;
               Num 10; Num 0; Str "Video"; Str "Bob"];
      mkRow 4 [Num 104; Str "On wills"; Num 10; Time (midnight 2024 5 2); Num 2;
               Num 20; Num 3; Str "Tax"; Str "Ann"];
      mkRow 5 [Num 105; Str "On deeds"; Num 12; Time (midnight 2024 6 6); Num 4;
               Num 40; Num 4; Str "Tax"; Str "Cy"];
      mkRow 6 [Num 106; Str "On bonds"; Num 12; Time (midnight 2024 6 7); Num 6;
               Num 60; Num 5; Str "Video"; Str "Cy"] ].

(** One run of the master script on these frames, the sorts being the
    stable sort and the first company picked. *)
Definition full_run (w : Master.Controls) : result (list Master.event) :=
  Master.run stable_sort_desc stable_order sorted_cells 0
    full_reader_df full_merged_df w.

(** A date range that holds the articles of the first three months. *)
Definition controls_first_quarter : Master.Controls :=
  Master.mkControls (midnight 2024 1 1) (midnight 2024 3 31)
    [Str "US"; Str "UK"] [Str "Tech"; Str "Finance"].

(** A frame whose labels are ASCII text and stay distinct when trimmed.  On
    such a frame [strip] is [str.strip], and after the trimming [df[c]] is
    one column. *)
Definition plain_labels (df : DataFrame) : Prop :=
  forallb ascii_text (columns df) = true /\ NoDup (map strip (columns df)).

(** * Properties *)

(** ** The error monad *)

Lemma bind_ok {A B : Type} (r : result A) (k : A -> result B) (b : B) :
  bind r k = Ok b -> exists a, r = Ok a /\ k a = Ok b.
Proof.
  destruct r as [a | e]; simpl; intros H; [eauto | discriminate].
Qed.

Ltac inv_ok :=
  repeat match goal with
  | H : bind _ _ = Ok _ |- _ =>
      let a := fresh "a" in
      let Ha := fresh "Ha" in
      apply bind_ok in H; destruct H as (a & Ha & H)
  | H : Ok _ = Ok _ |- _ => injection H as H
  | H : Raise _ = Ok _ |- _ => discriminate H
  end.

Lemma mapM_ok_Forall2 {A B : Type} (f : A -> result B) (l : list A) (l' : list B) :
  mapM f l = Ok l' -> Forall2 (fun a b => f a = Ok b) l l'.
Proof.
  revert l'; induction l as [| a l IH]; simpl; intros l' H.
  - inv_ok. subst. constructor.
  - inv_ok. subst. constructor; auto.
Qed.

Lemma mapM_total {A B : Type} (f : A -> result B) (l : list A) :
  Forall (fun a => exists b, f a = Ok b) l -> exists l', mapM f l = Ok l'.
Proof.
  induction 1 as [| a l [b Hb] _ [l' Hl']]; simpl.
  - eauto.
  - rewrite Hb, Hl'. simpl. eauto.
Qed.

Lemma mapM_length {A B : Type} (f : A -> result B) (l : list A) (l' : list B) :
  mapM f l = Ok l' -> List.length l' = List.length l.
Proof.
  intros H. apply mapM_ok_Forall2 in H. symmetry. eapply Forall2_length; eauto.
Qed.

(** ** Column lookup *)

Lemma col_pos_In (c : string) (cols : list string) :
  In c cols -> exists i, col_pos c cols = Some i.
Proof.
  induction cols as [| c' cols IH]; simpl; [tauto |].
  intros [-> | H].
  - rewrite String.eqb_refl. eauto.
  - destruct (String.eqb c c'); [eauto |].
    destruct (IH H) as [i ->]. simpl. eauto.
Qed.

Lemma col_pos_nth (c : string) (cols : list string) (i : nat) :
  col_pos c cols = Some i -> nth_error cols i = Some c.
Proof.
  revert i; induction cols as [| c' cols IH]; simpl; intros i H; [discriminate |].
  destruct (String.eqb_spec c c') as [-> | _].
  - injection H as <-. reflexivity.
  - destruct (col_pos c cols) as [j |]; [| discriminate].
    injection H as <-. simpl. auto.
Qed.

Lemma col_pos_Some_In (c : string) (cols : list string) (i : nat) :
  col_pos c cols = Some i -> In c cols.
Proof.
  intros H. apply col_pos_nth in H. eapply nth_error_In; eauto.
Qed.

Lemma col_pos_None (c : string) (cols : list string) :
  ~ In c cols -> col_pos c cols = None.
Proof.
  intros H. destruct (col_pos c cols) as [i |] eqn:E; [| reflexivity].
  exfalso. eauto using col_pos_Some_In.
Qed.

Lemma getitem_missing (df : DataFrame) (c : string) :
  ~ In c (columns df) -> getitem df c = Raise (KeyError c).
Proof.
  intros H. unfold getitem. rewrite (col_pos_None _ _ H). reflexivity.
Qed.

(** ** Order on timestamps *)

Lemma lex_compare_antisym (a b : list Z) :
  lex_compare b a = CompOpp (lex_compare a b).
Proof.
  revert b; induction a as [| x a IH]; intros [| y b]; simpl; auto.
  rewrite (Z.compare_antisym x y).
  destruct (x ?= y); simpl; auto.
Qed.

Lemma lex_compare_le_trans (a b c : list Z) :
  lex_compare a b <> Gt -> lex_compare b c <> Gt -> lex_compare a c <> Gt.
Proof.
  revert b c; induction a as [| x a IH]; intros [| y b] [| z c]; simpl;
    try congruence.
  destruct (Z.compare_spec x y), (Z.compare_spec y z), (Z.compare_spec x z);
    try congruence; try lia; eauto.
Qed.

Lemma lex_compare_eq (a b : list Z) : lex_compare a b = Eq -> a = b.
Proof.
  revert b; induction a as [| x a IH]; intros [| y b]; simpl; try congruence.
  destruct (Z.compare_spec x y) as [Hxy | Hxy | Hxy]; try congruence.
  intros Hab. subst. f_equal. auto.
Qed.

Lemma lex_compare_refl (a : list Z) : lex_compare a a = Eq.
Proof.
  induction a as [| x a IH]; simpl; auto. rewrite Z.compare_refl. auto.
Qed.

(** No timestamp lies in a reversed interval. *)
Lemma reversed_interval_empty (s e t : Timestamp) :
  ts_ltb e s = true -> ts_leb s t = true -> ts_leb t e = true -> False.
Proof.
  unfold ts_ltb, ts_leb, ts_compare. intros Hes Hst Hte.
  assert (Hse : lex_compare (ts_fields s) (ts_fields e) <> Gt).
  { apply lex_compare_le_trans with (b := ts_fields t).
    - destruct (lex_compare (ts_fields s) (ts_fields t)); congruence.
    - destruct (lex_compare (ts_fields t) (ts_fields e)); congruence. }
  rewrite (lex_compare_antisym (ts_fields e) (ts_fields s)) in Hse.
  destruct (lex_compare (ts_fields e) (ts_fields s)); simpl in *; congruence.
Qed.

Lemma ts_eqb_eq (s t : Timestamp) : ts_eqb s t = true <-> s = t.
Proof.
  unfold ts_eqb, ts_compare. split.
  - destruct (lex_compare (ts_fields s) (ts_fields t)) eqn:E; try discriminate.
    intros _. apply lex_compare_eq in E.
    destruct s, t. unfold ts_fields in E. simpl in E. congruence.
  - intros ->. rewrite lex_compare_refl. reflexivity.
Qed.

Lemma cell_eqb_eq (a b : cell) : cell_eqb a b = true <-> a = b.
Proof.
  destruct a, b; simpl; split; try congruence; try discriminate.
  - intros H. apply Z.eqb_eq in H. congruence.
  - intros H. injection H as ->. apply Z.eqb_refl.
  - intros H. apply String.eqb_eq in H. congruence.
  - intros H. injection H as ->. apply String.eqb_refl.
  - intros H. apply ts_eqb_eq in H. congruence.
  - intros H. injection H as ->. apply ts_eqb_eq. reflexivity.
  - intros H. apply Z.eqb_eq in H. congruence.
  - intros H. injection H as ->. apply Z.eqb_refl.
Qed.

Lemma cell_eq_dec (a b : cell) : {a = b} + {a <> b}.
Proof.
  destruct (cell_eqb a b) eqn:E.
  - left. apply cell_eqb_eq. exact E.
  - right. intros H. apply cell_eqb_eq in H. congruence.
Qed.

Lemma cell_eqb_refl (a : cell) : cell_eqb a a = true.
Proof. apply cell_eqb_eq. reflexivity. Qed.

Lemma cell_eqb_neq (a b : cell) : cell_eqb a b = false <-> a <> b.
Proof.
  split.
  - intros H E. apply cell_eqb_eq in E. congruence.
  - intros H. destruct (cell_eqb a b) eqn:E; auto.
    apply cell_eqb_eq in E. contradiction.
Qed.

(** ** The filter engine *)

Lemma select_incl (df : DataFrame) (mask : list bool) (r : Row) :
  In r (rows (select df mask)) -> In r (rows df).
Proof.
  unfold select. simpl. intros H.
  apply in_map_iff in H. destruct H as ([r' b] & <- & H).
  apply filter_In in H. destruct H as [H _].
  eapply in_combine_l; eauto.
Qed.

Lemma select_columns (df : DataFrame) (mask : list bool) :
  columns (select df mask) = columns df.
Proof. reflexivity. Qed.

Lemma getitem_ok (df : DataFrame) (c : string) (s : Series Z) :
  getitem df c = Ok s ->
  exists i, col_pos c (columns df) = Some i /\
            s = map (fun r => (label r, at_pos i r)) (rows df).
Proof.
  unfold getitem. destruct (col_pos c (columns df)) as [i |]; intros H; inv_ok.
  eauto.
Qed.

Lemma values_labelled (f : Row -> cell) (rs : list Row) :
  values (map (fun r => (label r, f r)) rs) = map f rs.
Proof.
  unfold values. rewrite map_map. reflexivity.
Qed.

Lemma values_getitem (df : DataFrame) (i : nat) :
  values (map (fun r => (label r, at_pos i r)) (rows df)) = map (at_pos i) (rows df).
Proof.
  unfold values. rewrite map_map. reflexivity.
Qed.

(** The rows kept by the date filter carry a date inside the interval. *)
Lemma date_mask_sound (g : Row -> cell) (s e : Timestamp) :
  forall (rs : list Row) (ge le : list bool),
    ge_timestamp s (map g rs) = Ok ge ->
    le_timestamp e (map g rs) = Ok le ->
    forall r, In r (map fst (filter (fun rb => snd rb) (combine rs (mask_and ge le)))) ->
    exists t, g r = Time t /\ ts_leb s t = true /\ ts_leb t e = true.
Proof.
  unfold ge_timestamp, le_timestamp.
  induction rs as [| r0 rs IH]; simpl; intros ge le Hge Hle r Hin; [contradiction |].
  inv_ok. subst ge le. simpl in Hin.
  destruct (g r0) as [| z | str | t | p] eqn:Eg; simpl in *; try discriminate.
  - inv_ok. subst. simpl in Hin. eauto.
  - inv_ok. subst. simpl in Hin.
    destruct (ts_leb s t && ts_leb t e) eqn:Eb; simpl in Hin.
    + destruct Hin as [<- | Hin]; [| eauto].
      apply andb_true_iff in Eb. exists t. tauto.
    + eauto.
Qed.

Lemma datetime_masks_defined (g : Row -> cell) (t : Timestamp) (rs : list Row) :
  forallb (fun r => is_datetimelike (g r)) rs = true ->
  (exists m, ge_timestamp t (map g rs) = Ok m) /\
  (exists m, le_timestamp t (map g rs) = Ok m).
Proof.
  intros H. rewrite forallb_forall in H.
  split; apply mapM_total; apply Forall_forall; intros c Hc;
    apply in_map_iff in Hc; destruct Hc as (r & <- & Hr);
    specialize (H r Hr); destruct (g r); simpl in *; try discriminate; eauto.
Qed.

Lemma filter_articles_defined (merged : DataFrame) (s e : Timestamp) :
  datetime_column merged "Date" = true ->
  exists v, Master.filter_articles merged s e = Ok v.
Proof.
  unfold datetime_column, column_all, Master.filter_articles, getitem.
  destruct (col_pos "Date" (columns merged)) as [i |]; [| discriminate].
  intros H. simpl. rewrite values_getitem.
  destruct (datetime_masks_defined (at_pos i) s (rows merged) H) as [[ge ->] _].
  destruct (datetime_masks_defined (at_pos i) e (rows merged) H) as [_ [le ->]].
  simpl. eauto.
Qed.

Lemma filter_articles_sound (merged v : DataFrame) (s e : Timestamp) :
  Master.filter_articles merged s e = Ok v ->
  exists i, col_pos "Date" (columns merged) = Some i /\
    columns v = columns merged /\
    forall r, In r (rows v) ->
      In r (rows merged) /\
      exists t, at_pos i r = Time t /\ ts_leb s t = true /\ ts_leb t e = true.
Proof.
  unfold Master.filter_articles. intros H. inv_ok.
  apply getitem_ok in Ha. destruct Ha as (i & Hi & ->).
  apply getitem_ok in Ha1. destruct Ha1 as (i' & Hi' & ->).
  rewrite Hi in Hi'. injection Hi' as <-.
  rewrite values_getitem in *.
  exists i. subst v. repeat split; auto.
  - eapply select_incl; eauto.
  - eapply date_mask_sound; eauto.
Qed.

Lemma no_rows_nil {A : Type} (l : list A) : (forall x, ~ In x l) -> l = [].
Proof.
  destruct l as [| a l]; auto. intros H. exfalso. apply (H a). left. reflexivity.
Qed.

Lemma isin_nil (col : list cell) : isin [] col = map (fun _ => false) col.
Proof. reflexivity. Qed.

Lemma select_all_false (df : DataFrame) (mask : list bool) :
  Forall (fun b => b = false) mask -> rows (select df mask) = [].
Proof.
  intros H. apply no_rows_nil. intros r Hin.
  unfold select in Hin. simpl in Hin.
  apply in_map_iff in Hin. destruct Hin as ([r' b] & _ & Hin).
  apply filter_In in Hin. destruct Hin as [Hin Hb]. simpl in Hb. subst b.
  apply in_combine_r in Hin. rewrite Forall_forall in H.
  specialize (H _ Hin). discriminate.
Qed.

Lemma mask_and_false_l (a b : list bool) :
  Forall (fun x => x = false) a -> Forall (fun x => x = false) (mask_and a b).
Proof.
  intros H. unfold mask_and. apply Forall_forall. intros x Hx.
  apply in_map_iff in Hx. destruct Hx as ([p q] & <- & Hin). simpl.
  apply in_combine_l in Hin. rewrite Forall_forall in H. rewrite (H _ Hin). reflexivity.
Qed.

Lemma mask_and_false_r (a b : list bool) :
  Forall (fun x => x = false) b -> Forall (fun x => x = false) (mask_and a b).
Proof.
  intros H. unfold mask_and. apply Forall_forall. intros x Hx.
  apply in_map_iff in Hx. destruct Hx as ([p q] & <- & Hin). simpl.
  apply in_combine_r in Hin. rewrite Forall_forall in H. rewrite (H _ Hin).
  apply andb_false_r.
Qed.

Lemma isin_nil_false (col : list cell) : Forall (fun x => x = false) (isin [] col).
Proof.
  rewrite isin_nil. apply Forall_forall. intros x Hx.
  apply in_map_iff in Hx. destruct Hx as (_ & <- & _). reflexivity.
Qed.

(** C4. A reversed date interval ([end_ < start_]) selects no article, and an
    empty allowed set of countries or of industries selects no reader: both
    filters return a view, and the view has zero rows. *)
Theorem C4_reversed_interval_and_empty_set :
  (forall (merged : DataFrame) (start_ end_ : Timestamp),
     ts_ltb end_ start_ = true ->
     datetime_column merged "Date" = true ->
     exists v, Master.filter_articles merged start_ end_ = Ok v /\
               rows v = [] /\ len v = 0) /\
  (forall (readers : DataFrame) (countries industries : list cell),
     countries = [] \/ industries = [] ->
     In "Country" (columns readers) ->
     In "Industry" (columns readers) ->
     exists v, Master.filter_readers readers countries industries = Ok v /\
               rows v = [] /\ len v = 0).
Proof.
  split.
  - intros merged s e Hrev Hdt.
    destruct (filter_articles_defined merged s e Hdt) as [v Hv].
    exists v. split; auto.
    assert (Hnil : rows v = []).
    { apply no_rows_nil. intros r Hr.
      destruct (filter_articles_sound _ _ _ _ Hv) as (i & _ & _ & Hs).
      destruct (Hs r Hr) as (_ & t & _ & Hst & Hte).
      eapply reversed_interval_empty; eauto. }
    unfold len. rewrite Hnil. auto.
  - intros readers cs inds Hempty Hc Hi.
    unfold Master.filter_readers, getitem.
    destruct (col_pos_In _ _ Hc) as [i ->].
    destruct (col_pos_In _ _ Hi) as [j ->]. simpl.
    eexists. split; [reflexivity |].
    assert (Hnil : rows (select readers
              (mask_and (isin cs (values (map (fun r => (label r, at_pos i r)) (rows readers))))
                        (isin inds (values (map (fun r => (label r, at_pos j r)) (rows readers)))))) = []).
    { apply select_all_false. destruct Hempty as [-> | ->].
      - apply mask_and_false_l, isin_nil_false.
      - apply mask_and_false_r, isin_nil_false. }
    unfold len. rewrite Hnil. auto.
Qed.

(** C4 on the sample frames: the interval 2024-12-31 .. 2024-01-01 and an
    empty country set. *)
Lemma C4_witness :
  (exists v, Master.filter_articles sample_merged_df (midnight 2024 12 31) (midnight 2024 1 1) = Ok v
             /\ rows v = [] /\ len v = 0) /\
  (exists v, Master.filter_readers sample_reader_df [] [Str "Tech"] = Ok v
             /\ rows v = [] /\ len v = 0).
Proof.
  split.
  - apply (proj1 C4_reversed_interval_and_empty_set); reflexivity.
  - apply (proj2 C4_reversed_interval_and_empty_set); [left; reflexivity | |];
      simpl; tauto.
Defined.

(** C10. Whatever the interval, the date filter returns a view whose rows
    are rows of the merged frame carrying a timestamp inside the interval;
    a row with a missing date is in no filtered view. *)
Theorem C10_filtered_dates_not_null :
  forall (merged : DataFrame) (start_ end_ : Timestamp),
    datetime_column merged "Date" = true ->
    exists v i,
      Master.filter_articles merged start_ end_ = Ok v /\
      col_pos "Date" (columns v) = Some i /\
      (forall r, In r (rows v) ->
         In r (rows merged) /\
         exists t, at_pos i r = Time t /\
                   ts_leb start_ t = true /\ ts_leb t end_ = true) /\
      (forall r, at_pos i r = NA -> ~ In r (rows v)).
Proof.
  intros merged s e Hdt.
  destruct (filter_articles_defined merged s e Hdt) as [v Hv].
  destruct (filter_articles_sound _ _ _ _ Hv) as (i & Hi & Hcols & Hs).
  exists v, i. rewrite Hcols. repeat split; auto.
  - apply Hs; auto.
  - apply Hs; auto.
  - intros r Hna Hr. destruct (Hs r Hr) as (_ & t & Ht & _). congruence.
Qed.

Lemma C10_witness :
  exists v i,
    Master.filter_articles sample_merged_df (midnight 2024 1 1) (midnight 2024 12 31) = Ok v /\
    col_pos "Date" (columns v) = Some i /\
    (forall r, In r (rows v) ->
       In r (rows sample_merged_df) /\
       exists t, at_pos i r = Time t /\
                 ts_leb (midnight 2024 1 1) t = true /\ ts_leb t (midnight 2024 12 31) = true) /\
    (forall r, at_pos i r = NA -> ~ In r (rows v)).
Proof.
  apply (C10_filtered_dates_not_null sample_merged_df); reflexivity.
Defined.

(** ** Extremal rows *)

Lemma getitem_no_rows (view : DataFrame) (c : string) :
  rows view = [] -> In c (columns view) -> getitem view c = Ok [].
Proof.
  intros Hrows Hc. unfold getitem.
  destruct (col_pos_In _ _ Hc) as [i ->]. rewrite Hrows. reflexivity.
Qed.

(** C3, as the script has it.  On a view without rows the top-author and the
    top-article selections both raise [ValueError] from [idxmax], and the KPI
    block calls them without testing the view first, so the block raises the
    same error. *)
Theorem C3_extremal_row_of_empty_view :
  forall view : DataFrame,
    rows view = [] ->
    In "Article Reads" (columns view) ->
    In "Author Name" (columns view) ->
    Master.top_author view = Raise empty_argmax /\
    Master.top_article view = Raise empty_argmax /\
    (forall g, Master.filtered_articles g = view -> Master.kpis g = Raise empty_argmax).
Proof.
  intros view Hrows Hreads Hname.
  assert (Hauthor : Master.top_author view = Raise empty_argmax).
  { unfold Master.top_author.
    rewrite (getitem_no_rows _ _ Hrows Hname), (getitem_no_rows _ _ Hrows Hreads).
    reflexivity. }
  assert (Harticle : Master.top_article view = Raise empty_argmax).
  { unfold Master.top_article.
    rewrite (getitem_no_rows _ _ Hrows Hreads). reflexivity. }
  repeat split; auto.
  intros g Hg. unfold Master.kpis, Master.total_reads. rewrite Hg.
  rewrite (getitem_no_rows _ _ Hrows Hreads). simpl.
  rewrite Hauthor. reflexivity.
Qed.

Lemma C3_witness :
  Master.top_author (select sample_merged_df []) = Raise empty_argmax /\
  Master.top_article (select sample_merged_df []) = Raise empty_argmax /\
  (forall g, Master.filtered_articles g = select sample_merged_df [] ->
             Master.kpis g = Raise empty_argmax).
Proof.
  apply (C3_extremal_row_of_empty_view (select sample_merged_df []));
    simpl; tauto.
Defined.

(** C3, counterexample to the guard: with the date range set to 2023 the
    filters succeed, the filtered article view is empty, and the KPI block
    does not substitute anything or skip: it raises. *)
Lemma C3_kpis_raise_on_empty_view :
  exists g,
    Master.sidebar_filters sample_reader_df sample_merged_df controls_2023 = Ok g /\
    rows (Master.filtered_articles g) = [] /\
    Master.kpis g = Raise empty_argmax.
Proof.
  eexists. split; [vm_compute; reflexivity |]. split; reflexivity.
Qed.

(** ** Forecasting *)

(** C8. With the monthly series in hand, fewer than six points make the tab
    emit only the warning (no call to the forecaster, no exception); six or
    more make it fit the series and ask for 3 further monthly periods. *)
Theorem C8_forecast_threshold :
  forall (g : Master.Globals) (ts_df : DataFrame),
    Master.forecast_series g = Ok ts_df ->
    (len ts_df < 6 ->
       Master.predictive_insights g =
         Ok [Master.StWarning "Not enough data to generate a forecast."]) /\
    (6 <= len ts_df ->
       Master.predictive_insights g =
         Ok [Master.ProphetFit ts_df; Master.MakeFutureDataframe 3 "M";
             Master.ProphetPredict; Master.PlotlyChart "Predicted Total Article Reads"]).
Proof.
  intros g ts_df Hts. unfold Master.predictive_insights. rewrite Hts. simpl.
  split; intros Hlen.
  - destruct (Z.leb_spec 6 (len ts_df)); [lia | reflexivity].
  - destruct (Z.leb_spec 6 (len ts_df)); [reflexivity | lia].
Qed.

Lemma C8_witness :
  Master.predictive_insights sample_globals =
    Ok [Master.StWarning "Not enough data to generate a forecast."] /\
  exists ts_df,
    Master.forecast_series six_month_globals = Ok ts_df /\
    len ts_df = 6 /\
    Master.predictive_insights six_month_globals =
      Ok [Master.ProphetFit ts_df; Master.MakeFutureDataframe 3 "M";
          Master.ProphetPredict; Master.PlotlyChart "Predicted Total Article Reads"].
Proof.
  split.
  - eapply (proj1 (C8_forecast_threshold sample_globals _ eq_refl)).
    vm_compute. reflexivity.
  - eexists. split; [reflexivity |]. split; [reflexivity |].
    eapply (proj2 (C8_forecast_threshold six_month_globals _ eq_refl)).
    vm_compute. discriminate.
Defined.

Lemma kpis_raise_without_articles (g : Master.Globals) :
  rows (Master.filtered_articles g) = [] ->
  In "Article Reads" (columns (Master.filtered_articles g)) ->
  In "Author Name" (columns (Master.filtered_articles g)) ->
  Master.kpis g = Raise empty_argmax.
Proof.
  intros Hrows Hreads Hname.
  unfold Master.kpis, Master.total_reads, Master.top_author.
  rewrite (getitem_no_rows _ _ Hrows Hreads). cbn [bind].
  rewrite (getitem_no_rows _ _ Hrows Hname). reflexivity.
Qed.

Lemma sidebar_filters_frames (readers merged : DataFrame) (w : Master.Controls)
  (g : Master.Globals) :
  Master.sidebar_filters readers merged w = Ok g ->
  Master.reader_df g = readers /\
  Master.merged_df g = merged /\
  columns (Master.filtered_articles g) = columns merged.
Proof.
  unfold Master.sidebar_filters. intros H.
  apply bind_ok in H. destruct H as (fa & Hfa & H).
  apply bind_ok in H. destruct H as (fr & Hfr & H).
  assert (Hg : g = Master.mkGlobals readers merged fa fr) by congruence.
  subst g. cbn [Master.reader_df Master.merged_df Master.filtered_articles].
  split; [reflexivity |]. split; [reflexivity |].
  unfold Master.filter_articles in Hfa.
  apply bind_ok in Hfa. destruct Hfa as (d1 & _ & Hfa).
  apply bind_ok in Hfa. destruct Hfa as (ge & _ & Hfa).
  apply bind_ok in Hfa. destruct Hfa as (d2 & _ & Hfa).
  apply bind_ok in Hfa. destruct Hfa as (le & _ & Hfa).
  assert (Hv : fa = select merged (mask_and ge le)) by congruence.
  subst fa. reflexivity.
Qed.

(** C9, as the script has it.  The series the Predictive Insights tab builds
    is the monthly sum of the unfiltered frame, the same under any two
    settings of the controls, and two runs of the script that reach the tab
    make the same calls to the forecaster.  But the tab is the last block of
    the script: a date range that leaves no article makes the KPI row raise
    [ValueError], and that run ends before the tab. *)
Theorem C9_forecast_reads_unfiltered_frame :
  forall (sort_values_desc : forall A : Type, (A -> Z) -> list A -> list A)
         (order_desc : list (cell * Z) -> list (cell * Z))
         (sorted : list cell -> result (list cell)) (company_choice : nat)
         (readers merged : DataFrame) (w1 w2 : Master.Controls),
    (forall g1 g2 : Master.Globals,
       Master.sidebar_filters readers merged w1 = Ok g1 ->
       Master.sidebar_filters readers merged w2 = Ok g2 ->
       Master.forecast_series g1 = Master.forecast_series g2 /\
       Master.predictive_insights g1 = Master.predictive_insights g2 /\
       Master.forecast_series g1 =
         (agg_df <- Master.monthly_reads merged ;;
          Ok (rename [("Date", "ds"); ("Article Reads", "y")] agg_df))) /\
    (forall e1 e2 : list Master.event,
       Master.run sort_values_desc order_desc sorted company_choice readers merged w1
       = Ok e1 ->
       Master.run sort_values_desc order_desc sorted company_choice readers merged w2
       = Ok e2 ->
       e1 = e2) /\
    (forall g : Master.Globals,
       Master.sidebar_filters readers merged w1 = Ok g ->
       rows (Master.filtered_articles g) = [] ->
       In "Article Reads" (columns merged) ->
       In "Author Name" (columns merged) ->
       Master.run sort_values_desc order_desc sorted company_choice readers merged w1
       = Raise empty_argmax).
Proof.
  intros sort_values_desc order_desc sorted company_choice readers merged w1 w2.
  assert (Hsame : forall g1 g2 : Master.Globals,
            Master.sidebar_filters readers merged w1 = Ok g1 ->
            Master.sidebar_filters readers merged w2 = Ok g2 ->
            Master.forecast_series g1 = Master.forecast_series g2 /\
            Master.predictive_insights g1 = Master.predictive_insights g2 /\
            Master.forecast_series g1 =
              (agg_df <- Master.monthly_reads merged ;;
               Ok (rename [("Date", "ds"); ("Article Reads", "y")] agg_df))).
  { intros g1 g2 H1 H2.
    destruct (sidebar_filters_frames _ _ _ _ H1) as (_ & Hm1 & _).
    destruct (sidebar_filters_frames _ _ _ _ H2) as (_ & Hm2 & _).
    unfold Master.predictive_insights, Master.forecast_series.
    rewrite Hm1, Hm2. auto. }
  split; [exact Hsame |]. split.
  - intros e1 e2 H1 H2. unfold Master.run in H1, H2.
    apply bind_ok in H1. destruct H1 as (g1 & Hg1 & H1).
    apply bind_ok in H1. destruct H1 as (k1 & _ & H1).
    apply bind_ok in H1. destruct H1 as (t1 & _ & H1).
    apply bind_ok in H2. destruct H2 as (g2 & Hg2 & H2).
    apply bind_ok in H2. destruct H2 as (k2 & _ & H2).
    apply bind_ok in H2. destruct H2 as (t2 & _ & H2).
    destruct (Hsame g1 g2 Hg1 Hg2) as (_ & Hp & _).
    rewrite Hp in H1. congruence.
  - intros g Hg Hrows Hreads Hname.
    destruct (sidebar_filters_frames _ _ _ _ Hg) as (_ & _ & Hcols).
    unfold Master.run. rewrite Hg. cbn [bind].
    rewrite (kpis_raise_without_articles g Hrows); [reflexivity | |];
      rewrite Hcols; assumption.
Qed.

Lemma C9_witness :
  (exists e, full_run controls_all = Ok e /\ full_run controls_first_quarter = Ok e) /\
  full_run controls_2023 = Raise empty_argmax.
Proof.
  pose proof (C9_forecast_reads_unfiltered_frame stable_sort_desc stable_order
                sorted_cells 0 full_reader_df full_merged_df
                controls_all controls_first_quarter) as (_ & Hsame & _).
  pose proof (C9_forecast_reads_unfiltered_frame stable_sort_desc stable_order
                sorted_cells 0 full_reader_df full_merged_df
                controls_2023 controls_2023) as (_ & _ & Hstop).
  split.
  - destruct (full_run controls_all) as [e1 | x1] eqn:E1;
      [| vm_compute in E1; discriminate].
    destruct (full_run controls_first_quarter) as [e2 | x2] eqn:E2;
      [| vm_compute in E2; discriminate].
    exists e1. split; [reflexivity |]. f_equal. symmetry.
    apply (Hsame e1 e2 E1 E2).
  - eapply Hstop.
    + vm_compute. reflexivity.
    + reflexivity.
    + simpl. tauto.
    + simpl. tauto.
Defined.

(** C9, counterexample.  On frames with every column the script reads, a
    run with the date range on 2024 reaches the tab and fits the
    forecaster; a run with the range on 2023 filters every article out and
    ends at the KPI row with [ValueError], although the tab, had it been
    reached, would have made the same calls. *)
Lemma C9_empty_range_stops_the_forecast :
  (exists ts_df,
     full_run controls_all
     = Ok [Master.ProphetFit ts_df; Master.MakeFutureDataframe 3 "M";
           Master.ProphetPredict; Master.PlotlyChart "Predicted Total Article Reads"]) /\
  full_run controls_2023 = Raise empty_argmax /\
  exists g,
    Master.sidebar_filters full_reader_df full_merged_df controls_2023 = Ok g /\
    rows (Master.filtered_articles g) = [] /\
    Master.kpis g = Raise empty_argmax /\
    Master.predictive_insights g = full_run controls_all.
Proof.
  split; [eexists; vm_compute; reflexivity |].
  split; [vm_compute; reflexivity |].
  eexists. split; [vm_compute; reflexivity |].
  split; [reflexivity |]. split; vm_compute; reflexivity.
Qed.

(** ** The join: column labels *)

Lemma mem_In (c : string) (l : list string) : mem c l = true <-> In c l.
Proof.
  unfold mem. rewrite existsb_exists. split.
  - intros (x & Hx & E). apply String.eqb_eq in E. congruence.
  - intros H. exists c. split; auto. apply String.eqb_refl.
Qed.

Lemma remove_at_In {A : Type} (j : nat) (l : list A) (k c : A) :
  nth_error l j = Some k -> In c l -> c <> k -> In c (remove_at j l).
Proof.
  unfold remove_at. revert j; induction l as [| a l IH]; intros [| j]; simpl;
    try discriminate; intros Hk Hin Hne.
  - injection Hk as ->. destruct Hin; congruence.
  - destruct Hin as [-> | Hin]; [left; reflexivity | right; eauto].
Qed.

Lemma remove_at_length {A : Type} (j : nat) (l : list A) :
  (j < List.length l)%nat -> List.length (remove_at j l) = (List.length l - 1)%nat.
Proof.
  unfold remove_at. revert j; induction l as [| a l IH]; intros [| j]; simpl;
    intros H; try lia.
  rewrite IH by lia. lia.
Qed.

Lemma merge_left_columns (left right merged : DataFrame) (key ls rs : string) :
  merge_left left right key ls rs = Ok merged ->
  exists i j,
    col_pos key (columns left) = Some i /\
    col_pos key (columns right) = Some j /\
    let rcols := remove_at j (columns right) in
    let overlap := filter (fun c => mem c rcols) (columns left) in
    columns merged = map (add_suffix overlap ls) (columns left)
                     ++ map (add_suffix overlap rs) rcols /\
    rows merged = range_index 0 (flat_map (join_row i j right) (rows left)).
Proof.
  unfold merge_left.
  destruct (col_pos key (columns left)) as [i |]; [| discriminate].
  destruct (col_pos key (columns right)) as [j |]; [| discriminate].
  intros H. inv_ok. subst merged. exists i, j. simpl. auto.
Qed.

Lemma merge_left_defined (left right : DataFrame) (key ls rs : string) :
  In key (columns left) -> In key (columns right) ->
  exists merged, merge_left left right key ls rs = Ok merged.
Proof.
  intros Hl Hr. unfold merge_left.
  destruct (col_pos_In _ _ Hl) as [i ->].
  destruct (col_pos_In _ _ Hr) as [j ->]. eauto.
Qed.

Lemma rename_other (mapper : list (string * string)) (c : string) :
  lookup_label c mapper = None -> rename_label mapper c = c.
Proof. unfold rename_label. intros ->. reflexivity. Qed.





(** ** The join: rows *)

Lemma range_index_length (s : Z) (data : list (list cell)) :
  List.length (range_index s data) = List.length data.
Proof.
  revert s; induction data as [| cs data IH]; simpl; intros s; auto.
Qed.

Lemma range_index_nth (data : list (list cell)) :
  forall (s : Z) (n : nat) (cs : list cell),
    nth_error data n = Some cs ->
    nth_error (range_index s data) n = Some (mkRow (s + Z.of_nat n) cs).
Proof.
  induction data as [| c data IH]; intros s [| n] cs H; simpl in *; try discriminate.
  - injection H as ->. f_equal. f_equal. lia.
  - rewrite (IH (s + 1) n cs H). f_equal. f_equal. lia.
Qed.

Lemma matches_none (j : nat) (k : cell) (rs : list Row) :
  ~ In k (map (at_pos j) rs) ->
  filter (fun r => cell_eqb (at_pos j r) k) rs = [].
Proof.
  induction rs as [| r rs IH]; simpl; intros H; auto.
  destruct (cell_eqb (at_pos j r) k) eqn:E.
  - apply cell_eqb_eq in E. tauto.
  - apply IH. tauto.
Qed.

(** A key that occurs once in the right frame matches one row at most. *)
Lemma matches_unique (j : nat) (k : cell) (rs : list Row) :
  NoDup (map (at_pos j) rs) ->
  (List.length (filter (fun r => cell_eqb (at_pos j r) k) rs) <= 1)%nat.
Proof.
  induction rs as [| r rs IH]; simpl; intros H; [lia |].
  inversion H as [| x xs Hnotin Hnodup]; subst.
  destruct (cell_eqb (at_pos j r) k) eqn:E.
  - apply cell_eqb_eq in E. subst k.
    rewrite (matches_none _ _ _ Hnotin). simpl. lia.
  - auto.
Qed.

Lemma join_row_single (i j : nat) (right : DataFrame) (l : Row) :
  NoDup (map (at_pos j) (rows right)) ->
  join_row i j right l = [joined_cells i j right l].
Proof.
  intros H. unfold join_row, joined_cells, matches.
  pose proof (matches_unique j (at_pos i l) (rows right) H) as Hlen.
  destruct (filter (fun r => cell_eqb (at_pos j r) (at_pos i l)) (rows right))
    as [| r [| r' rest]]; simpl in *; auto; lia.
Qed.

Lemma flat_map_single {A B : Type} (f : A -> list B) (g : A -> B) (l : list A) :
  (forall a, f a = [g a]) -> flat_map f l = map g l.
Proof.
  intros H. induction l as [| a l IH]; simpl; auto. rewrite H, IH. reflexivity.
Qed.

Lemma firstn_app_exact {A : Type} (l l' : list A) :
  firstn (List.length l) (l ++ l') = l.
Proof.
  induction l as [| a l IH]; simpl; [destruct l'; reflexivity | f_equal; auto].
Qed.

Lemma skipn_app_exact {A : Type} (l l' : list A) :
  skipn (List.length l) (l ++ l') = l'.
Proof.
  induction l as [| a l IH]; simpl; auto.
Qed.

(** C2, as the script has it.  When no author identifier occurs twice in the
    author export, the frame a join returns has one row per article row, in
    the article order and under a fresh range index; the row starts with the
    article's cells, and every author column of a row whose identifier has
    no match is missing. *)
Theorem C2_left_join_cardinality :
  forall article author merged : DataFrame,
    Master.join_authors article author = Ok merged ->
    NoDup (key_column author "Author Id") ->
    len merged = len article /\
    forall (n : nat) (l : Row),
      nth_error (rows article) n = Some l ->
      exists m,
        nth_error (rows merged) n = Some m /\
        label m = Z.of_nat n /\
        firstn (List.length (cells l)) (cells m) = cells l /\
        (~ In (key_of article "Author Id" l) (key_column author "Author Id") ->
         skipn (List.length (cells l)) (cells m)
           = repeat NA (List.length (columns author) - 1)).
Proof.
  intros article author merged Hjoin Huniq.
  unfold Master.join_authors in Hjoin.
  apply bind_ok in Hjoin. destruct Hjoin as (m0 & Hm & Hjoin).
  assert (Hmerged : merged = rename Master.canonical_labels m0) by congruence.
  clear Hjoin. subst merged.
  destruct (merge_left_columns _ _ _ _ _ _ Hm) as (i & j & Hi & Hj & _ & Hrows).
  unfold key_column in Huniq. unfold key_column, key_of. rewrite Hi, Hj in *.
  unfold len. simpl. rewrite Hrows.
  rewrite (flat_map_single _ (joined_cells i j author))
    by (intros a; apply join_row_single; exact Huniq).
  split.
  - rewrite range_index_length, length_map. reflexivity.
  - intros n l Hl.
    exists (mkRow (Z.of_nat n) (joined_cells i j author l)).
    split; [| split; [reflexivity |]].
    + replace (Z.of_nat n) with (0 + Z.of_nat n) by lia.
      apply range_index_nth. rewrite nth_error_map, Hl. reflexivity.
    + simpl. unfold joined_cells, matches. split.
      * destruct (filter _ (rows author)); apply firstn_app_exact.
      * intros Hno. rewrite (matches_none _ _ _ Hno).
        rewrite skipn_app_exact. f_equal. apply remove_at_length.
        apply nth_error_Some. rewrite (col_pos_nth _ _ _ Hj). discriminate.
Qed.

Lemma C2_witness :
  len sample_joined = len (strip_columns sample_articles) /\
  forall (n : nat) (l : Row),
    nth_error (rows (strip_columns sample_articles)) n = Some l ->
    exists m,
      nth_error (rows sample_joined) n = Some m /\
      label m = Z.of_nat n /\
      firstn (List.length (cells l)) (cells m) = cells l /\
      (~ In (key_of (strip_columns sample_articles) "Author Id" l)
            (key_column (strip_columns sample_authors) "Author Id") ->
       skipn (List.length (cells l)) (cells m)
         = repeat NA (List.length (columns (strip_columns sample_authors)) - 1)).
Proof.
  apply (C2_left_join_cardinality (strip_columns sample_articles)
           (strip_columns sample_authors) sample_joined).
  - vm_compute. reflexivity.
  - vm_compute. repeat constructor; simpl; intuition discriminate.
Defined.

(** C2, counterexample.  An author export that lists identifier 10 twice
    turns the one article by author 10 into two joined rows. *)
Lemma C2_repeated_author_duplicates_article :
  exists merged,
    Master.join_authors one_article repeated_authors = Ok merged /\
    len one_article = 1 /\
    len merged = 2.
Proof.
  eexists. split; [vm_compute; reflexivity |]. split; reflexivity.
Qed.

(** ** Date parsing in the two loaders *)

Section Parsing.
Variable parse : list cell -> cell -> option Timestamp.

Lemma to_datetime_cell_coerce (col : list cell) (c : cell) :
  exists d, to_datetime_cell parse ErrorsCoerce col c = Ok d /\
            is_datetimelike d = true /\
            (c <> NA -> (forall t, c <> Time t) -> parse col c = None -> d = NA).
Proof.
  destruct c; simpl.
  - exists NA. repeat split; auto.
  - destruct (parse col (Num z)) as [t |]; eexists; repeat split; auto; discriminate.
  - destruct (parse col (Str s)) as [t |]; eexists; repeat split; auto; discriminate.
  - exists (Time t). repeat split; auto. intros _ H. exfalso. apply (H t). reflexivity.
  - destruct (parse col (Period ordinal)) as [t |]; eexists; repeat split; auto;
      discriminate.
Qed.

(** With [errors='coerce'] the conversion returns a column, whatever the
    values are. *)
Lemma to_datetime_coerce_total (col : list cell) :
  exists out, to_datetime parse ErrorsCoerce col = Ok out /\
              List.length out = List.length col.
Proof.
  unfold to_datetime.
  destruct (mapM_total (to_datetime_cell parse ErrorsCoerce col) col) as [out Hout].
  - apply Forall_forall. intros c _.
    destruct (to_datetime_cell_coerce col c) as (d & Hd & _). eauto.
  - exists out. split; auto. eapply mapM_length; eauto.
Qed.

Lemma parse_date_column_coerce (df : DataFrame) (c : string) (e : error) :
  parse_date_column parse ErrorsCoerce df c = Raise e -> e = KeyError c.
Proof.
  unfold parse_date_column, getitem.
  destruct (col_pos c (columns df)) as [i |]; simpl.
  - destruct (to_datetime_coerce_total
                (values (map (fun r => (label r, at_pos i r)) (rows df))))
      as (out & -> & _).
    simpl. discriminate.
  - congruence.
Qed.

(** The master loader raises for a missing column and for nothing else:
    no date value makes it fail. *)
Lemma master_load_data_errors (readers articles authors : DataFrame) (e : error) :
  Master.load_data parse readers articles authors = Raise e ->
  exists c, e = KeyError c.
Proof.
  unfold Master.load_data.
  destruct (parse_date_column parse ErrorsCoerce (strip_columns readers) "Last Access Date")
    as [r | e1] eqn:E1; simpl.
  2: { intros H. injection H as <-. apply parse_date_column_coerce in E1. eauto. }
  destruct (parse_date_column parse ErrorsCoerce (strip_columns articles) "Date")
    as [a | e2] eqn:E2; simpl.
  2: { intros H. injection H as <-. apply parse_date_column_coerce in E2. eauto. }
  unfold Master.join_authors, merge_left.
  destruct (col_pos "Author Id" (columns a));
    [destruct (col_pos "Author Id" (columns (strip_columns authors))) |];
    simpl; intros H; try discriminate; injection H as <-; eauto.
Qed.

Ltac step_parse :=
  match goal with
  | H : forall col, ?p col (Str "not a date") = None
    |- context [?p ?col (Str "not a date")] => rewrite (H col); cbv
  | |- context [match ?p ?col ?c with Some _ => _ | None => _ end] =>
      destruct (p col c); cbv
  end.

(** C5 at the failing input.  On the sample exports, whose third article
    is dated "not a date", the basic dashboard's loader raises a date
    parsing error as soon as the parser rejects that text, whereas the
    master loader returns its two frames with the date of that article
    missing. *)
Theorem C5_app_loader_raises_on_bad_date :
  (forall col, parse col (Str "not a date") = None) ->
  (exists s, App.load_data parse sample_readers sample_articles sample_authors
             = Raise (DateParseError s)) /\
  (exists r m row,
     Master.load_data parse sample_readers sample_articles sample_authors = Ok (r, m) /\
     nth_error (rows m) 2 = Some row /\
     key_of m "Date" row = NA).
Proof.
  intros Hbad. split.
  - cbv. repeat step_parse; eauto.
  - cbv. repeat step_parse;
      do 3 eexists; (split; [reflexivity |]); split; reflexivity.
Qed.
End Parsing.

Lemma C5_witness :
  (exists s, App.load_data iso_parse sample_readers sample_articles sample_authors
             = Raise (DateParseError s)) /\
  (exists r m row,
     Master.load_data iso_parse sample_readers sample_articles sample_authors = Ok (r, m) /\
     nth_error (rows m) 2 = Some row /\
     key_of m "Date" row = NA).
Proof.
  apply (C5_app_loader_raises_on_bad_date iso_parse). reflexivity.
Defined.

(** ** Sorted distinct keys *)

Lemma cell_compare_antisym (a b : cell) :
  cell_compare b a = CompOpp (cell_compare a b).
Proof.
  destruct a, b; simpl; try reflexivity.
  - apply Z.compare_antisym.
  - apply String.compare_antisym.
  - apply lex_compare_antisym.
  - apply Z.compare_antisym.
Qed.

Lemma insert_sorted_perm (x : cell) (l : list cell) :
  Permutation (insert_sorted x l) (x :: l).
Proof.
  induction l as [| y l IH]; simpl; auto.
  destruct (cell_compare x y); auto.
  rewrite IH. apply perm_swap.
Qed.

Lemma sort_cells_perm (l : list cell) : Permutation (sort_cells l) l.
Proof.
  induction l as [| x l IH]; simpl; auto.
  rewrite insert_sorted_perm. auto.
Qed.

Lemma insert_sorted_Sorted (x : cell) (l : list cell) :
  Sorted cell_le l -> Sorted cell_le (insert_sorted x l).
Proof.
  induction 1 as [| y l Hs IH Hhd]; simpl.
  - repeat constructor.
  - destruct (cell_compare x y) eqn:E.
    + repeat constructor; auto. unfold cell_le. congruence.
    + repeat constructor; auto. unfold cell_le. congruence.
    + constructor; auto.
      assert (Hyx : cell_le y x).
      { unfold cell_le. rewrite (cell_compare_antisym x y), E. discriminate. }
      destruct l as [| z l]; simpl in *.
      * repeat constructor. exact Hyx.
      * destruct (cell_compare x z); constructor; auto.
        inversion Hhd; auto.
Qed.

Lemma sort_cells_Sorted (l : list cell) : Sorted cell_le (sort_cells l).
Proof.
  induction l as [| x l IH]; simpl; [constructor | apply insert_sorted_Sorted; auto].
Qed.

(** Sorting changes nothing in a list that is sorted already. *)
Lemma sort_cells_fixed (l : list cell) : Sorted cell_le l -> sort_cells l = l.
Proof.
  induction 1 as [| x l Hs IH Hhd]; simpl; auto.
  rewrite IH. destruct Hhd as [| y l' Hxy]; simpl; auto.
  unfold cell_le in Hxy. destruct (cell_compare x y); congruence.
Qed.

Lemma unique_In (x : cell) (l : list cell) : In x (unique l) <-> In x l.
Proof.
  induction l as [| y l IH]; simpl; [tauto |].
  rewrite filter_In, IH, negb_true_iff, cell_eqb_neq.
  destruct (cell_eqb y x) eqn:E.
  - apply cell_eqb_eq in E. tauto.
  - apply cell_eqb_neq in E. tauto.
Qed.

Lemma unique_NoDup (l : list cell) : NoDup (unique l).
Proof.
  induction l as [| y l IH]; simpl; constructor.
  - rewrite filter_In, negb_true_iff, cell_eqb_neq. tauto.
  - apply NoDup_filter. auto.
Qed.

Lemma filter_all {A : Type} (f : A -> bool) (l : list A) :
  (forall x, In x l -> f x = true) -> filter f l = l.
Proof.
  induction l as [| a l IH]; simpl; intros H; auto.
  rewrite (H a) by auto. f_equal. auto.
Qed.

Lemma unique_fixed (l : list cell) : NoDup l -> unique l = l.
Proof.
  induction 1 as [| x l Hx Hl IH]; simpl; auto.
  rewrite IH. f_equal. apply filter_all.
  intros y Hy. apply negb_true_iff, cell_eqb_neq. congruence.
Qed.

Lemma group_keys_In (k : cell) (keys : list cell) :
  In k (group_keys keys) <-> In k keys /\ k <> NA.
Proof.
  unfold group_keys.
  split.
  - intros H. apply (Permutation_in _ (sort_cells_perm _)) in H.
    apply unique_In, filter_In in H. destruct H as [H Hna].
    split; auto. intros ->. discriminate.
  - intros [H Hna].
    apply (Permutation_in _ (Permutation_sym (sort_cells_perm _))).
    apply unique_In, filter_In. split; auto. destruct k; auto; congruence.
Qed.

Lemma group_keys_NoDup (keys : list cell) : NoDup (group_keys keys).
Proof.
  unfold group_keys.
  eapply Permutation_NoDup; [apply Permutation_sym, sort_cells_perm |].
  apply unique_NoDup.
Qed.

Lemma group_keys_Sorted (keys : list cell) : Sorted cell_le (group_keys keys).
Proof. apply sort_cells_Sorted. Qed.

(** The missing key is the index of no group. *)
Lemma group_keys_notna (keys : list cell) : ~ In NA (group_keys keys).
Proof. rewrite group_keys_In. tauto. Qed.

Lemma group_keys_fixed (keys : list cell) :
  NoDup keys -> Sorted cell_le keys -> ~ In NA keys -> group_keys keys = keys.
Proof.
  intros Hnd Hs Hna. unfold group_keys.
  rewrite filter_all.
  - rewrite unique_fixed by auto. apply sort_cells_fixed; auto.
  - intros x Hx. destruct x; auto; contradiction.
Qed.

(** ** Monthly bucketing *)

Lemma period_roundtrip (p : Z) : to_period_M (period_to_timestamp p) = p.
Proof.
  unfold to_period_M, period_to_timestamp. cbn [year month].
  pose proof (Z.div_mod p 12 ltac:(lia)). lia.
Qed.

Lemma at_pos_range_index (i : nat) (data : list (list cell)) :
  forall s, map (at_pos i) (range_index s data) = map (fun cs => nth i cs NA) data.
Proof.
  induction data as [| cs data IH]; simpl; intros s; auto.
  rewrite IH. reflexivity.
Qed.

Lemma combine_map {A B C : Type} (f : A -> B) (g : A -> C) (l : list A) :
  combine (map f l) (map g l) = map (fun x => (f x, g x)) l.
Proof.
  induction l as [| a l IH]; simpl; auto. rewrite IH. reflexivity.
Qed.

Lemma mapM_map_ok {A B C : Type} (f : B -> result C) (g : A -> B) (h : A -> C)
  (l : list A) :
  (forall a, f (g a) = Ok (h a)) -> mapM f (map g l) = Ok (map h l).
Proof.
  intros H. induction l as [| a l IH]; simpl; auto.
  rewrite H, IH. reflexivity.
Qed.

Lemma filter_key_none {A : Type} (K : A -> cell) (l : list A) (k : cell) :
  ~ In k (map K l) -> filter (fun y => cell_eqb (K y) k) l = [].
Proof.
  induction l as [| a l IH]; simpl; intros H; auto.
  destruct (cell_eqb (K a) k) eqn:E.
  - apply cell_eqb_eq in E. tauto.
  - apply IH. tauto.
Qed.

(** Under distinct keys a key selects the one row that carries it. *)
Lemma filter_key_single {A : Type} (K : A -> cell) (l : list A) (x : A) :
  NoDup (map K l) -> In x l ->
  filter (fun y => cell_eqb (K y) (K x)) l = [x].
Proof.
  induction l as [| a l IH]; simpl; intros Hnd Hin; [contradiction |].
  inversion Hnd as [| k ks Hnot Hnd']; subst.
  destruct Hin as [-> | Hin].
  - rewrite cell_eqb_refl. f_equal. apply filter_key_none. auto.
  - destruct (cell_eqb (K a) (K x)) eqn:E.
    + apply cell_eqb_eq in E. exfalso. apply Hnot. rewrite E. apply in_map. auto.
    + auto.
Qed.

Lemma Forall2_In_r {A B : Type} (R : A -> B -> Prop) (l : list A) (l' : list B) (b : B) :
  Forall2 R l l' -> In b l' -> exists a, In a l /\ R a b.
Proof.
  induction 1 as [| a b' l l' Hab _ IH]; simpl; [tauto |].
  intros [<- | Hin]; [eauto |].
  destruct (IH Hin) as (a' & Ha' & HR). eauto.
Qed.

Lemma range_index_In (r : Row) (data : list (list cell)) :
  forall s, In r (range_index s data) -> In (cells r) data.
Proof.
  induction data as [| cs data IH]; simpl; intros s; [tauto |].
  intros [<- | H]; [left; reflexivity | right; eauto].
Qed.

(** Re-grouping a series whose keys are distinct and sorted returns it. *)
Lemma groupby_sum_fixed (ps : list (Z * Z)) :
  NoDup (map (fun x => Period (fst x)) ps) ->
  Sorted cell_le (map (fun x => Period (fst x)) ps) ->
  groupby_sum (map (fun x => Period (fst x)) ps) (map (fun x => Num (snd x)) ps)
  = Ok (map (fun x => (Period (fst x), snd x)) ps).
Proof.
  intros Hnd Hs. unfold groupby_sum, numeric.
  rewrite (mapM_map_ok as_number (fun x : Z * Z => Num (snd x)) (fun x => Some (snd x)))
    by reflexivity.
  simpl. f_equal.
  rewrite group_keys_fixed; auto.
  2: { intros H. apply in_map_iff in H. destruct H as (x & E & _). discriminate. }
  rewrite combine_map, map_map.
  apply map_ext_in. intros x Hx. f_equal.
  unfold group_values.
  pose proof (filter_key_single fst
                (map (fun y : Z * Z => (Period (fst y), Some (snd y))) ps)
                (Period (fst x), Some (snd x))) as Hone.
  simpl in Hone. rewrite Hone.
  - simpl. lia.
  - rewrite map_map. simpl. exact Hnd.
  - apply in_map_iff. exists x. auto.
Qed.

Lemma month_start_rows (ps : list (Z * Z)) :
  forall s,
    map (fun rv : Row * cell => mkRow (label (fst rv)) (set_nth 0 (snd rv) (cells (fst rv))))
      (combine
         (range_index s (map (fun x : Z * Z => [Period (fst x); Num (snd x)]) ps))
         (map (fun x : Z * Z => Time (period_to_timestamp (fst x))) ps))
    = range_index s
        (map (fun x : Z * Z => [Time (period_to_timestamp (fst x)); Num (snd x)]) ps).
Proof.
  induction ps as [| x ps IH]; simpl; intros s; auto.
  rewrite IH. reflexivity.
Qed.

(** Line 86 on a grouped series: the periods become month starts. *)
Lemma month_start_frame (ps : list (Z * Z)) :
  Master.month_start
    (reset_index "Date" "Article Reads" (map (fun x => (Period (fst x), snd x)) ps))
  = Ok (monthly_frame ps).
Proof.
  unfold Master.month_start, reset_index, getitem.
  change (col_pos "Date" (columns (mkDataFrame ["Date"; "Article Reads"] _)))
    with (Some 0%nat).
  cbn [bind rows]. rewrite values_labelled.
  rewrite at_pos_range_index, !map_map. cbn [fst snd nth].
  unfold dt_to_timestamp.
  rewrite (mapM_map_ok _ (fun x : Z * Z => Period (fst x))
             (fun x => Time (period_to_timestamp (fst x)))) by reflexivity.
  cbn [bind]. unfold setitem.
  change (col_pos "Date" (columns (mkDataFrame ["Date"; "Article Reads"] _)))
    with (Some 0%nat).
  cbn [rows columns]. unfold monthly_frame. f_equal. f_equal.
  apply month_start_rows.
Qed.

(** Line 85: the grouped series has one entry per month present in the view,
    the months distinct and ascending. *)
Lemma monthly_sum_shape (view agg : DataFrame) :
  Master.monthly_sum view = Ok agg ->
  exists ps : list (Z * Z),
    agg = reset_index "Date" "Article Reads" (map (fun x => (Period (fst x), snd x)) ps) /\
    NoDup (map (fun x => Period (fst x)) ps) /\
    Sorted cell_le (map (fun x => Period (fst x)) ps) /\
    forall x, In x ps ->
      exists src t, In src (rows view) /\
                    key_of view "Date" src = Time t /\
                    fst x = to_period_M t.
Proof.
  unfold Master.monthly_sum. intros H.
  apply bind_ok in H. destruct H as (dates & Hd & H).
  apply bind_ok in H. destruct H as (periods & Hp & H).
  apply bind_ok in H. destruct H as (reads & Hr & H).
  apply bind_ok in H. destruct H as (sums & Hs & H).
  injection H as <-.
  unfold groupby_sum in Hs.
  apply bind_ok in Hs. destruct Hs as (n & Hn & Hs). injection Hs as <-.
  apply getitem_ok in Hd. destruct Hd as (i & Hi & ->).
  rewrite values_getitem in Hp.
  assert (Hkey : forall k, In k (group_keys periods) ->
            exists src t, In src (rows view) /\ at_pos i src = Time t /\
                          k = Period (to_period_M t)).
  { intros k Hk. apply group_keys_In in Hk. destruct Hk as [Hk Hna].
    apply mapM_ok_Forall2 in Hp.
    destruct (Forall2_In_r _ _ _ _ Hp Hk) as (c & Hc & Hck).
    apply in_map_iff in Hc. destruct Hc as (src & <- & Hsrc).
    destruct (at_pos i src) as [| z | str | t | p] eqn:E; simpl in Hck;
      try discriminate.
    - injection Hck as <-. congruence.
    - injection Hck as <-. exists src, t. auto. }
  set (keyed := combine periods n) in *.
  exists (map (fun k => (ordinal_of k, nansum (group_values k keyed))) (group_keys periods)).
  assert (Hkeys : map (fun x : Z * Z => Period (fst x))
                    (map (fun k => (ordinal_of k, nansum (group_values k keyed)))
                         (group_keys periods)) = group_keys periods).
  { rewrite map_map. simpl. rewrite <- (map_id (group_keys periods)) at 2.
    apply map_ext_in. intros k Hk.
    destruct (Hkey k Hk) as (_ & t & _ & _ & ->). reflexivity. }
  split; [| split; [| split]].
  - f_equal. rewrite map_map. simpl. apply map_ext_in. intros k Hk.
    destruct (Hkey k Hk) as (_ & t & _ & _ & ->). reflexivity.
  - rewrite Hkeys. apply group_keys_NoDup.
  - rewrite Hkeys. apply group_keys_Sorted.
  - intros x Hx. apply in_map_iff in Hx. destruct Hx as (k & <- & Hk).
    destruct (Hkey k Hk) as (src & t & Hsrc & Ht & ->).
    exists src, t. unfold key_of. rewrite Hi. auto.
Qed.

Lemma monthly_sum_frame (ps : list (Z * Z)) :
  NoDup (map (fun x => Period (fst x)) ps) ->
  Sorted cell_le (map (fun x => Period (fst x)) ps) ->
  Master.monthly_sum (monthly_frame ps)
  = Ok (reset_index "Date" "Article Reads" (map (fun x => (Period (fst x), snd x)) ps)).
Proof.
  intros Hnd Hs. unfold Master.monthly_sum, monthly_frame, getitem.
  change (col_pos "Date" (columns (mkDataFrame ["Date"; "Article Reads"] _)))
    with (Some 0%nat).
  change (col_pos "Article Reads" (columns (mkDataFrame ["Date"; "Article Reads"] _)))
    with (Some 1%nat).
  cbn [bind rows]. rewrite !values_labelled.
  rewrite !at_pos_range_index, !map_map. cbn [nth].
  unfold dt_to_period_M.
  rewrite (mapM_map_ok _ (fun x : Z * Z => Time (period_to_timestamp (fst x)))
             (fun x => Period (fst x))).
  2: { intros a. simpl. rewrite period_roundtrip. reflexivity. }
  cbn [bind]. rewrite groupby_sum_fixed by auto. reflexivity.
Qed.

Lemma column_all_spec (p : cell -> bool) (df : DataFrame) (c : string) :
  column_all p df c = true ->
  exists i, col_pos c (columns df) = Some i /\
            forall r, In r (rows df) -> p (at_pos i r) = true.
Proof.
  unfold column_all. destruct (col_pos c (columns df)) as [i |]; [| discriminate].
  intros H. rewrite forallb_forall in H. eauto.
Qed.

(** The monthly sum exists for a view with a datetime date column and a
    numeric read count. *)
Lemma monthly_reads_defined (view : DataFrame) :
  datetime_column view "Date" = true ->
  numeric_column view "Article Reads" = true ->
  exists out, Master.monthly_reads view = Ok out.
Proof.
  intros Hdt Hnum.
  apply column_all_spec in Hdt. destruct Hdt as (i & Hi & Hdt).
  apply column_all_spec in Hnum. destruct Hnum as (j & Hj & Hnum).
  assert (Hper : exists periods,
            dt_to_period_M (map (at_pos i) (rows view)) = Ok periods).
  { apply mapM_total, Forall_forall. intros c Hc.
    apply in_map_iff in Hc. destruct Hc as (r & <- & Hr).
    specialize (Hdt r Hr). destruct (at_pos i r); simpl in *; try discriminate; eauto. }
  destruct Hper as [periods Hper].
  assert (Hn : exists n, numeric (map (at_pos j) (rows view)) = Ok n).
  { apply mapM_total, Forall_forall. intros c Hc.
    apply in_map_iff in Hc. destruct Hc as (r & <- & Hr).
    specialize (Hnum r Hr). destruct (at_pos j r); simpl in *; try discriminate; eauto. }
  destruct Hn as [n Hn].
  assert (Hagg : exists agg, Master.monthly_sum view = Ok agg).
  { unfold Master.monthly_sum, getitem. rewrite Hi, Hj. cbn [bind].
    rewrite !values_labelled, Hper. cbn [bind].
    unfold groupby_sum. rewrite Hn. cbn [bind]. eauto. }
  destruct Hagg as [agg Hagg].
  destruct (monthly_sum_shape _ _ Hagg) as (ps & -> & _).
  unfold Master.monthly_reads. rewrite Hagg. cbn [bind].
  rewrite month_start_frame. eauto.
Qed.

(** C7. Bucketing the output of the monthly bucketed sum again returns that
    output: same months, same sums, same order.  Every month of the output
    is the month of some row of the input, so a month without rows is
    absent, not zero.  The sum exists for every view with a datetime date
    column and a numeric read count. *)
Theorem C7_monthly_sum_idempotent :
  (forall view out : DataFrame,
     Master.monthly_reads view = Ok out ->
     Master.monthly_reads out = Ok out /\
     App.reads_over_time out = Ok out /\
     forall r, In r (rows out) ->
       exists src t,
         In src (rows view) /\
         key_of view "Date" src = Time t /\
         at_pos 0 r = Time (period_to_timestamp (to_period_M t))) /\
  (forall view : DataFrame,
     datetime_column view "Date" = true ->
     numeric_column view "Article Reads" = true ->
     exists out, Master.monthly_reads view = Ok out).
Proof.
  split; [| exact monthly_reads_defined].
  intros view out H. unfold Master.monthly_reads in H.
  apply bind_ok in H. destruct H as (agg & Hagg & Hout).
  destruct (monthly_sum_shape _ _ Hagg) as (ps & -> & Hnd & Hs & Hsrc).
  rewrite month_start_frame in Hout. injection Hout as <-.
  assert (Hfix : Master.monthly_reads (monthly_frame ps) = Ok (monthly_frame ps)).
  { unfold Master.monthly_reads. rewrite monthly_sum_frame by auto.
    cbn [bind]. apply month_start_frame. }
  split; [exact Hfix |]. split; [exact Hfix |].
  intros r Hr. unfold monthly_frame in Hr. cbn [rows] in Hr.
  apply range_index_In in Hr. apply in_map_iff in Hr.
  destruct Hr as (x & Hx & Hin).
  destruct (Hsrc x Hin) as (src & t & Hs1 & Hs2 & Hs3).
  exists src, t. repeat split; auto.
  unfold at_pos. rewrite <- Hx. simpl. rewrite Hs3. reflexivity.
Qed.

Lemma C7_witness :
  (Master.monthly_reads sample_monthly = Ok sample_monthly /\
   App.reads_over_time sample_monthly = Ok sample_monthly /\
   forall r, In r (rows sample_monthly) ->
     exists src t,
       In src (rows sample_merged_df) /\
       key_of sample_merged_df "Date" src = Time t /\
       at_pos 0 r = Time (period_to_timestamp (to_period_M t))) /\
  len sample_monthly = 2 /\
  exists out, Master.monthly_reads sample_merged_df = Ok out.
Proof.
  split; [| split; [reflexivity |]].
  - apply (proj1 C7_monthly_sum_idempotent sample_merged_df sample_monthly).
    vm_compute. reflexivity.
  - apply (proj2 C7_monthly_sum_idempotent sample_merged_df); reflexivity.
Defined.

(** ** Column assignment *)

Lemma set_nth_same (i : nat) (v : cell) (l : list cell) :
  nth i (set_nth i v l) NA = v.
Proof.
  revert l; induction i as [| i IH]; intros [| x l]; simpl; auto.
Qed.

Lemma set_nth_other (i j : nat) (v : cell) (l : list cell) :
  i <> j -> nth j (set_nth i v l) NA = nth j l NA.
Proof.
  revert j l; induction i as [| i IH]; intros [| j] [| x l] H; simpl; auto;
    try congruence.
  - destruct j; reflexivity.
  - rewrite IH by congruence. destruct j; reflexivity.
Qed.

Lemma combine_fst {A B : Type} (l : list A) (l' : list B) :
  List.length l = List.length l' -> map fst (combine l l') = l.
Proof.
  revert l'; induction l as [| a l IH]; intros [| b l'] H; simpl in *;
    try discriminate; auto.
  f_equal. auto.
Qed.

Lemma combine_snd {A B : Type} (l : list A) (l' : list B) :
  List.length l = List.length l' -> map snd (combine l l') = l'.
Proof.
  revert l'; induction l as [| a l IH]; intros [| b l'] H; simpl in *;
    try discriminate; auto.
  f_equal. auto.
Qed.

Lemma col_pos_app (c extra : string) (cols : list string) :
  col_pos c (cols ++ [extra]) =
  match col_pos c cols with
  | Some i => Some i
  | None => if String.eqb c extra then Some (List.length cols) else None
  end.
Proof.
  induction cols as [| c' cols IH]; simpl.
  - destruct (String.eqb c extra); reflexivity.
  - destruct (String.eqb c c'); auto.
    rewrite IH. destruct (col_pos c cols); simpl; auto.
    destruct (String.eqb c extra); reflexivity.
Qed.

Lemma col_pos_bound (c : string) (cols : list string) (i : nat) :
  col_pos c cols = Some i -> (i < List.length cols)%nat.
Proof.
  intros H. apply col_pos_nth in H. apply nth_error_Some. congruence.
Qed.

Lemma col_pos_distinct (c c' : string) (cols : list string) (i i' : nat) :
  col_pos c cols = Some i -> col_pos c' cols = Some i' -> c' <> c -> i <> i'.
Proof.
  intros H H' Hne ->. apply col_pos_nth in H, H'. congruence.
Qed.

(** Position of the assigned column and the rows after the assignment. *)
Lemma setitem_shape (df : DataFrame) (c : string) (vals : list cell) :
  exists i,
    col_pos c (columns (setitem df c vals)) = Some i /\
    (forall c' i', c' <> c -> col_pos c' (columns (setitem df c vals)) = Some i' -> i <> i') /\
    (forall c', c' <> c ->
       col_pos c' (columns (setitem df c vals)) = col_pos c' (columns df)) /\
    rows (setitem df c vals)
      = map (fun rv => mkRow (label (fst rv)) (set_nth i (snd rv) (cells (fst rv))))
          (combine (rows df) vals).
Proof.
  unfold setitem. destruct (col_pos c (columns df)) as [i |] eqn:E; simpl.
  - exists i. repeat split; auto.
    intros c' i' Hne H'. eapply col_pos_distinct; eauto.
  - exists (List.length (columns df)).
    assert (Hother : forall c', c' <> c ->
              col_pos c' (columns df ++ [c]) = col_pos c' (columns df)).
    { intros c' Hne. rewrite col_pos_app.
      destruct (col_pos c' (columns df)); auto.
      destruct (String.eqb_spec c' c); congruence. }
    repeat split; auto.
    + rewrite col_pos_app, E, String.eqb_refl. reflexivity.
    + intros c' i' Hne H'. rewrite Hother in H' by auto.
      apply col_pos_bound in H'. lia.
Qed.

(** Reading back the assigned column. *)
Lemma getitem_setitem_same (df : DataFrame) (c : string) (vals : list cell) :
  List.length vals = List.length (rows df) ->
  exists s, getitem (setitem df c vals) c = Ok s /\ values s = vals.
Proof.
  intros Hlen. destruct (setitem_shape df c vals) as (i & Hi & _ & _ & Hrows).
  unfold getitem. rewrite Hi, Hrows. eexists. split; [reflexivity |].
  unfold values. rewrite !map_map. simpl. unfold at_pos. simpl.
  erewrite map_ext; [apply combine_snd; auto |].
  intros rv. apply set_nth_same.
Qed.

(** Reading any other column: unchanged, present or not. *)
Lemma getitem_setitem_other (df : DataFrame) (c c' : string) (vals : list cell) :
  c' <> c ->
  List.length vals = List.length (rows df) ->
  getitem (setitem df c vals) c' = getitem df c'.
Proof.
  intros Hne Hlen.
  destruct (setitem_shape df c vals) as (i & Hi & Hdist & Hother & Hrows).
  unfold getitem. rewrite (Hother c' Hne).
  destruct (col_pos c' (columns df)) as [i' |] eqn:E'; auto.
  f_equal. rewrite Hrows, map_map. simpl. unfold at_pos. simpl.
  assert (Hii : i <> i') by (apply (Hdist c' i' Hne); rewrite Hother; auto).
  erewrite map_ext.
  2: { intros rv. rewrite (set_nth_other i i') by auto. reflexivity. }
  rewrite <- (combine_fst (rows df) vals) at 2 by auto.
  rewrite map_map. reflexivity.
Qed.

Lemma setitem_length (df : DataFrame) (c : string) (vals : list cell) :
  List.length vals = List.length (rows df) ->
  List.length (rows (setitem df c vals)) = List.length (rows df).
Proof.
  intros Hlen. destruct (setitem_shape df c vals) as (i & _ & _ & _ & ->).
  rewrite length_map, length_combine. lia.
Qed.

(** ** Sums split by label *)

Lemma nansum_cons (v : option Z) (l : list (option Z)) :
  nansum (v :: l) = value_of v + nansum l.
Proof. destruct v; reflexivity. Qed.

Lemma nansum_repeat_None (n : nat) : nansum (repeat None n) = 0.
Proof. induction n; simpl; auto. Qed.

Lemma nansum_map {A : Type} (g : A -> option Z) (l : list A) :
  nansum (map g l) = fold_right (fun a acc => value_of (g a) + acc) 0 l.
Proof.
  induction l as [| a l IH]; simpl map; [reflexivity |].
  rewrite nansum_cons, IH. reflexivity.
Qed.

Lemma sum_over_ext (f g : cell -> Z) (L : list cell) :
  (forall k, In k L -> f k = g k) -> sum_over f L = sum_over g L.
Proof.
  induction L as [| k L IH]; simpl; intros H; auto.
  rewrite (H k) by auto. rewrite IH; auto.
Qed.

Lemma sum_over_zero (L : list cell) : sum_over (fun _ => 0) L = 0.
Proof. induction L; simpl; auto. Qed.

Lemma sum_over_absent (x : cell) (v : Z) (f : cell -> Z) (L : list cell) :
  ~ In x L ->
  sum_over (fun k => if cell_eqb x k then v + f k else f k) L = sum_over f L.
Proof.
  intros H. apply sum_over_ext. intros k Hk.
  destruct (cell_eqb x k) eqn:E; auto.
  apply cell_eqb_eq in E. congruence.
Qed.

(** A value added under one label of a duplicate-free list is counted once. *)
Lemma sum_over_indicator (x : cell) (v : Z) (f : cell -> Z) (L : list cell) :
  NoDup L -> In x L ->
  sum_over (fun k => if cell_eqb x k then v + f k else f k) L = v + sum_over f L.
Proof.
  induction 1 as [| k L Hk Hnd IH]; simpl; [tauto |].
  intros [-> | Hin].
  - rewrite cell_eqb_refl, sum_over_absent by auto. lia.
  - destruct (cell_eqb x k) eqn:E.
    + apply cell_eqb_eq in E. congruence.
    + rewrite IH by auto. lia.
Qed.

(** Summing group by group, over labels that cover every row, gives the sum
    over all rows. *)
Lemma sum_by_key {A : Type} (K : A -> cell) (V : A -> option Z) (L : list cell)
  (l : list A) :
  NoDup L ->
  (forall a, In a l -> In (K a) L) ->
  sum_over (fun k => nansum (map V (filter (fun a => cell_eqb (K a) k) l))) L
  = nansum (map V l).
Proof.
  intros Hnd. induction l as [| a l IH]; intros Hcover.
  - simpl. apply sum_over_zero.
  - simpl map. rewrite nansum_cons, <- IH by (intros; apply Hcover; simpl; auto).
    rewrite <- (sum_over_indicator (K a)) by (auto; apply Hcover; simpl; auto).
    apply sum_over_ext. intros k _. cbn [filter].
    destruct (cell_eqb (K a) k); auto.
    simpl map. apply nansum_cons.
Qed.

Lemma filter_andb {A : Type} (f g : A -> bool) (l : list A) :
  filter (fun a => f a && g a) l = filter g (filter f l).
Proof.
  induction l as [| a l IH]; simpl; auto.
  destruct (f a); simpl; rewrite IH; auto.
Qed.

(** ** Pivot totals *)

Lemma pivot_cell_value (keyed : list ((cell * cell) * option Z)) (i c : cell) :
  value_of (pivot_cell (Some 0) keyed i c)
  = nansum (map snd
      (filter (fun kv => cell_eqb (snd (fst kv)) c)
         (filter (fun kv => cell_eqb (fst (fst kv)) i) keyed))).
Proof.
  unfold pivot_cell. rewrite <- filter_andb.
  destruct (filter _ keyed); reflexivity.
Qed.

Lemma grand_total_rows (cols : list cell) (f : cell -> list (option Z)) (L : list cell) :
  grand_total (mkMatrix cols (map (fun l => (l, f l)) L))
  = sum_over (fun l => nansum (f l)) L.
Proof.
  unfold grand_total. simpl. induction L as [| l L IH]; simpl; auto.
  rewrite IH. reflexivity.
Qed.

Lemma lookup_row_present (f : cell -> list (option Z)) (I : list cell) (l : cell) :
  In l I -> lookup_row l (map (fun i => (i, f i)) I) = Some (f l).
Proof.
  induction I as [| i I IH]; simpl; [tauto |].
  intros H. destruct (cell_eqb l i) eqn:E.
  - apply cell_eqb_eq in E. subst. reflexivity.
  - apply IH. destruct H as [-> | H]; auto.
    rewrite cell_eqb_refl in E. discriminate.
Qed.

Lemma lookup_row_absent (f : cell -> list (option Z)) (I : list cell) (l : cell) :
  ~ In l I -> lookup_row l (map (fun i => (i, f i)) I) = None.
Proof.
  induction I as [| i I IH]; simpl; auto.
  intros H. destruct (cell_eqb l i) eqn:E.
  - apply cell_eqb_eq in E. subst. tauto.
  - apply IH. tauto.
Qed.

Lemma labelled_values_notna (ki kc : list cell) (n : list (option Z))
  (a : (cell * cell) * option Z) :
  In a (labelled_values ki kc n) -> fst (fst a) <> NA /\ snd (fst a) <> NA.
Proof.
  unfold labelled_values. intros H. apply filter_In in H. destruct H as [_ H].
  apply andb_true_iff in H. destruct H as [H1 H2].
  split; intros E; rewrite E in *; discriminate.
Qed.

(** The total of a pivot table re-indexed by labels that cover its rows is
    the sum of the values that carry both labels. *)
Lemma pivot_reindex_total (df : DataFrame) (index cols vals : string)
  (table : Matrix) (L : list cell) :
  pivot_table_sum df index cols vals (Some 0) = Ok table ->
  NoDup L ->
  exists v ki kc n,
    getitem df vals = Ok v /\
    getitem df index = Ok ki /\
    getitem df cols = Ok kc /\
    numeric (values v) = Ok n /\
    ((forall a, In a (labelled_values (values ki) (values kc) n) -> In (fst (fst a)) L) ->
     grand_total (reindex table L)
     = nansum (map snd (labelled_values (values ki) (values kc) n))).
Proof.
  unfold pivot_table_sum. intros H HL.
  apply bind_ok in H. destruct H as (v & Hv & H).
  apply bind_ok in H. destruct H as (ki & Hki & H).
  apply bind_ok in H. destruct H as (kc & Hkc & H).
  apply bind_ok in H. destruct H as (n & Hn & H).
  injection H as <-.
  exists v, ki, kc, n. repeat split; auto.
  set (keyed := labelled_values (values ki) (values kc) n).
  set (I := group_keys (map (fun kv => fst (fst kv)) keyed)).
  set (C := group_keys (map (fun kv => snd (fst kv)) keyed)).
  intros Hcover.
  pose (T := fun i : cell =>
          nansum (map snd (filter (fun kv : cell * cell * option Z =>
                                     cell_eqb (fst (fst kv)) i) keyed))).
  assert (Hrow : forall i, nansum (map (pivot_cell (Some 0) keyed i) C) = T i).
  { intros i. rewrite nansum_map.
    change (fold_right (fun a acc => value_of (pivot_cell (Some 0) keyed i a) + acc) 0 C)
      with (sum_over (fun c => value_of (pivot_cell (Some 0) keyed i c)) C).
    erewrite sum_over_ext; [| intros c _; apply pivot_cell_value].
    apply (sum_by_key (fun kv : cell * cell * option Z => snd (fst kv)) snd C).
    - apply group_keys_NoDup.
    - intros a Ha. apply filter_In in Ha. destruct Ha as [Ha _].
      apply group_keys_In. split.
      + apply in_map_iff. eauto.
      + apply (labelled_values_notna _ _ _ _ Ha). }
  unfold reindex. cbn [mcolumns mrows].
  rewrite grand_total_rows.
  rewrite <- (sum_by_key (fun kv : cell * cell * option Z => fst (fst kv)) snd L keyed HL Hcover).
  apply sum_over_ext. intros l _.
  destruct (in_dec cell_eq_dec l I) as [Hin | Hout].
  - rewrite lookup_row_present by auto. apply Hrow.
  - rewrite lookup_row_absent by auto. rewrite nansum_repeat_None.
    rewrite filter_key_none; [reflexivity |].
    intros Hl. apply Hout. apply group_keys_In. split; auto.
    apply in_map_iff in Hl. destruct Hl as (a & <- & Ha).
    apply (labelled_values_notna _ _ _ _ Ha).
Qed.

(** ** The engagement heatmap *)

Lemma day_name_In (t : Timestamp) : In (day_name t) day_names.
Proof.
  unfold day_name. apply nth_In.
  unfold weekday.
  pose proof (Z.mod_pos_bound (days_from_civil (year t) (month t) (day t) + 3) 7
                ltac:(lia)).
  change (List.length day_names) with 7%nat. lia.
Qed.

Lemma day_labels_NoDup : NoDup (map Str day_names).
Proof.
  simpl. repeat constructor; simpl; intuition discriminate.
Qed.

Lemma select_filter (df : DataFrame) (p : Row -> bool) :
  rows (select df (map p (rows df))) = filter p (rows df).
Proof.
  unfold select. simpl. induction (rows df) as [| r rs IH]; simpl; auto.
  destruct (p r); simpl; rewrite IH; reflexivity.
Qed.

Lemma mapM_map_ok_in {A B C : Type} (f : B -> result C) (g : A -> B) (h : A -> C)
  (l : list A) :
  (forall a, In a l -> f (g a) = Ok (h a)) -> mapM f (map g l) = Ok (map h l).
Proof.
  induction l as [| a l IH]; simpl; intros H; auto.
  rewrite H by auto. simpl. rewrite IH by auto. reflexivity.
Qed.

(** The heatmap of a table whose rows with an access date hold a timestamp
    there and a number (or nothing) as read count. *)
Lemma heatmap_total (readers : DataFrame) (iT iR : nat) :
  col_pos "Last Access Date" (columns readers) = Some iT ->
  col_pos "Reads" (columns readers) = Some iR ->
  (forall r, In r (rows readers) -> notna (at_pos iT r) = true ->
             is_datetimelike (at_pos iT r) = true) ->
  (forall r, In r (rows readers) -> notna (at_pos iT r) = true ->
             is_numeric (at_pos iR r) = true) ->
  exists m valid reads,
    Master.heatmap_data readers = Ok m /\
    dropna_subset readers "Last Access Date" = Ok valid /\
    getitem valid "Reads" = Ok reads /\
    series_sum (values reads) = Ok (grand_total m).
Proof.
  intros ET ER Hdt Hnum.
  (* the rows with an access date *)
  set (valid := select readers
                  (map (fun v => negb (isna v))
                       (values (map (fun r => (label r, at_pos iT r)) (rows readers))))).
  assert (Hvalid : dropna_subset readers "Last Access Date" = Ok valid).
  { unfold dropna_subset, getitem. rewrite ET. reflexivity. }
  assert (Hrows : rows valid = filter (fun r => notna (at_pos iT r)) (rows readers)).
  { unfold valid. rewrite values_labelled, map_map. apply select_filter. }
  assert (Hstamp : forall r, In r (rows valid) ->
            (In r (rows readers) /\ notna (at_pos iT r) = true) /\
            at_pos iT r = Time (stamp_of (at_pos iT r))).
  { intros r Hr. rewrite Hrows in Hr. apply filter_In in Hr. destruct Hr as [Hr Hna].
    split; auto. specialize (Hdt r Hr Hna).
    destruct (at_pos iT r); simpl in *; try discriminate; reflexivity. }
  set (V := rows valid) in *.
  assert (HgetT : getitem valid "Last Access Date"
                  = Ok (map (fun r => (label r, at_pos iT r)) V)).
  { unfold getitem. change (columns valid) with (columns readers). rewrite ET. reflexivity. }
  assert (HgetR : getitem valid "Reads" = Ok (map (fun r => (label r, at_pos iR r)) V)).
  { unfold getitem. change (columns valid) with (columns readers). rewrite ER. reflexivity. }
  (* the Day and Hour columns *)
  set (days := map (fun r => Str (day_name (stamp_of (at_pos iT r)))) V).
  set (hours := map (fun r => Num (hour (stamp_of (at_pos iT r)))) V).
  assert (Hdays : dt_day_name (map (at_pos iT) V) = Ok days).
  { apply mapM_map_ok_in. intros r Hr.
    destruct (Hstamp r Hr) as [_ ->]. reflexivity. }
  assert (Hhours : dt_hour (map (at_pos iT) V) = Ok hours).
  { apply mapM_map_ok_in. intros r Hr.
    destruct (Hstamp r Hr) as [_ ->]. reflexivity. }
  assert (Ldays : List.length days = List.length V) by apply length_map.
  assert (Lhours : List.length hours = List.length V) by apply length_map.
  set (valid1 := setitem valid "Day" days).
  set (valid2 := setitem valid1 "Hour" hours).
  assert (L1 : List.length (rows valid1) = List.length V)
    by (apply setitem_length; exact Ldays).
  assert (Lhours1 : List.length hours = List.length (rows valid1)) by congruence.
  assert (HgetT1 : getitem valid1 "Last Access Date"
                   = Ok (map (fun r => (label r, at_pos iT r)) V)).
  { unfold valid1. rewrite getitem_setitem_other; auto. discriminate. }
  (* the three columns the pivot reads *)
  assert (HgetR2 : getitem valid2 "Reads" = Ok (map (fun r => (label r, at_pos iR r)) V)).
  { unfold valid2, valid1.
    rewrite !getitem_setitem_other; auto; discriminate. }
  destruct (getitem_setitem_same valid "Day" days Ldays) as (sd & Hsd & Hsdv).
  assert (HgetD2 : getitem valid2 "Day" = Ok sd).
  { unfold valid2. rewrite getitem_setitem_other; auto. discriminate. }
  destruct (getitem_setitem_same valid1 "Hour" hours Lhours1) as (sh & Hsh & Hshv).
  fold valid2 in Hsh.
  destruct (mapM_total as_number (map (at_pos iR) V)) as [n Hn].
  { apply Forall_forall. intros c Hc. apply in_map_iff in Hc.
    destruct Hc as (r & <- & Hr). destruct (Hstamp r Hr) as [[Hr' Hna] _].
    specialize (Hnum r Hr' Hna).
    destruct (at_pos iR r); simpl in *; try discriminate; eauto. }
  assert (Ln : List.length n = List.length V).
  { apply mapM_length in Hn. rewrite length_map in Hn. exact Hn. }
  assert (Hpivot : exists table,
            pivot_table_sum valid2 "Day" "Hour" "Reads" (Some 0) = Ok table).
  { unfold pivot_table_sum. rewrite HgetR2, HgetD2, Hsh. cbn [bind].
    rewrite values_labelled. unfold numeric. rewrite Hn. cbn [bind]. eauto. }
  destruct Hpivot as [table Htable].
  exists (reindex table (map Str day_names)), valid, (map (fun r => (label r, at_pos iR r)) V).
  split; [| split; [exact Hvalid | split; [exact HgetR |]]].
  - unfold Master.heatmap_data. rewrite Hvalid. cbn [bind].
    rewrite HgetT. cbn [bind]. rewrite values_labelled, Hdays. cbn [bind].
    fold valid1. rewrite HgetT1. cbn [bind]. rewrite values_labelled, Hhours. cbn [bind].
    fold valid2. rewrite Htable. reflexivity.
  - destruct (pivot_reindex_total _ _ _ _ _ _ Htable day_labels_NoDup)
      as (v & ki & kc & n' & Hv & Hki & Hkc & Hn' & Htotal).
    rewrite HgetR2 in Hv. injection Hv as <-.
    rewrite HgetD2 in Hki. injection Hki as <-.
    rewrite Hsh in Hkc. injection Hkc as <-.
    rewrite values_labelled in Hn'. unfold numeric in Hn'.
    rewrite Hn in Hn'. injection Hn' as <-.
    rewrite Hsdv, Hshv in Htotal.
    assert (Hall : labelled_values days hours n = combine (combine days hours) n).
    { unfold labelled_values. apply filter_all. intros [[d h] x] Hin. simpl.
      apply in_combine_l in Hin.
      pose proof (in_combine_l _ _ _ _ Hin) as Hd.
      pose proof (in_combine_r _ _ _ _ Hin) as Hh.
      apply in_map_iff in Hd. destruct Hd as (r1 & <- & _).
      apply in_map_iff in Hh. destruct Hh as (r2 & <- & _). reflexivity. }
    unfold series_sum. rewrite values_labelled. unfold numeric. rewrite Hn. cbn [bind].
    f_equal. rewrite Htotal.
    + rewrite Hall. rewrite combine_snd; auto.
      rewrite length_combine. lia.
    + intros [[d h] x] Hin. cbn [fst]. rewrite Hall in Hin.
      apply in_combine_l, in_combine_l in Hin.
      apply in_map_iff in Hin. destruct Hin as (r & <- & _).
      apply (in_map Str). apply day_name_In.
Qed.

Lemma Forall2_In_l {A B : Type} (R : A -> B -> Prop) (l : list A) (l' : list B) (a : A) :
  Forall2 R l l' -> In a l -> exists b, In b l' /\ R a b.
Proof.
  induction 1 as [| a' b l l' Hab _ IH]; simpl; [tauto |].
  intros [<- | Hin]; [eauto |].
  destruct (IH Hin) as (b' & Hb' & HR). eauto.
Qed.

(** What a produced heatmap tells about the table it was made from. *)
Lemma heatmap_inversion (readers : DataFrame) (m : Matrix) :
  Master.heatmap_data readers = Ok m ->
  exists iT iR,
    col_pos "Last Access Date" (columns readers) = Some iT /\
    col_pos "Reads" (columns readers) = Some iR /\
    (forall r, In r (rows readers) -> notna (at_pos iT r) = true ->
               is_datetimelike (at_pos iT r) = true) /\
    (forall r, In r (rows readers) -> notna (at_pos iT r) = true ->
               is_numeric (at_pos iR r) = true).
Proof.
  unfold Master.heatmap_data. intros H.
  apply bind_ok in H. destruct H as (valid & Hvalid & H).
  apply bind_ok in H. destruct H as (t1 & Ht1 & H).
  apply bind_ok in H. destruct H as (days & Hdays & H).
  apply bind_ok in H. destruct H as (t2 & Ht2 & H).
  apply bind_ok in H. destruct H as (hours & Hhours & H).
  apply bind_ok in H. destruct H as (table & Htable & _).
  unfold dropna_subset in Hvalid.
  apply bind_ok in Hvalid. destruct Hvalid as (s & Hs & Hvalid).
  apply getitem_ok in Hs. destruct Hs as (iT & HiT & ->).
  injection Hvalid as Hvalid.
  assert (Hrows : rows valid = filter (fun r => notna (at_pos iT r)) (rows readers)).
  { rewrite <- Hvalid, values_labelled, map_map. apply select_filter. }
  assert (Hcols : columns valid = columns readers) by (rewrite <- Hvalid; reflexivity).
  apply getitem_ok in Ht1. destruct Ht1 as (i' & Hi' & Ht1).
  rewrite Hcols, HiT in Hi'. injection Hi' as <-.
  assert (Hget1 : getitem valid "Last Access Date" = Ok t1).
  { unfold getitem. rewrite Hcols, HiT, Ht1. reflexivity. }
  assert (Hv1 : values t1 = map (at_pos iT) (rows valid))
    by (rewrite Ht1; apply values_labelled).
  assert (Ldays : List.length days = List.length (rows valid)).
  { apply mapM_length in Hdays. rewrite Hv1, length_map in Hdays. exact Hdays. }
  rewrite getitem_setitem_other in Ht2 by (auto; discriminate).
  rewrite Hget1 in Ht2. injection Ht2 as <-.
  assert (Lhours : List.length hours = List.length (rows (setitem valid "Day" days))).
  { apply mapM_length in Hhours. rewrite Hv1, length_map in Hhours.
    rewrite setitem_length by auto. exact Hhours. }
  unfold pivot_table_sum in Htable.
  apply bind_ok in Htable. destruct Htable as (v & Hv & Htable).
  apply bind_ok in Htable. destruct Htable as (ki & _ & Htable).
  apply bind_ok in Htable. destruct Htable as (kc & _ & Htable).
  apply bind_ok in Htable. destruct Htable as (n & Hn & _).
  rewrite !getitem_setitem_other in Hv by (auto; discriminate).
  apply getitem_ok in Hv. destruct Hv as (iR & HiR & ->).
  rewrite Hcols in HiR. rewrite values_labelled in Hn.
  exists iT, iR. repeat split; auto.
  - intros r Hr Hna.
    assert (Hin : In (at_pos iT r) (values t1)).
    { rewrite Hv1. apply in_map. rewrite Hrows. apply filter_In. auto. }
    apply mapM_ok_Forall2 in Hdays.
    destruct (Forall2_In_l _ _ _ _ Hdays Hin) as (k & _ & Hk).
    destruct (at_pos iT r); simpl in *; try discriminate; reflexivity.
  - intros r Hr Hna.
    assert (Hin : In (at_pos iR r) (map (at_pos iR) (rows valid))).
    { apply in_map. rewrite Hrows. apply filter_In. auto. }
    apply mapM_ok_Forall2 in Hn.
    destruct (Forall2_In_l _ _ _ _ Hn Hin) as (k & _ & Hk).
    destruct (at_pos iR r); simpl in *; try discriminate; reflexivity.
Qed.

(** C6. Whenever the heatmap of a reader table is produced, the total over
    its cells (NaN skipped) is the sum of the read counts of exactly the
    rows whose last access date is present; and it is produced for every
    table with a datetime access column and a numeric read count. *)
Theorem C6_heatmap_mass_conservation :
  (forall (readers : DataFrame) (m : Matrix),
     Master.heatmap_data readers = Ok m ->
     exists valid reads,
       dropna_subset readers "Last Access Date" = Ok valid /\
       getitem valid "Reads" = Ok reads /\
       series_sum (values reads) = Ok (grand_total m)) /\
  (forall readers : DataFrame,
     datetime_column readers "Last Access Date" = true ->
     numeric_column readers "Reads" = true ->
     exists m, Master.heatmap_data readers = Ok m).
Proof.
  split.
  - intros readers m Hm.
    destruct (heatmap_inversion readers m Hm) as (iT & iR & HiT & HiR & Hdt & Hnum).
    destruct (heatmap_total readers iT iR HiT HiR Hdt Hnum)
      as (m' & valid & reads & Hm' & Hvalid & Hreads & Hsum).
    rewrite Hm in Hm'. injection Hm' as <-. eauto.
  - intros readers Hdt Hnum.
    unfold datetime_column, numeric_column, column_all in Hdt, Hnum.
    destruct (col_pos "Last Access Date" (columns readers)) as [iT |] eqn:ET;
      [| discriminate].
    destruct (col_pos "Reads" (columns readers)) as [iR |] eqn:ER; [| discriminate].
    rewrite forallb_forall in Hdt, Hnum.
    destruct (heatmap_total readers iT iR ET ER) as (m & _ & _ & Hm & _); eauto.
Qed.

Lemma C6_witness :
  (exists valid reads,
     dropna_subset sample_reader_df "Last Access Date" = Ok valid /\
     getitem valid "Reads" = Ok reads /\
     series_sum (values reads) = Ok (grand_total sample_heatmap)) /\
  grand_total sample_heatmap = 7 /\
  exists m, Master.heatmap_data sample_reader_df = Ok m.
Proof.
  split; [| split; [reflexivity |]].
  - apply (proj1 C6_heatmap_mass_conservation sample_reader_df sample_heatmap).
    vm_compute. reflexivity.
  - apply (proj2 C6_heatmap_mass_conservation sample_reader_df); reflexivity.
Defined.

(** ** Column dtypes after loading *)

Lemma append_length (s t : string) :
  String.length (String.append s t) = (String.length s + String.length t)%nat.
Proof.
  induction s as [| a s IH]; simpl; auto.
Qed.

(** A suffixed label is not ["Date"]. *)
Lemma suffixed_not_date (c suffix : string) :
  (4 < String.length suffix)%nat -> String.append c suffix <> "Date".
Proof.
  intros Hlen E. apply (f_equal String.length) in E.
  rewrite append_length in E. simpl in E. lia.
Qed.

Lemma rename_to_date (c : string) :
  rename_label Master.canonical_labels c = "Date" -> c = "Date".
Proof.
  unfold rename_label, Master.canonical_labels, lookup_label.
  destruct (String.eqb c "Reads_article"); [discriminate |].
  destruct (String.eqb c "Author Name_article"); [discriminate | auto].
Qed.

Lemma col_pos_map (f : string -> string) (x : string) (cols : list string) :
  (forall c, In c cols -> (f c = x <-> c = x)) ->
  col_pos x (map f cols) = col_pos x cols.
Proof.
  induction cols as [| c cols IH]; simpl; intros H; auto.
  destruct (String.eqb_spec x (f c)) as [E | E], (String.eqb_spec x c) as [E' | E'];
    auto.
  - exfalso. apply E'. symmetry. apply (H c); auto.
  - exfalso. apply E. symmetry. apply (H c); auto.
  - rewrite IH; auto.
Qed.

Lemma col_pos_app_l (x : string) (l1 l2 : list string) (i : nat) :
  col_pos x l1 = Some i -> col_pos x (l1 ++ l2) = Some i.
Proof.
  revert i; induction l1 as [| c l1 IH]; simpl; intros i H; [discriminate |].
  destruct (String.eqb x c); auto.
  destruct (col_pos x l1) as [j |]; [| discriminate].
  rewrite (IH j eq_refl). exact H.
Qed.

(** Where the joined frame has a ["Date"] column, it is the article frame's,
    at the same position. *)
Lemma join_authors_date (article author merged : DataFrame) :
  Master.join_authors article author = Ok merged ->
  In "Date" (columns article) ->
  In "Date" (columns merged) ->
  exists i,
    col_pos "Date" (columns article) = Some i /\
    col_pos "Date" (columns merged) = Some i.
Proof.
  unfold Master.join_authors. intros H Hleft Hin.
  apply bind_ok in H. destruct H as (m0 & Hm & H). injection H as <-.
  destruct (merge_left_columns _ _ _ _ _ _ Hm) as (ki & kj & _ & _ & Hcols & _).
  cbn zeta in Hcols.
  set (rcols := remove_at kj (columns author)) in *.
  set (overlap := filter (fun c => mem c rcols) (columns article)) in *.
  simpl in Hin. simpl. rewrite Hcols in *. rewrite map_app, !map_map in *.
  assert (Hsuf : forall c s, (4 < String.length s)%nat ->
            rename_label Master.canonical_labels (add_suffix overlap s c) = "Date" ->
            c = "Date" /\ mem "Date" overlap = false).
  { intros c s Hs E. apply rename_to_date in E. unfold add_suffix in E.
    destruct (mem c overlap) eqn:Ec.
    - exfalso. eapply suffixed_not_date; eauto.
    - subst c. auto. }
  assert (Hno : mem "Date" overlap = false).
  { apply in_app_or in Hin. destruct Hin as [Hin | Hin];
      apply in_map_iff in Hin; destruct Hin as (c & E & _);
      eapply Hsuf; try exact E; simpl; lia. }
  destruct (col_pos_In _ _ Hleft) as [i Hi].
  exists i. split; auto.
  apply col_pos_app_l. rewrite col_pos_map; auto.
  intros c Hc. split.
  - intros E. apply (Hsuf c "_article"); auto. simpl; lia.
  - intros ->. unfold add_suffix. rewrite Hno. reflexivity.
Qed.

Lemma join_authors_rows (article author merged : DataFrame) (m : Row) :
  Master.join_authors article author = Ok merged ->
  In m (rows merged) ->
  exists l extra, In l (rows article) /\ cells m = cells l ++ extra.
Proof.
  unfold Master.join_authors. intros H Hin.
  apply bind_ok in H. destruct H as (m0 & Hm & H). injection H as <-.
  destruct (merge_left_columns _ _ _ _ _ _ Hm) as (i & j & _ & _ & _ & Hrows).
  simpl in Hin. rewrite Hrows in Hin.
  apply range_index_In, in_flat_map in Hin. destruct Hin as (l & Hl & Hin).
  exists l. unfold join_row in Hin.
  destruct (matches j (at_pos i l) author) as [| r rs].
  - destruct Hin as [<- | []]. eauto.
  - apply in_map_iff in Hin. destruct Hin as (r' & <- & _). eauto.
Qed.

Lemma set_nth_length (i : nat) (v : cell) (l : list cell) :
  (i < List.length (set_nth i v l))%nat.
Proof.
  revert l; induction i as [| i IH]; intros [| x l]; simpl; try lia.
  - specialize (IH []). lia.
  - specialize (IH l). lia.
Qed.

Section LoadedDtypes.
Variable parse : list cell -> cell -> option Timestamp.

Lemma to_datetime_datetimelike (errors : errors_mode) (col out : list cell) :
  to_datetime parse errors col = Ok out ->
  Forall (fun c => is_datetimelike c = true) out.
Proof.
  unfold to_datetime. intros H. apply mapM_ok_Forall2 in H.
  induction H as [| c d l l' Hcd _ IH]; constructor; auto.
  destruct c; simpl in Hcd;
    repeat match type of Hcd with
           | context [match parse ?a ?b with _ => _ end] => destruct (parse a b)
           | context [match errors with _ => _ end] => destruct errors
           end;
    try discriminate; injection Hcd as <-; reflexivity.
Qed.

(** After the assignment of a parsed column the frame keeps its labels, and
    every row holds a timestamp or nothing at the column's position. *)
Lemma parse_date_column_dtype (errors : errors_mode) (df df' : DataFrame) (c : string) :
  parse_date_column parse errors df c = Ok df' ->
  exists i,
    col_pos c (columns df') = Some i /\
    columns df' = columns df /\
    forall r, In r (rows df') ->
      is_datetimelike (at_pos i r) = true /\ (i < List.length (cells r))%nat.
Proof.
  unfold parse_date_column. intros H.
  apply bind_ok in H. destruct H as (s & Hs & H).
  apply bind_ok in H. destruct H as (parsed & Hp & H). injection H as <-.
  apply getitem_ok in Hs. destruct Hs as (i & Hi & ->).
  apply to_datetime_datetimelike in Hp.
  unfold setitem. rewrite Hi. simpl. exists i. repeat split; auto.
  - apply in_map_iff in H. destruct H as ([r0 v] & <- & Hin).
    unfold at_pos. simpl. rewrite set_nth_same.
    apply in_combine_r in Hin. rewrite Forall_forall in Hp. auto.
  - apply in_map_iff in H. destruct H as ([r0 v] & <- & Hin).
    simpl. apply set_nth_length.
Qed.

(** The frames the master loader returns have datetime columns where the
    filters and the heatmap expect them. *)
Lemma master_load_data_dtypes (readers articles authors rd merged : DataFrame) :
  Master.load_data parse readers articles authors = Ok (rd, merged) ->
  datetime_column rd "Last Access Date" = true /\
  (In "Date" (columns merged) -> datetime_column merged "Date" = true).
Proof.
  unfold Master.load_data. intros H.
  apply bind_ok in H. destruct H as (r1 & Hr & H).
  apply bind_ok in H. destruct H as (a1 & Ha & H).
  apply bind_ok in H. destruct H as (m1 & Hm & H).
  injection H as <- <-.
  split.
  - destruct (parse_date_column_dtype _ _ _ _ Hr) as (i & Hi & _ & Hcells).
    unfold datetime_column, column_all. rewrite Hi.
    apply forallb_forall. intros r Hin. apply Hcells. exact Hin.
  - intros Hdate.
    destruct (parse_date_column_dtype _ _ _ _ Ha) as (i & Hi & _ & Hcells).
    destruct (join_authors_date _ _ _ Hm (col_pos_Some_In _ _ _ Hi) Hdate)
      as (i' & Hi' & Hmi).
    rewrite Hi in Hi'. injection Hi' as <-.
    unfold datetime_column, column_all. rewrite Hmi.
    apply forallb_forall. intros m Hin.
    destruct (join_authors_rows _ _ _ _ Hm Hin) as (l & extra & Hl & Hcs).
    destruct (Hcells l Hl) as [Hdt Hlen].
    unfold at_pos in *. rewrite Hcs, app_nth1; auto.
Qed.
End LoadedDtypes.

(** * Further properties of the pipeline *)

(** ** The filters, exactly *)

Lemma date_mask_exact (g : Row -> cell) (s e : Timestamp) :
  forall (rs : list Row) (ge le : list bool),
    ge_timestamp s (map g rs) = Ok ge ->
    le_timestamp e (map g rs) = Ok le ->
    map fst (filter (fun rb => snd rb) (combine rs (mask_and ge le)))
    = filter (fun r => in_interval s e (g r)) rs.
Proof.
  unfold ge_timestamp, le_timestamp.
  induction rs as [| r0 rs IH]; simpl; intros ge le Hge Hle; [reflexivity |].
  inv_ok. subst ge le.
  destruct (g r0) as [| z | str | t | p] eqn:Eg; simpl in *; try discriminate.
  - inv_ok. subst. simpl. eauto.
  - inv_ok. subst. simpl.
    destruct (ts_leb s t && ts_leb t e); simpl; [f_equal |]; eauto.
Qed.

(** The date filter keeps exactly the rows dated inside the interval, bounds
    included, in their order and under their labels. *)
Theorem filter_articles_exact :
  forall (merged v : DataFrame) (start_ end_ : Timestamp),
    Master.filter_articles merged start_ end_ = Ok v ->
    exists i,
      col_pos "Date" (columns merged) = Some i /\
      columns v = columns merged /\
      rows v = filter (fun r => in_interval start_ end_ (at_pos i r)) (rows merged).
Proof.
  unfold Master.filter_articles. intros merged v s e H. inv_ok.
  apply getitem_ok in Ha. destruct Ha as (i & Hi & ->).
  apply getitem_ok in Ha1. destruct Ha1 as (i' & Hi' & ->).
  rewrite Hi in Hi'. injection Hi' as <-.
  rewrite values_getitem in *.
  exists i. subst v. repeat split; auto.
  unfold select. cbn [rows]. eapply date_mask_exact; eauto.
Qed.

Lemma filter_articles_exact_witness :
  exists i,
    col_pos "Date" (columns sample_merged_df) = Some i /\
    columns (Master.filtered_articles sample_globals) = columns sample_merged_df /\
    rows (Master.filtered_articles sample_globals)
    = filter (fun r => in_interval (midnight 2024 1 1) (midnight 2024 12 31) (at_pos i r))
        (rows sample_merged_df).
Proof.
  apply (filter_articles_exact sample_merged_df (Master.filtered_articles sample_globals)).
  vm_compute. reflexivity.
Defined.

Lemma mask_filter (p q : Row -> bool) (rs : list Row) :
  map fst (filter (fun rb => snd rb)
             (combine rs (mask_and (map p rs) (map q rs))))
  = filter (fun r => p r && q r) rs.
Proof.
  unfold mask_and. induction rs as [| r rs IH]; simpl; auto.
  destruct (p r && q r); simpl; rewrite IH; reflexivity.
Qed.

Lemma filter_readers_rows (readers : DataFrame) (countries industries : list cell)
  (i j : nat) :
  col_pos "Country" (columns readers) = Some i ->
  col_pos "Industry" (columns readers) = Some j ->
  exists v,
    Master.filter_readers readers countries industries = Ok v /\
    columns v = columns readers /\
    rows v = filter (fun r => allowed countries (at_pos i r)
                              && allowed industries (at_pos j r)) (rows readers).
Proof.
  intros Ei Ej. unfold Master.filter_readers, getitem. rewrite Ei, Ej. cbn [bind].
  eexists. split; [reflexivity |]. split; [reflexivity |].
  unfold select. cbn [rows]. rewrite !values_labelled. unfold isin.
  rewrite !map_map.
  apply (mask_filter (fun r => allowed countries (at_pos i r))
                     (fun r => allowed industries (at_pos j r))).
Qed.

(** The reader filter returns a view whenever both columns exist, and keeps
    exactly the rows whose country and industry are both among the allowed
    values. *)
Theorem filter_readers_exact :
  forall (readers : DataFrame) (countries industries : list cell),
    In "Country" (columns readers) ->
    In "Industry" (columns readers) ->
    exists v i j,
      Master.filter_readers readers countries industries = Ok v /\
      col_pos "Country" (columns readers) = Some i /\
      col_pos "Industry" (columns readers) = Some j /\
      columns v = columns readers /\
      rows v = filter (fun r => allowed countries (at_pos i r)
                                && allowed industries (at_pos j r)) (rows readers).
Proof.
  intros readers cs inds Hc Hi.
  destruct (col_pos_In _ _ Hc) as [i Ei].
  destruct (col_pos_In _ _ Hi) as [j Ej].
  destruct (filter_readers_rows readers cs inds i j Ei Ej) as (v & Hv & Hcols & Hrows).
  exists v, i, j. auto.
Qed.

Lemma filter_readers_exact_witness :
  exists v i j,
    Master.filter_readers sample_reader_df [Str "UK"] [Str "Finance"] = Ok v /\
    col_pos "Country" (columns sample_reader_df) = Some i /\
    col_pos "Industry" (columns sample_reader_df) = Some j /\
    columns v = columns sample_reader_df /\
    rows v = filter (fun r => allowed [Str "UK"] (at_pos i r)
                              && allowed [Str "Finance"] (at_pos j r))
               (rows sample_reader_df).
Proof.
  apply (filter_readers_exact sample_reader_df); simpl; tauto.
Defined.

Lemma allowed_unique (col : list cell) (c : cell) :
  In c col -> allowed (unique col) c = true.
Proof.
  intros H. unfold allowed. apply existsb_exists. exists c. split.
  - apply unique_In. exact H.
  - apply cell_eqb_refl.
Qed.

Lemma allowed_unique_notna (col : list cell) (c : cell) :
  In c col -> allowed (unique (filter notna col)) c = notna c.
Proof.
  intros H. unfold allowed.
  destruct (notna c) eqn:E.
  - apply existsb_exists. exists c. split; [| apply cell_eqb_refl].
    apply unique_In, filter_In. auto.
  - destruct (existsb (cell_eqb c) (unique (filter notna col))) eqn:Ex; auto.
    apply existsb_exists in Ex. destruct Ex as (x & Hx & Hcx).
    apply cell_eqb_eq in Hcx. subst x.
    apply unique_In, filter_In in Hx. destruct Hx as [_ Hx]. congruence.
Qed.

Lemma filter_ext_in {A : Type} (f g : A -> bool) (l : list A) :
  (forall a, In a l -> f a = g a) -> filter f l = filter g l.
Proof.
  induction l as [| a l IH]; simpl; intros H; auto.
  rewrite (H a) by auto. rewrite IH by auto. reflexivity.
Qed.

(** With the selectors left at their defaults (every country, every
    non-null industry) the reader filter still drops rows: it keeps exactly
    the readers whose industry is present.  A reader without a country
    stays, since the country options include the missing value. *)
Theorem default_selection_drops_missing_industry :
  forall readers : DataFrame,
    In "Country" (columns readers) ->
    In "Industry" (columns readers) ->
    exists countries industries v j,
      Master.country_options readers = Ok countries /\
      Master.industry_options readers = Ok industries /\
      Master.filter_readers readers countries industries = Ok v /\
      col_pos "Industry" (columns readers) = Some j /\
      rows v = filter (fun r => notna (at_pos j r)) (rows readers).
Proof.
  intros readers Hc Hi.
  destruct (col_pos_In _ _ Hc) as [i Ei].
  destruct (col_pos_In _ _ Hi) as [j Ej].
  destruct (filter_readers_rows readers
              (unique (map (at_pos i) (rows readers)))
              (unique (filter notna (map (at_pos j) (rows readers)))) i j Ei Ej)
    as (v & Hv & _ & Hrows).
  exists (unique (map (at_pos i) (rows readers))),
         (unique (filter notna (map (at_pos j) (rows readers)))), v, j.
  unfold Master.country_options, Master.industry_options, getitem.
  rewrite Ei, Ej. cbn [bind]. rewrite !values_labelled.
  repeat split; auto.
  rewrite Hrows. apply filter_ext_in. intros r Hr.
  rewrite allowed_unique by (apply in_map; exact Hr).
  rewrite allowed_unique_notna by (apply in_map; exact Hr).
  reflexivity.
Qed.

Lemma default_selection_witness :
  exists countries industries v j,
    Master.country_options sample_reader_df = Ok countries /\
    Master.industry_options sample_reader_df = Ok industries /\
    Master.filter_readers sample_reader_df countries industries = Ok v /\
    col_pos "Industry" (columns sample_reader_df) = Some j /\
    rows v = filter (fun r => notna (at_pos j r)) (rows sample_reader_df).
Proof.
  apply (default_selection_drops_missing_industry sample_reader_df); simpl; tauto.
Defined.

(** ** The join, in general *)

Lemma filter_map_length {A B : Type} (f : A -> B) (p : B -> bool) (l : list A) :
  List.length (filter p (map f l)) = List.length (filter (fun a => p (f a)) l).
Proof.
  induction l as [| a l IH]; simpl; auto.
  destruct (p (f a)); simpl; rewrite IH; reflexivity.
Qed.

Lemma join_row_length (i j : nat) (author : DataFrame) (l : Row) :
  Z.of_nat (List.length (join_row i j author l))
  = Z.max 1 (occurrences (at_pos i l) (map (at_pos j) (rows author))).
Proof.
  unfold join_row, occurrences, matches. rewrite filter_map_length.
  destruct (filter (fun r => cell_eqb (at_pos j r) (at_pos i l)) (rows author))
    as [| r rs]; simpl List.length.
  - reflexivity.
  - rewrite length_map. simpl List.length. lia.
Qed.

(** Whatever the author export holds, the joined frame has, for each article
    row, as many rows as the author export has rows with that identifier,
    and one row when it has none: the join never loses an article. *)
Theorem left_join_row_count :
  forall article author merged : DataFrame,
    Master.join_authors article author = Ok merged ->
    len merged
    = fold_right
        (fun l acc =>
           Z.max 1 (occurrences (key_of article "Author Id" l)
                                (key_column author "Author Id")) + acc)
        0 (rows article) /\
    len article <= len merged.
Proof.
  intros article author merged H. unfold Master.join_authors in H.
  apply bind_ok in H. destruct H as (m0 & Hm & H). injection H as <-.
  destruct (merge_left_columns _ _ _ _ _ _ Hm) as (i & j & Hi & Hj & _ & Hrows).
  unfold len, key_of, key_column. cbn [rows rename]. rewrite Hrows, Hi, Hj.
  rewrite range_index_length. clear Hrows Hm Hi Hj.
  assert (Hsum : Z.of_nat (List.length (flat_map (join_row i j author) (rows article)))
                 = fold_right
                     (fun l acc =>
                        Z.max 1 (occurrences (at_pos i l) (map (at_pos j) (rows author)))
                        + acc) 0 (rows article)).
  { induction (rows article) as [| l ls IH]; cbn [flat_map fold_right]; auto.
    rewrite length_app, Nat2Z.inj_add, IH, join_row_length. reflexivity. }
  split; [exact Hsum |].
  rewrite Hsum. clear. induction (rows article) as [| l ls IH];
    cbn [fold_right List.length]; [lia |].
  rewrite Nat2Z.inj_succ. lia.
Qed.

Lemma left_join_row_count_witness :
  exists merged,
    Master.join_authors one_article repeated_authors = Ok merged /\
    len merged
    = fold_right
        (fun l acc =>
           Z.max 1 (occurrences (key_of one_article "Author Id" l)
                                (key_column repeated_authors "Author Id")) + acc)
        0 (rows one_article) /\
    len one_article <= len merged.
Proof.
  eexists. split; [vm_compute; reflexivity |].
  apply (left_join_row_count one_article repeated_authors). vm_compute. reflexivity.
Defined.

(** ** Where the canonical columns come from *)

Lemma col_pos_relabel (f : string -> string) (x y : string) (cols : list string) :
  (forall c, In c cols -> (f c = y <-> c = x)) ->
  col_pos y (map f cols) = col_pos x cols.
Proof.
  induction cols as [| c cols IH]; simpl; intros H; auto.
  destruct (String.eqb_spec y (f c)) as [E | E], (String.eqb_spec x c) as [E' | E'];
    auto.
  - exfalso. apply E'. symmetry. apply (H c); auto.
  - exfalso. apply E. symmetry. apply (H c); auto.
  - rewrite IH; auto.
Qed.

(** Solves [String.append c suffix = literal] for [c], character by
    character. *)
Ltac solve_append c H :=
  destruct c as [| ?a c]; simpl in H;
  [ try discriminate H; try (subst; reflexivity)
  | first [ discriminate H | injection H as ? H; solve_append c H ] ].

Lemma article_suffix_reads (c : string) :
  String.append c "_article" = "Reads_article" -> c = "Reads".
Proof. intros H. solve_append c H. Qed.

Lemma article_suffix_not_article_reads (c : string) :
  String.append c "_article" <> "Article Reads".
Proof. intros H. solve_append c H. Qed.

Lemma article_suffix_author_name (c : string) :
  String.append c "_article" = "Author Name_article" -> c = "Author Name".
Proof. intros H. solve_append c H. Qed.

Lemma article_suffix_not_author_name (c : string) :
  String.append c "_article" <> "Author Name".
Proof. intros H. solve_append c H. Qed.

Lemma rename_preimage (z : string) :
  (rename_label Master.canonical_labels z = "Article Reads" ->
   z = "Reads_article" \/ z = "Article Reads") /\
  (rename_label Master.canonical_labels z = "Author Name" ->
   z = "Author Name_article" \/ z = "Author Name").
Proof.
  unfold rename_label, Master.canonical_labels, lookup_label.
  destruct (String.eqb_spec z "Reads_article") as [-> | _];
    [split; [auto | discriminate] |].
  destruct (String.eqb_spec z "Author Name_article") as [-> | _];
    [split; [discriminate | auto] |].
  split; auto.
Qed.

Lemma well_formed_spec (df : DataFrame) (r : Row) :
  well_formed df = true -> In r (rows df) ->
  List.length (cells r) = List.length (columns df).
Proof.
  unfold well_formed. rewrite forallb_forall. intros H Hr.
  apply Nat.eqb_eq. auto.
Qed.

(** A left column keeps its position and its cells through the join. *)
Lemma join_left_column (article author merged : DataFrame) (x y : string) :
  Master.join_authors article author = Ok merged ->
  well_formed article = true ->
  In x (columns article) ->
  (forall j c,
     col_pos "Author Id" (columns author) = Some j ->
     In c (columns article) ->
     (rename_label Master.canonical_labels
        (add_suffix (filter (fun d => mem d (remove_at j (columns author)))
                            (columns article)) "_article" c) = y
      <-> c = x)) ->
  carried_over article merged x y.
Proof.
  intros Hjoin Hwf Hx Hiff.
  pose proof Hjoin as H. unfold Master.join_authors in H.
  apply bind_ok in H. destruct H as (m0 & Hm & H). injection H as <-.
  destruct (merge_left_columns _ _ _ _ _ _ Hm) as (ki & kj & _ & Hkj & Hcols & _).
  cbn zeta in Hcols.
  destruct (col_pos_In _ _ Hx) as [i Hi].
  exists i. split; [exact Hi |]. split.
  - cbn [columns rename]. rewrite Hcols, map_app, !map_map.
    apply col_pos_app_l. rewrite <- Hi.
    apply col_pos_relabel. intros c Hc. apply (Hiff kj c Hkj Hc).
  - intros m Hin.
    destruct (join_authors_rows _ _ _ _ Hjoin Hin) as (l & extra & Hl & Hcs).
    exists l. split; [exact Hl |]. rewrite Hcs. split.
    + unfold at_pos. rewrite Hcs. apply app_nth1.
      rewrite (well_formed_spec _ _ Hwf Hl). eapply col_pos_bound; eauto.
    + apply firstn_app_exact.
Qed.

(** The canonical columns hold the article export's own values.  When both
    exports carry [Reads], [Article Reads] is the article's read count; and
    when the article export carries [Author Name], the joined [Author Name]
    is that column, whether or not the author export has one, so an
    article whose author identifier has no match keeps its author name. *)
Theorem canonical_columns_hold_article_values :
  forall article author merged : DataFrame,
    Master.join_authors article author = Ok merged ->
    well_formed article = true ->
    (In "Reads" (columns article) ->
     In "Reads" (columns author) ->
     ~ In "Reads_article" (columns article) ->
     ~ In "Article Reads" (columns article) ->
     carried_over article merged "Reads" "Article Reads") /\
    (In "Author Name" (columns article) ->
     ~ In "Author Name_article" (columns article) ->
     carried_over article merged "Author Name" "Author Name").
Proof.
  intros article author merged Hjoin Hwf. split.
  - intros Hra Hrb Hn1 Hn2.
    apply (join_left_column article author merged "Reads" "Article Reads");
      auto.
    intros j c Hj Hc.
    set (overlap := filter (fun d => mem d (remove_at j (columns author)))
                           (columns article)).
    split.
    + intros E. apply rename_preimage in E. unfold add_suffix in E.
      destruct (mem c overlap).
      * destruct E as [E | E].
        -- apply article_suffix_reads. exact E.
        -- exfalso. eapply article_suffix_not_article_reads; eauto.
      * destruct E as [-> | ->]; contradiction.
    + intros ->. unfold add_suffix.
      replace (mem "Reads" overlap) with true; [reflexivity |].
      symmetry. apply mem_In. unfold overlap. apply filter_In. split; auto.
      apply mem_In. eapply remove_at_In; eauto.
      * apply col_pos_nth; eauto.
      * discriminate.
  - intros Hna Hn1.
    apply (join_left_column article author merged "Author Name" "Author Name");
      auto.
    intros j c Hj Hc.
    set (overlap := filter (fun d => mem d (remove_at j (columns author)))
                           (columns article)).
    split.
    + intros E. apply rename_preimage in E. unfold add_suffix in E.
      destruct (mem c overlap).
      * destruct E as [E | E].
        -- apply article_suffix_author_name. exact E.
        -- exfalso. eapply article_suffix_not_author_name; eauto.
      * destruct E as [-> | ->]; [contradiction | reflexivity].
    + intros ->. unfold add_suffix.
      destruct (mem "Author Name" overlap); reflexivity.
Qed.

Lemma canonical_columns_witness :
  carried_over (strip_columns sample_articles) sample_joined "Reads" "Article Reads" /\
  carried_over (strip_columns sample_articles) sample_joined "Author Name" "Author Name".
Proof.
  destruct (canonical_columns_hold_article_values
              (strip_columns sample_articles) (strip_columns sample_authors)
              sample_joined) as [H1 H2];
    [vm_compute; reflexivity | reflexivity |].
  split; [apply H1 | apply H2]; simpl; intuition discriminate.
Defined.

(** ** The master loader *)

Lemma getitem_defined (df : DataFrame) (c : string) :
  In c (columns df) -> exists s, getitem df c = Ok s.
Proof.
  intros H. unfold getitem. destruct (col_pos_In _ _ H) as [i ->]. eauto.
Qed.

Lemma getitem_In (df : DataFrame) (c : string) (s : Series Z) :
  getitem df c = Ok s -> In c (columns df).
Proof.
  intros H. apply getitem_ok in H. destruct H as (i & Hi & _).
  eapply col_pos_Some_In; eauto.
Qed.

Section LoaderTotality.
Variable parse : list cell -> cell -> option Timestamp.

Lemma parse_date_column_coerce_defined (df : DataFrame) (c : string) :
  In c (columns df) ->
  exists df', parse_date_column parse ErrorsCoerce df c = Ok df' /\
              columns df' = columns df /\
              map label (rows df') = map label (rows df).
Proof.
  intros H. unfold parse_date_column, getitem.
  destruct (col_pos_In _ _ H) as [i Hi]. rewrite Hi. cbn [bind].
  rewrite values_labelled.
  destruct (to_datetime_coerce_total parse (map (at_pos i) (rows df)))
    as (out & Hout & Hlen).
  rewrite Hout. cbn [bind]. eexists. split; [reflexivity |].
  unfold setitem. rewrite Hi. cbn [columns rows]. split; [reflexivity |].
  rewrite map_map. cbn [label]. rewrite <- map_map.
  rewrite combine_fst; auto. rewrite Hlen, length_map. reflexivity.
Qed.

(** What a missing column does to the master loader: it raises [KeyError]
    for the first of the access date of the readers, the date of the
    articles and the author identifier (of either table) that the trimmed
    labels lack; and when it returns, all four labels are there and the
    reader frame has the trimmed labels and the index labels of the
    export. *)
Theorem master_loader_missing_column :
  forall readers articles authors : DataFrame,
    plain_labels readers ->
    plain_labels articles ->
    plain_labels authors ->
    (~ In "Last Access Date" (map strip (columns readers)) ->
     Master.load_data parse readers articles authors
     = Raise (KeyError "Last Access Date")) /\
    (In "Last Access Date" (map strip (columns readers)) ->
     ~ In "Date" (map strip (columns articles)) ->
     Master.load_data parse readers articles authors = Raise (KeyError "Date")) /\
    (In "Last Access Date" (map strip (columns readers)) ->
     In "Date" (map strip (columns articles)) ->
     ~ (In "Author Id" (map strip (columns articles)) /\
        In "Author Id" (map strip (columns authors))) ->
     Master.load_data parse readers articles authors = Raise (KeyError "Author Id")) /\
    (forall rd merged : DataFrame,
       Master.load_data parse readers articles authors = Ok (rd, merged) ->
       In "Last Access Date" (map strip (columns readers)) /\
       In "Date" (map strip (columns articles)) /\
       In "Author Id" (map strip (columns articles)) /\
       In "Author Id" (map strip (columns authors)) /\
       columns rd = map strip (columns readers) /\
       map label (rows rd) = map label (rows readers)).
Proof.
  intros readers articles authors _ _ _.
  split; [| split; [| split]].
  - intros Hr. unfold Master.load_data, parse_date_column.
    rewrite (getitem_missing (strip_columns readers) _ Hr). reflexivity.
  - intros Hr Ha.
    destruct (parse_date_column_coerce_defined (strip_columns readers)
                "Last Access Date" Hr) as (rd & Hrd & _).
    unfold Master.load_data. rewrite Hrd. cbn [bind].
    unfold parse_date_column.
    rewrite (getitem_missing (strip_columns articles) _ Ha). reflexivity.
  - intros Hr Ha Hk.
    destruct (parse_date_column_coerce_defined (strip_columns readers)
                "Last Access Date" Hr) as (rd & Hrd & _).
    destruct (parse_date_column_coerce_defined (strip_columns articles) "Date" Ha)
      as (ad & Had & Hac & _).
    unfold Master.load_data. rewrite Hrd. cbn [bind]. rewrite Had. cbn [bind].
    unfold Master.join_authors, merge_left. rewrite Hac.
    cbn [columns strip_columns].
    destruct (col_pos "Author Id" (map strip (columns articles))) as [i |] eqn:Ei;
      [| reflexivity].
    destruct (col_pos "Author Id" (map strip (columns authors))) as [j |] eqn:Ej;
      [| reflexivity].
    exfalso. apply Hk. split; eapply col_pos_Some_In; eauto.
  - intros rd merged H.
    unfold Master.load_data in H.
    apply bind_ok in H. destruct H as (r1 & Hr & H).
    apply bind_ok in H. destruct H as (a1 & Ha & H).
    apply bind_ok in H. destruct H as (m1 & Hm & H).
    assert (Hrd : rd = r1) by congruence. subst r1. clear H.
    destruct (parse_date_column_dtype _ _ _ _ _ Hr) as (i & Hi & Hc1 & _).
    destruct (parse_date_column_dtype _ _ _ _ _ Ha) as (i' & Hi' & Hc2 & _).
    unfold Master.join_authors in Hm.
    apply bind_ok in Hm. destruct Hm as (m0 & Hm & _).
    destruct (merge_left_columns _ _ _ _ _ _ Hm) as (ki & kj & Hki & Hkj & _).
    rewrite Hc1 in Hi. rewrite Hc2 in Hi', Hki.
    assert (Hin : In "Last Access Date" (map strip (columns readers)))
      by (eapply col_pos_Some_In; eauto).
    destruct (parse_date_column_coerce_defined (strip_columns readers)
                "Last Access Date" Hin) as (rd' & Hrd' & Hcols & Hlabels).
    rewrite Hr in Hrd'. injection Hrd' as <-.
    split; [exact Hin |].
    split; [eapply col_pos_Some_In; eauto |].
    split; [eapply col_pos_Some_In; eauto |].
    split; [eapply col_pos_Some_In; eauto |].
    split; [exact Hcols | exact Hlabels].
Qed.
End LoaderTotality.

Lemma master_loader_missing_column_witness :
  Master.load_data iso_parse tagged_articles sample_articles sample_authors
  = Raise (KeyError "Last Access Date") /\
  (forall rd merged : DataFrame,
     Master.load_data iso_parse sample_readers sample_articles sample_authors
     = Ok (rd, merged) ->
     In "Last Access Date" (map strip (columns sample_readers)) /\
     In "Date" (map strip (columns sample_articles)) /\
     In "Author Id" (map strip (columns sample_articles)) /\
     In "Author Id" (map strip (columns sample_authors)) /\
     columns rd = map strip (columns sample_readers) /\
     map label (rows rd) = map label (rows sample_readers)).
Proof.
  assert (Hplain : forall df,
            forallb ascii_text (columns df) = true ->
            NoDup (map strip (columns df)) -> plain_labels df)
    by (intros df H1 H2; split; assumption).
  split.
  - apply (master_loader_missing_column iso_parse tagged_articles sample_articles
             sample_authors);
      try (apply Hplain; try reflexivity;
           vm_compute; repeat constructor; simpl; intuition discriminate).
    simpl. intuition discriminate.
  - apply (master_loader_missing_column iso_parse sample_readers sample_articles
             sample_authors);
      apply Hplain; try reflexivity;
        vm_compute; repeat constructor; simpl; intuition discriminate.
Defined.

Lemma master_load_data_dtypes_witness :
  datetime_column sample_reader_df "Last Access Date" = true /\
  (In "Date" (columns sample_merged_df) ->
   datetime_column sample_merged_df "Date" = true).
Proof.
  apply (master_load_data_dtypes iso_parse sample_readers sample_articles sample_authors).
  vm_compute. reflexivity.
Defined.

(** ** Trimming of labels *)

Lemma rstrip_idempotent (s : string) : rstrip (rstrip s) = rstrip s.
Proof.
  induction s as [| a s IH]; simpl; auto.
  destruct (rstrip s) as [| b t] eqn:E.
  - destruct (is_space a) eqn:Ea; simpl; auto. rewrite Ea. reflexivity.
  - simpl. simpl in IH. rewrite IH. reflexivity.
Qed.

Lemma lstrip_head (s : string) :
  match lstrip s with
  | EmptyString => True
  | String a _ => is_space a = false
  end.
Proof.
  induction s as [| a s IH]; simpl; auto.
  destruct (is_space a) eqn:E; simpl; auto.
Qed.

Lemma lstrip_rstrip (s : string) :
  match s with
  | EmptyString => True
  | String a _ => is_space a = false
  end ->
  lstrip (rstrip s) = rstrip s.
Proof.
  destruct s as [| a s]; simpl; auto. intros Ha.
  destruct (rstrip s); rewrite ?Ha; simpl; rewrite ?Ha; reflexivity.
Qed.

(** Trimming a trimmed label changes nothing, so trimming the labels of a
    frame twice is trimming them once. *)
Theorem strip_columns_idempotent :
  (forall s, strip (strip s) = strip s) /\
  (forall df, strip_columns (strip_columns df) = strip_columns df).
Proof.
  assert (H : forall s, strip (strip s) = strip s).
  { intros s. unfold strip.
    rewrite (lstrip_rstrip (lstrip s) (lstrip_head s)).
    apply rstrip_idempotent. }
  split; auto.
  intros df. unfold strip_columns. cbn [columns rows]. f_equal.
  rewrite map_map. apply map_ext. exact H.
Qed.

Lemma NoDup_map_eq {A B : Type} (f : A -> B) (l : list A) (x y : A) :
  NoDup (map f l) -> In x l -> In y l -> f x = f y -> x = y.
Proof.
  induction l as [| a l IH]; simpl; intros Hnd Hx Hy E; [contradiction |].
  inversion Hnd as [| b l' Hnot Hnd']; subst.
  destruct Hx as [-> | Hx], Hy as [-> | Hy]; auto.
  - exfalso. apply Hnot. rewrite E. apply in_map. exact Hy.
  - exfalso. apply Hnot. rewrite <- E. apply in_map. exact Hx.
Qed.

(** The trimming does not rewire the columns: when the trimmed labels are
    distinct, the column found under a trimmed label is the column the
    export has under the padded one, at the same position and with the
    same cells. *)
Theorem trimmed_label_finds_its_column :
  forall (df : DataFrame) (c : string) (i : nat),
    plain_labels df ->
    col_pos c (columns df) = Some i ->
    col_pos (strip c) (columns (strip_columns df)) = Some i /\
    getitem (strip_columns df) (strip c) = getitem df c /\
    getitem (strip_columns df) (strip c)
    = Ok (map (fun r => (label r, at_pos i r)) (rows df)).
Proof.
  intros df c i [_ Hnd] Hi.
  assert (Hc : In c (columns df)) by (eapply col_pos_Some_In; eauto).
  assert (Hpos : col_pos (strip c) (columns (strip_columns df)) = Some i).
  { unfold strip_columns. cbn [columns]. rewrite <- Hi.
    apply col_pos_relabel. intros c' Hc'. split.
    - intros E. apply (NoDup_map_eq strip (columns df) c' c Hnd Hc' Hc E).
    - intros ->. reflexivity. }
  split; [exact Hpos |].
  unfold getitem. rewrite Hpos, Hi. split; reflexivity.
Qed.

Lemma trimmed_label_witness :
  col_pos (strip "Last Access Date ") (columns (strip_columns sample_readers))
  = Some 5%nat /\
  getitem (strip_columns sample_readers) (strip "Last Access Date ")
  = getitem sample_readers "Last Access Date " /\
  getitem (strip_columns sample_readers) (strip "Last Access Date ")
  = Ok (map (fun r => (label r, at_pos 5 r)) (rows sample_readers)).
Proof.
  apply (trimmed_label_finds_its_column sample_readers "Last Access Date " 5).
  - split; [reflexivity |].
    vm_compute. repeat constructor; simpl; intuition discriminate.
  - reflexivity.
Defined.

(** ** Extremal labels *)

Lemma argmax_spec {L : Type} (s : list (L * option Z)) :
  forall (best : option (L * Z)) (l : L) (v : Z),
    argmax best s = Some (l, v) ->
    (best = Some (l, v) /\ forall l' v', In (l', Some v') s -> v' <= v) \/
    (exists pre post,
       s = pre ++ (l, Some v) :: post /\
       (forall l' v', In (l', Some v') pre -> v' < v) /\
       (forall l' v', In (l', Some v') post -> v' <= v) /\
       (forall lb vb, best = Some (lb, vb) -> vb < v)).
Proof.
  induction s as [| [l0 [v0 |]] s IH]; intros best l v H; simpl in H.
  - left. split; auto. intros l' v' [].
  - assert (Hnew : argmax (Some (l0, v0)) s = Some (l, v) ->
                   (forall lb vb, best = Some (lb, vb) -> vb < v0) ->
                   exists pre post,
                     (l0, Some v0) :: s = pre ++ (l, Some v) :: post /\
                     (forall l' v', In (l', Some v') pre -> v' < v) /\
                     (forall l' v', In (l', Some v') post -> v' <= v) /\
                     (forall lb vb, best = Some (lb, vb) -> vb < v)).
    { intros Hs Hb. destruct (IH _ _ _ Hs) as [[E Hall] | (pre & post & -> & Hpre & Hpost & Hbest)].
      - injection E as -> ->. exists [], s. repeat split; auto.
        intros l' v' [].
      - specialize (Hbest l0 v0 eq_refl).
        exists ((l0, Some v0) :: pre), post. repeat split; auto.
        + intros l' v' [E | Hin]; [injection E as _ ->; auto | eauto].
        + intros lb vb Eb. specialize (Hb lb vb Eb). lia. }
    destruct best as [[lb b] |].
    + destruct (Z.ltb_spec b v0) as [Hlt | Hge].
      * right. apply Hnew; auto. intros lb' vb' E. injection E as _ <-. exact Hlt.
      * destruct (IH _ _ _ H) as [[E Hall] | (pre & post & -> & Hpre & Hpost & Hbest)].
        -- left. split; auto. injection E as -> ->.
           intros l' v' [E | Hin]; [injection E as _ ->; lia | eauto].
        -- right. specialize (Hbest lb b eq_refl).
           exists ((l0, Some v0) :: pre), post. repeat split; auto.
           ++ intros l' v' [E | Hin]; [injection E as _ ->; lia | eauto].
           ++ intros lb' vb' E. injection E as _ <-. exact Hbest.
    + right. apply Hnew; auto. intros lb vb E. discriminate.
  - destruct (IH _ _ _ H) as [[E Hall] | (pre & post & -> & Hpre & Hpost & Hbest)].
    + left. split; auto. intros l' v' [E' | Hin]; [discriminate | eauto].
    + right. exists ((l0, None) :: pre), post. repeat split; auto.
      intros l' v' [E' | Hin]; [discriminate | eauto].
Qed.

(** [idxmax] returns the label of the first greatest value. *)
Lemma idxmax_spec {L : Type} (s : list (L * option Z)) (l : L) :
  idxmax s = Ok l ->
  exists v pre post,
    s = pre ++ (l, Some v) :: post /\
    (forall l' v', In (l', Some v') pre -> v' < v) /\
    (forall l' v', In (l', Some v') post -> v' <= v).
Proof.
  unfold idxmax. destruct s as [| x s]; [discriminate |].
  destruct (argmax None (x :: s)) as [[l0 v] |] eqn:E; [| discriminate].
  intros H. injection H as <-.
  destruct (argmax_spec _ _ _ _ E) as [[Hb _] | (pre & post & Hs & Hpre & Hpost & _)];
    [discriminate |].
  exists v, pre, post. auto.
Qed.

(** The Top Author metric is an author with the greatest summed reads; when
    several authors share the greatest sum it is the first of them in the
    sorted order of names. *)
Theorem top_author_is_maximal :
  forall (view : DataFrame) (a : cell),
    Master.top_author view = Ok a ->
    exists sums v pre post,
      Master.reads_by_author view = Ok sums /\
      sums = pre ++ (a, v) :: post /\
      (forall b w, In (b, w) pre -> w < v) /\
      (forall b w, In (b, w) post -> w <= v) /\
      a <> NA /\
      Sorted cell_le (map fst sums).
Proof.
  unfold Master.top_author. intros view a H.
  apply bind_ok in H. destruct H as (names & Hnames & H).
  apply bind_ok in H. destruct H as (reads & Hreads & H).
  apply bind_ok in H. destruct H as (sums & Hsums & H).
  apply idxmax_spec in H. destruct H as (v & pre' & post' & Hs & Hpre & Hpost).
  apply map_eq_app in Hs. destruct Hs as (pre & rest & -> & <- & Hrest).
  destruct rest as [| [a0 v0] post]; [discriminate |].
  simpl in Hrest. injection Hrest as -> -> <-.
  exists (pre ++ (a, v) :: post), v, pre, post.
  assert (Hkeys : map fst (pre ++ (a, v) :: post) = group_keys (values names)).
  { unfold groupby_sum in Hsums.
    apply bind_ok in Hsums. destruct Hsums as (n & _ & Hsums). injection Hsums as Hsums.
    rewrite <- Hsums, map_map. simpl. apply map_id. }
  repeat split.
  - unfold Master.reads_by_author. rewrite Hnames, Hreads. exact Hsums.
  - intros b w Hin. apply (Hpre b w).
    apply in_map_iff. exists (b, w). auto.
  - intros b w Hin. apply (Hpost b w).
    apply in_map_iff. exists (b, w). auto.
  - intros ->. apply (group_keys_notna (values names)).
    rewrite <- Hkeys, map_app. apply in_or_app. right. left. reflexivity.
  - rewrite Hkeys. apply group_keys_Sorted.
Qed.

Lemma top_author_witness :
  exists sums v pre post,
    Master.reads_by_author sample_merged_df = Ok sums /\
    sums = pre ++ (Str "Ann", v) :: post /\
    (forall b w, In (b, w) pre -> w < v) /\
    (forall b w, In (b, w) post -> w <= v) /\
    Str "Ann" <> NA /\
    Sorted cell_le (map fst sums).
Proof.
  apply (top_author_is_maximal sample_merged_df (Str "Ann")).
  vm_compute. reflexivity.
Defined.

Lemma filter_none {A : Type} (f : A -> bool) (l : list A) :
  (forall a, In a l -> f a = false) -> filter f l = [].
Proof.
  induction l as [| a l IH]; simpl; intros H; auto.
  rewrite (H a) by auto. apply IH. auto.
Qed.

(** When no article of the view has an author name, the Top Author metric
    raises even though the view has rows, and the KPI block raises with
    it. *)
Theorem top_author_needs_a_named_author :
  forall view : DataFrame,
    column_all isna view "Author Name" = true ->
    numeric_column view "Article Reads" = true ->
    Master.top_author view = Raise empty_argmax /\
    (forall g, Master.filtered_articles g = view ->
               Master.kpis g = Raise empty_argmax).
Proof.
  intros view Hna Hnum.
  apply column_all_spec in Hna. destruct Hna as (i & Hi & Hna).
  apply column_all_spec in Hnum. destruct Hnum as (j & Hj & Hnum).
  assert (Hn : exists n, numeric (map (at_pos j) (rows view)) = Ok n).
  { apply mapM_total, Forall_forall. intros c Hc.
    apply in_map_iff in Hc. destruct Hc as (r & <- & Hr).
    specialize (Hnum r Hr). destruct (at_pos j r); simpl in *; try discriminate; eauto. }
  destruct Hn as [n Hn].
  assert (Hkeys : group_keys (map (at_pos i) (rows view)) = []).
  { unfold group_keys. rewrite filter_none; [reflexivity |].
    intros c Hc. apply in_map_iff in Hc. destruct Hc as (r & <- & Hr).
    unfold notna. rewrite (Hna r Hr). reflexivity. }
  assert (Htop : Master.top_author view = Raise empty_argmax).
  { unfold Master.top_author, getitem. rewrite Hi, Hj. cbn [bind].
    rewrite !values_labelled. unfold groupby_sum. rewrite Hn. cbn [bind].
    rewrite Hkeys. reflexivity. }
  split; [exact Htop |].
  intros g Hg. unfold Master.kpis. rewrite Hg.
  unfold Master.total_reads, getitem. rewrite Hj. cbn [bind].
  rewrite values_labelled. unfold series_sum. rewrite Hn. cbn [bind].
  rewrite Htop. reflexivity.
Qed.

Lemma top_author_needs_a_named_author_witness :
  Master.top_author anonymous_articles = Raise empty_argmax /\
  (forall g, Master.filtered_articles g = anonymous_articles ->
             Master.kpis g = Raise empty_argmax).
Proof.
  apply (top_author_needs_a_named_author anonymous_articles); reflexivity.
Defined.

Lemma find_label_unique (rs : list Row) (r : Row) :
  NoDup (map label rs) -> In r rs ->
  find (fun r' => label r' =? label r) rs = Some r.
Proof.
  induction rs as [| r0 rs IH]; simpl; intros Hnd Hin; [contradiction |].
  inversion Hnd as [| x xs Hnot Hnd']; subst.
  destruct Hin as [-> | Hin].
  - rewrite Z.eqb_refl. reflexivity.
  - destruct (Z.eqb_spec (label r0) (label r)) as [E | _]; auto.
    exfalso. apply Hnot. rewrite E. apply in_map. exact Hin.
Qed.

Lemma numeric_rows (g : Row -> cell) (rs : list Row) (n : list (option Z)) :
  numeric (map g rs) = Ok n ->
  combine (map label rs) n
  = map (fun r => (label r, match g r with Num z => Some z | _ => None end)) rs /\
  forall r, In r rs -> is_numeric (g r) = true.
Proof.
  unfold numeric. revert n.
  induction rs as [| r rs IH]; simpl; intros n H.
  - inv_ok. subst. split; [reflexivity | intros r []].
  - apply bind_ok in H. destruct H as (x & Hx & H).
    apply bind_ok in H. destruct H as (xs & Hxs & H). injection H as <-.
    destruct (IH _ Hxs) as [Hc Hall]. simpl. rewrite Hc. split.
    + f_equal. destruct (g r); simpl in Hx; try discriminate;
        injection Hx as <-; reflexivity.
    + intros r' [<- | Hin]; auto.
      destruct (g r); simpl in Hx; try discriminate; reflexivity.
Qed.

(** The Top Article metric is the title of a row of the view whose read
    count is the greatest of the view, for a view whose index labels are
    distinct (as those of every filtered view of the joined frame are). *)
Theorem top_article_is_maximal :
  forall (view : DataFrame) (title : cell),
    NoDup (map label (rows view)) ->
    Master.top_article view = Ok title ->
    exists r v,
      In r (rows view) /\
      key_of view "Title" r = title /\
      key_of view "Article Reads" r = Num v /\
      forall r' v', In r' (rows view) ->
                    key_of view "Article Reads" r' = Num v' -> v' <= v.
Proof.
  unfold Master.top_article. intros view title Hnd H.
  apply bind_ok in H. destruct H as (reads & Hreads & H).
  apply bind_ok in H. destruct H as (n & Hn & H).
  apply bind_ok in H. destruct H as (l & Hl & H).
  apply getitem_ok in Hreads. destruct Hreads as (i & Hi & ->).
  rewrite values_labelled in Hn.
  replace (map fst (map (fun r => (label r, at_pos i r)) (rows view)))
    with (map label (rows view)) in Hl by (rewrite map_map; reflexivity).
  destruct (numeric_rows _ _ _ Hn) as [Hcomb _]. rewrite Hcomb in Hl.
  apply idxmax_spec in Hl. destruct Hl as (v & pre & post & Hs & Hpre & Hpost).
  assert (Hrow : exists r, In r (rows view) /\ label r = l /\ at_pos i r = Num v).
  { assert (Hin : In (l, Some v)
                    (map (fun r => (label r,
                            match at_pos i r with Num z => Some z | _ => None end))
                         (rows view))).
    { rewrite Hs. apply in_or_app. right. left. reflexivity. }
    apply in_map_iff in Hin. destruct Hin as (r & E & Hr).
    exists r. injection E as El Ev. repeat split; auto.
    destruct (at_pos i r); try discriminate. injection Ev as ->. reflexivity. }
  destruct Hrow as (r & Hr & Hlabel & Hv).
  unfold loc in H. destruct (col_pos "Title" (columns view)) as [k |] eqn:Ek;
    [| discriminate].
  subst l. rewrite (find_label_unique _ _ Hnd Hr) in H. injection H as <-.
  exists r, v. unfold key_of. rewrite Ek, Hi. repeat split; auto.
  intros r' v' Hr' Hv'.
  assert (Hin : In (label r', Some v')
                  (map (fun r => (label r,
                          match at_pos i r with Num z => Some z | _ => None end))
                       (rows view))).
  { apply in_map_iff. exists r'. rewrite Hv'. auto. }
  rewrite Hs in Hin. apply in_app_or in Hin. destruct Hin as [Hin | [E | Hin]].
  - specialize (Hpre _ _ Hin). lia.
  - injection E as _ ->. lia.
  - eauto.
Qed.

Lemma top_article_witness :
  exists r v,
    In r (rows sample_merged_df) /\
    key_of sample_merged_df "Title" r = Str "On leases" /\
    key_of sample_merged_df "Article Reads" r = Num v /\
    forall r' v', In r' (rows sample_merged_df) ->
                  key_of sample_merged_df "Article Reads" r' = Num v' -> v' <= v.
Proof.
  apply (top_article_is_maximal sample_merged_df (Str "On leases")).
  - simpl. repeat constructor; simpl; intuition discriminate.
  - vm_compute. reflexivity.
Defined.

(** ** The monthly series *)

(** Line 85, spelled out. *)
Lemma monthly_sum_values (view agg : DataFrame) :
  Master.monthly_sum view = Ok agg ->
  exists i j periods n,
    col_pos "Date" (columns view) = Some i /\
    col_pos "Article Reads" (columns view) = Some j /\
    dt_to_period_M (map (at_pos i) (rows view)) = Ok periods /\
    numeric (map (at_pos j) (rows view)) = Ok n /\
    agg = reset_index "Date" "Article Reads"
            (map (fun k => (k, nansum (group_values k (combine periods n))))
                 (group_keys periods)).
Proof.
  unfold Master.monthly_sum. intros H.
  apply bind_ok in H. destruct H as (dates & Hd & H).
  apply bind_ok in H. destruct H as (periods & Hp & H).
  apply bind_ok in H. destruct H as (reads & Hr & H).
  apply bind_ok in H. destruct H as (sums & Hs & H).
  injection H as <-.
  unfold groupby_sum in Hs.
  apply bind_ok in Hs. destruct Hs as (n & Hn & Hs). injection Hs as <-.
  apply getitem_ok in Hd. destruct Hd as (i & Hi & ->).
  apply getitem_ok in Hr. destruct Hr as (j & Hj & ->).
  rewrite values_labelled in *.
  exists i, j, periods, n. auto.
Qed.

Lemma month_start_keeps_reads (agg out : DataFrame) :
  Master.month_start agg = Ok out ->
  getitem out "Article Reads" = getitem agg "Article Reads" /\
  List.length (rows out) = List.length (rows agg).
Proof.
  unfold Master.month_start. intros H.
  apply bind_ok in H. destruct H as (months & Hm & H).
  apply bind_ok in H. destruct H as (stamps & Hs & H). injection H as <-.
  assert (Hlen : List.length stamps = List.length (rows agg)).
  { apply mapM_length in Hs. rewrite Hs.
    apply getitem_ok in Hm. destruct Hm as (i & _ & ->).
    unfold values. rewrite !length_map. reflexivity. }
  split.
  - apply getitem_setitem_other; [discriminate | exact Hlen].
  - apply setitem_length. exact Hlen.
Qed.

Lemma total_reads_reset_index (sums : list (cell * Z)) :
  Master.total_reads (reset_index "Date" "Article Reads" sums)
  = Ok (fold_right (fun kv acc => snd kv + acc) 0 sums).
Proof.
  unfold Master.total_reads, reset_index, getitem.
  change (col_pos "Article Reads" (columns (mkDataFrame ["Date"; "Article Reads"] _)))
    with (Some 1%nat).
  cbn [bind rows]. rewrite values_labelled, at_pos_range_index, map_map. cbn [nth].
  unfold series_sum, numeric.
  rewrite (mapM_map_ok as_number (fun kv : cell * Z => Num (snd kv))
             (fun kv => Some (snd kv))) by reflexivity.
  cbn [bind]. f_equal. induction sums as [| kv sums IH]; simpl; auto.
  rewrite IH. reflexivity.
Qed.

Lemma filter_filter_sub {A : Type} (f g : A -> bool) (l : list A) :
  (forall a, g a = true -> f a = true) -> filter g (filter f l) = filter g l.
Proof.
  intros H. induction l as [| a l IH]; simpl; auto.
  destruct (f a) eqn:Ef; simpl.
  - rewrite IH. reflexivity.
  - destruct (g a) eqn:Eg; auto. rewrite (H a Eg) in Ef. discriminate.
Qed.

(** The rows with a date, and their values, on both sides of the grouping. *)
Lemma dated_values (gD gR : Row -> cell) :
  forall (rs : list Row) (periods : list cell) (n : list (option Z)),
    dt_to_period_M (map gD rs) = Ok periods ->
    numeric (map gR rs) = Ok n ->
    exists n',
      numeric (map gR (filter (fun r => notna (gD r)) rs)) = Ok n' /\
      nansum n' = nansum (map snd (filter (fun kv => notna (fst kv)) (combine periods n))).
Proof.
  unfold dt_to_period_M, numeric.
  induction rs as [| r rs IH]; simpl; intros periods n Hp Hn.
  - inv_ok. subst. exists []. auto.
  - apply bind_ok in Hp. destruct Hp as (k & Hk & Hp).
    apply bind_ok in Hp. destruct Hp as (ks & Hks & Hp). injection Hp as <-.
    apply bind_ok in Hn. destruct Hn as (x & Hx & Hn).
    apply bind_ok in Hn. destruct Hn as (xs & Hxs & Hn). injection Hn as <-.
    destruct (IH _ _ Hks Hxs) as (n' & Hn' & Hsum).
    destruct (gD r) as [| z | str | t | p]; simpl in Hk; try discriminate;
      injection Hk as <-; simpl.
    + exists n'. auto.
    + rewrite Hx. cbn [bind]. rewrite Hn'. cbn [bind].
      eexists. split; [reflexivity |].
      rewrite nansum_cons, Hsum. destruct x; reflexivity.
Qed.

Lemma fold_sums (f : cell -> Z) (keys : list cell) :
  fold_right (fun kv acc => snd kv + acc) 0 (map (fun k => (k, f k)) keys)
  = sum_over f keys.
Proof.
  induction keys as [| k keys IH]; simpl; auto. rewrite IH. reflexivity.
Qed.

(** The group sums add up to the sum over the rows that have a key. *)
Lemma group_sums_total (periods : list cell) (n : list (option Z)) :
  fold_right (fun kv acc => snd kv + acc) 0
    (map (fun k => (k, nansum (group_values k (combine periods n))))
         (group_keys periods))
  = nansum (map snd (filter (fun kv => notna (fst kv)) (combine periods n))).
Proof.
  rewrite fold_sums.
  rewrite <- (sum_by_key fst snd (group_keys periods)
                (filter (fun kv => notna (fst kv)) (combine periods n))).
  - apply sum_over_ext. intros k Hk. unfold group_values.
    rewrite filter_filter_sub; [reflexivity |].
    intros a Ha. apply cell_eqb_eq in Ha. rewrite Ha.
    apply group_keys_In in Hk. destruct Hk as [_ Hk].
    destruct k; auto; congruence.
  - apply group_keys_NoDup.
  - intros a Ha. apply filter_In in Ha. destruct Ha as [Ha Hna].
    apply group_keys_In. split.
    + destruct a as [k x]. apply in_combine_l in Ha. exact Ha.
    + intros E. rewrite E in Hna. discriminate.
Qed.

(** Bucketing by month loses no read and invents none: the sums of the
    monthly series add up to the total reads of the articles that have a
    date. *)
Theorem monthly_reads_conserve_reads :
  forall view out : DataFrame,
    Master.monthly_reads view = Ok out ->
    exists dated total,
      dropna_subset view "Date" = Ok dated /\
      Master.total_reads dated = Ok total /\
      Master.total_reads out = Ok total.
Proof.
  intros view out H. unfold Master.monthly_reads in H.
  apply bind_ok in H. destruct H as (agg & Hagg & Hout).
  destruct (monthly_sum_values _ _ Hagg) as (i & j & periods & n & Hi & Hj & Hp & Hn & ->).
  destruct (month_start_keeps_reads _ _ Hout) as [Hkeep _].
  destruct (dated_values (at_pos i) (at_pos j) _ _ _ Hp Hn) as (n' & Hn' & Hsum).
  exists (select view (map (fun v => negb (isna v)) (map (at_pos i) (rows view)))),
         (nansum n').
  split; [| split].
  - unfold dropna_subset, getitem. rewrite Hi. cbn [bind].
    rewrite values_labelled. reflexivity.
  - unfold Master.total_reads, getitem. cbn [columns select]. rewrite Hj. cbn [bind].
    rewrite values_labelled, map_map.
    rewrite (select_filter view (fun r => negb (isna (at_pos i r)))).
    unfold series_sum. unfold notna in Hn'. rewrite Hn'. reflexivity.
  - unfold Master.total_reads at 1. rewrite Hkeep.
    fold (Master.total_reads
            (reset_index "Date" "Article Reads"
               (map (fun k => (k, nansum (group_values k (combine periods n))))
                    (group_keys periods)))).
    rewrite total_reads_reset_index, group_sums_total, Hsum. reflexivity.
Qed.

Lemma monthly_reads_conserve_reads_witness :
  exists dated total,
    dropna_subset sample_merged_df "Date" = Ok dated /\
    Master.total_reads dated = Ok total /\
    Master.total_reads sample_monthly = Ok total.
Proof.
  apply (monthly_reads_conserve_reads sample_merged_df sample_monthly).
  vm_compute. reflexivity.
Defined.

Lemma period_to_timestamp_lt (p q : Z) :
  p < q -> ts_ltb (period_to_timestamp p) (period_to_timestamp q) = true.
Proof.
  intros Hpq. unfold ts_ltb, ts_compare, ts_fields, period_to_timestamp.
  cbn [year month day hour minute second lex_compare].
  pose proof (Z.div_mod p 12 ltac:(lia)).
  pose proof (Z.div_mod q 12 ltac:(lia)).
  pose proof (Z.mod_pos_bound p 12 ltac:(lia)).
  pose proof (Z.mod_pos_bound q 12 ltac:(lia)).
  destruct (Z.compare_spec (1970 + p / 12) (1970 + q / 12)); try reflexivity; try lia.
  destruct (Z.compare_spec (p mod 12 + 1) (q mod 12 + 1)); try reflexivity; lia.
Qed.

Lemma sorted_periods (ps : list (Z * Z)) :
  Sorted cell_le (map (fun x => Period (fst x)) ps) ->
  NoDup (map (fun x => Period (fst x)) ps) ->
  Sorted Z.lt (map fst ps).
Proof.
  induction ps as [| x ps IH]; simpl; intros Hs Hnd; [constructor |].
  inversion Hs as [| a l Hs' Hhd]; subst.
  inversion Hnd as [| a l Hnot Hnd']; subst.
  constructor; auto.
  destruct ps as [| y ps]; simpl in *; constructor.
  inversion Hhd as [| b l Hle]; subst.
  unfold cell_le in Hle. simpl in Hle.
  destruct (Z.compare_spec (fst x) (fst y)); try congruence; auto.
  exfalso. apply Hnot. left. congruence.
Qed.

(** The monthly series lists its months in calendar order, each once, each
    as the first instant of the month. *)
Theorem monthly_series_chronological :
  forall view out : DataFrame,
    Master.monthly_reads view = Ok out ->
    columns out = ["Date"; "Article Reads"] /\
    Sorted (fun c c' => ts_ltb (stamp_of c) (stamp_of c') = true)
      (map (key_of out "Date") (rows out)) /\
    Forall (fun c => exists p, c = Time (period_to_timestamp p))
      (map (key_of out "Date") (rows out)).
Proof.
  intros view out H. unfold Master.monthly_reads in H.
  apply bind_ok in H. destruct H as (agg & Hagg & Hout).
  destruct (monthly_sum_shape _ _ Hagg) as (ps & -> & Hnd & Hs & _).
  rewrite month_start_frame in Hout. injection Hout as <-.
  split; [reflexivity |].
  assert (Hcol : map (key_of (monthly_frame ps) "Date") (rows (monthly_frame ps))
                 = map (fun p => Time (period_to_timestamp p)) (map fst ps)).
  { transitivity (map (at_pos 0) (rows (monthly_frame ps)));
      [apply map_ext; intros r; reflexivity |].
    unfold monthly_frame. cbn [rows].
    rewrite at_pos_range_index, !map_map. reflexivity. }
  rewrite Hcol. pose proof (sorted_periods ps Hs Hnd) as Hlt. split.
  - clear Hcol Hnd Hs. induction Hlt as [| p l Hl IH Hhd]; simpl; constructor; auto.
    destruct Hhd as [| q l' Hpq]; simpl; constructor.
    apply period_to_timestamp_lt. exact Hpq.
  - apply Forall_forall. intros c Hc. apply in_map_iff in Hc.
    destruct Hc as (p & <- & _). eauto.
Qed.

Lemma monthly_series_chronological_witness :
  columns sample_monthly = ["Date"; "Article Reads"] /\
  Sorted (fun c c' => ts_ltb (stamp_of c) (stamp_of c') = true)
    (map (key_of sample_monthly "Date") (rows sample_monthly)) /\
  Forall (fun c => exists p, c = Time (period_to_timestamp p))
    (map (key_of sample_monthly "Date") (rows sample_monthly)).
Proof.
  apply (monthly_series_chronological sample_merged_df sample_monthly).
  vm_compute. reflexivity.
Defined.

Lemma month_start_columns (agg out : DataFrame) :
  Master.month_start agg = Ok out -> columns out = columns agg.
Proof.
  unfold Master.month_start. intros H.
  apply bind_ok in H. destruct H as (months & Hm & H).
  apply bind_ok in H. destruct H as (stamps & _ & H). injection H as <-.
  apply getitem_ok in Hm. destruct Hm as (i & Hi & _).
  unfold setitem. rewrite Hi. reflexivity.
Qed.

(** The series handed to the forecaster has the two columns it expects,
    [ds] and [y], and one point per calendar month in which the unfiltered
    frame has a dated article: the threshold of six counts months, not
    articles, and below it the tab only warns. *)
Theorem forecast_series_counts_months :
  forall (g : Master.Globals) (ts_df : DataFrame),
    Master.forecast_series g = Ok ts_df ->
    columns ts_df = ["ds"; "y"] /\
    exists dates periods,
      getitem (Master.merged_df g) "Date" = Ok dates /\
      dt_to_period_M (values dates) = Ok periods /\
      len ts_df = Z.of_nat (List.length (group_keys periods)) /\
      ((List.length (group_keys periods) < 6)%nat ->
       Master.predictive_insights g =
         Ok [Master.StWarning "Not enough data to generate a forecast."]).
Proof.
  intros g ts_df H. pose proof H as Hts. unfold Master.forecast_series in H.
  apply bind_ok in H. destruct H as (out & Hout & H). injection H as <-.
  unfold Master.monthly_reads in Hout.
  apply bind_ok in Hout. destruct Hout as (agg & Hagg & Hout).
  destruct (monthly_sum_values _ _ Hagg) as (i & j & periods & n & Hi & Hj & Hp & Hn & ->).
  destruct (month_start_keeps_reads _ _ Hout) as [_ Hlen].
  pose proof (month_start_columns _ _ Hout) as Hcols.
  assert (Hlen' : len (rename [("Date", "ds"); ("Article Reads", "y")] out)
                  = Z.of_nat (List.length (group_keys periods))).
  { unfold len. cbn [rows rename]. rewrite Hlen. unfold reset_index. cbn [rows].
    rewrite range_index_length, !length_map. reflexivity. }
  split.
  - cbn [columns rename]. rewrite Hcols. reflexivity.
  - exists (map (fun r => (label r, at_pos i r)) (rows (Master.merged_df g))), periods.
    split; [unfold getitem; rewrite Hi; reflexivity |].
    split; [rewrite values_labelled; exact Hp |].
    split; [exact Hlen' |].
    intros Hfew. unfold Master.predictive_insights. rewrite Hts. cbn [bind].
    rewrite Hlen'.
    destruct (Z.leb_spec 6 (Z.of_nat (List.length (group_keys periods))));
      [lia | reflexivity].
Qed.

Lemma forecast_series_counts_months_witness :
  exists ts_df,
    Master.forecast_series sample_globals = Ok ts_df /\
    columns ts_df = ["ds"; "y"] /\
    exists dates periods,
      getitem (Master.merged_df sample_globals) "Date" = Ok dates /\
      dt_to_period_M (values dates) = Ok periods /\
      len ts_df = Z.of_nat (List.length (group_keys periods)) /\
      ((List.length (group_keys periods) < 6)%nat ->
       Master.predictive_insights sample_globals =
         Ok [Master.StWarning "Not enough data to generate a forecast."]).
Proof.
  eexists. split; [vm_compute; reflexivity |].
  apply (forecast_series_counts_months sample_globals). vm_compute. reflexivity.
Defined.

(** ** Shape of the heatmap *)

(** The heatmap, written out from the rows that have an access date. *)
Lemma heatmap_form (readers : DataFrame) (iT iR : nat) :
  col_pos "Last Access Date" (columns readers) = Some iT ->
  col_pos "Reads" (columns readers) = Some iR ->
  (forall r, In r (rows readers) -> notna (at_pos iT r) = true ->
             is_datetimelike (at_pos iT r) = true) ->
  (forall r, In r (rows readers) -> notna (at_pos iT r) = true ->
             is_numeric (at_pos iR r) = true) ->
  let V := filter (fun r => notna (at_pos iT r)) (rows readers) in
  let days := map (fun r => Str (day_name (stamp_of (at_pos iT r)))) V in
  let hours := map (fun r => Num (hour (stamp_of (at_pos iT r)))) V in
  exists n,
    numeric (map (at_pos iR) V) = Ok n /\
    Master.heatmap_data readers
    = Ok (reindex
            (mkMatrix (group_keys hours)
               (map (fun d => (d, map (pivot_cell (Some 0)
                                         (combine (combine days hours) n) d)
                                      (group_keys hours)))
                    (group_keys days)))
            (map Str day_names)).
Proof.
  intros ET ER Hdt Hnum V days hours.
  set (valid := select readers
                  (map (fun v => negb (isna v))
                       (values (map (fun r => (label r, at_pos iT r)) (rows readers))))).
  assert (Hvalid : dropna_subset readers "Last Access Date" = Ok valid).
  { unfold dropna_subset, getitem. rewrite ET. reflexivity. }
  assert (Hrows : rows valid = V).
  { unfold valid. rewrite values_labelled, map_map. apply select_filter. }
  assert (Hstamp : forall r, In r V ->
            (In r (rows readers) /\ notna (at_pos iT r) = true) /\
            at_pos iT r = Time (stamp_of (at_pos iT r))).
  { intros r Hr. apply filter_In in Hr. destruct Hr as [Hr Hna].
    split; auto. specialize (Hdt r Hr Hna).
    destruct (at_pos iT r); simpl in *; try discriminate; reflexivity. }
  assert (HgetT : getitem valid "Last Access Date"
                  = Ok (map (fun r => (label r, at_pos iT r)) V)).
  { unfold getitem. change (columns valid) with (columns readers).
    rewrite ET, Hrows. reflexivity. }
  assert (Hdays : dt_day_name (map (at_pos iT) V) = Ok days).
  { apply mapM_map_ok_in. intros r Hr.
    destruct (Hstamp r Hr) as [_ ->]. reflexivity. }
  assert (Hhours : dt_hour (map (at_pos iT) V) = Ok hours).
  { apply mapM_map_ok_in. intros r Hr.
    destruct (Hstamp r Hr) as [_ ->]. reflexivity. }
  assert (Ldays : List.length days = List.length (rows valid))
    by (rewrite Hrows; apply length_map).
  set (valid1 := setitem valid "Day" days).
  set (valid2 := setitem valid1 "Hour" hours).
  assert (L1 : List.length (rows valid1) = List.length V)
    by (unfold valid1; rewrite setitem_length, Hrows; auto).
  assert (Lhours1 : List.length hours = List.length (rows valid1))
    by (rewrite L1; apply length_map).
  assert (HgetT1 : getitem valid1 "Last Access Date"
                   = Ok (map (fun r => (label r, at_pos iT r)) V)).
  { unfold valid1. rewrite getitem_setitem_other; auto. discriminate. }
  assert (HgetR2 : getitem valid2 "Reads" = Ok (map (fun r => (label r, at_pos iR r)) V)).
  { unfold valid2, valid1.
    rewrite !getitem_setitem_other; auto; try discriminate.
    unfold getitem. change (columns valid) with (columns readers).
    rewrite ER, Hrows. reflexivity. }
  destruct (getitem_setitem_same valid "Day" days Ldays) as (sd & Hsd & Hsdv).
  assert (HgetD2 : getitem valid2 "Day" = Ok sd).
  { unfold valid2. rewrite getitem_setitem_other; auto. discriminate. }
  destruct (getitem_setitem_same valid1 "Hour" hours Lhours1) as (sh & Hsh & Hshv).
  fold valid2 in Hsh.
  destruct (mapM_total as_number (map (at_pos iR) V)) as [n Hn].
  { apply Forall_forall. intros c Hc. apply in_map_iff in Hc.
    destruct Hc as (r & <- & Hr). destruct (Hstamp r Hr) as [[Hr' Hna] _].
    specialize (Hnum r Hr' Hna).
    destruct (at_pos iR r); simpl in *; try discriminate; eauto. }
  assert (Ln : List.length n = List.length V).
  { apply mapM_length in Hn. rewrite length_map in Hn. exact Hn. }
  assert (Lh : List.length hours = List.length V) by apply length_map.
  assert (Ld : List.length days = List.length V) by apply length_map.
  assert (Hall : labelled_values days hours n = combine (combine days hours) n).
  { unfold labelled_values. apply filter_all. intros [[d h] x] Hin. simpl.
    apply in_combine_l in Hin.
    pose proof (in_combine_l _ _ _ _ Hin) as Hd.
    pose proof (in_combine_r _ _ _ _ Hin) as Hh.
    apply in_map_iff in Hd. destruct Hd as (r1 & <- & _).
    apply in_map_iff in Hh. destruct Hh as (r2 & <- & _). reflexivity. }
  assert (Hpairs : map fst (combine (combine days hours) n) = combine days hours).
  { apply combine_fst. rewrite length_combine. lia. }
  assert (HI : map (fun kv : cell * cell * option Z => fst (fst kv))
                 (combine (combine days hours) n) = days).
  { rewrite <- (map_map fst fst), Hpairs. apply combine_fst. lia. }
  assert (HC : map (fun kv : cell * cell * option Z => snd (fst kv))
                 (combine (combine days hours) n) = hours).
  { rewrite <- (map_map fst snd), Hpairs. apply combine_snd. lia. }
  exists n. split; [exact Hn |].
  unfold Master.heatmap_data. rewrite Hvalid. cbn [bind].
  rewrite HgetT. cbn [bind]. rewrite values_labelled, Hdays. cbn [bind].
  fold valid1. rewrite HgetT1. cbn [bind]. rewrite values_labelled, Hhours. cbn [bind].
  fold valid2. unfold pivot_table_sum. rewrite HgetR2, HgetD2, Hsh. cbn [bind].
  rewrite values_labelled. unfold numeric. rewrite Hn. cbn [bind].
  rewrite Hsdv, Hshv, Hall, HI, HC. reflexivity.
Qed.

Lemma pivot_cell_filled (keyed : list ((cell * cell) * option Z)) (i c : cell) :
  pivot_cell (Some 0) keyed i c <> None.
Proof.
  unfold pivot_cell. destruct (filter _ keyed); discriminate.
Qed.

(** The heatmap always has the seven week days as rows, Monday first, and
    one cell per hour column in each.  A day on which some reader was last
    active has a number in every cell (0 for an hour without activity); a
    day on which none was has NaN in every cell, not 0. *)
Theorem heatmap_rows_are_week_days :
  forall (readers : DataFrame) (m : Matrix),
    Master.heatmap_data readers = Ok m ->
    exists valid iT,
      dropna_subset readers "Last Access Date" = Ok valid /\
      col_pos "Last Access Date" (columns readers) = Some iT /\
      map fst (mrows m) = map Str day_names /\
      forall d row, In (Str d, row) (mrows m) ->
        List.length row = List.length (mcolumns m) /\
        ((exists r, In r (rows valid) /\ day_name (stamp_of (at_pos iT r)) = d) ->
         Forall (fun x => x <> None) row) /\
        ((forall r, In r (rows valid) -> day_name (stamp_of (at_pos iT r)) <> d) ->
         Forall (fun x => x = None) row).
Proof.
  intros readers m Hm.
  destruct (heatmap_inversion readers m Hm) as (iT & iR & HiT & HiR & Hdt & Hnum).
  destruct (heatmap_form readers iT iR HiT HiR Hdt Hnum) as (n & _ & Hform).
  cbv zeta in Hform. rewrite Hm in Hform. injection Hform as ->.
  set (V := filter (fun r => notna (at_pos iT r)) (rows readers)).
  set (days := map (fun r => Str (day_name (stamp_of (at_pos iT r)))) V).
  set (hours := map (fun r => Num (hour (stamp_of (at_pos iT r)))) V).
  exists (select readers
            (map (fun v => negb (isna v))
                 (values (map (fun r => (label r, at_pos iT r)) (rows readers))))),
         iT.
  assert (Hrows : rows (select readers
            (map (fun v => negb (isna v))
                 (values (map (fun r => (label r, at_pos iT r)) (rows readers))))) = V).
  { rewrite values_labelled, map_map. apply select_filter. }
  split; [unfold dropna_subset, getitem; rewrite HiT; reflexivity |].
  split; [exact HiT |].
  unfold reindex. cbn [mrows mcolumns]. split.
  - rewrite map_map. cbn [fst]. apply map_id.
  - intros d row Hin. rewrite Hrows.
    apply in_map_iff in Hin. destruct Hin as (l & E & _). injection E as -> <-.
    assert (Hday : In (Str d) (group_keys days) <->
                   exists r, In r V /\ day_name (stamp_of (at_pos iT r)) = d).
    { rewrite group_keys_In. unfold days. rewrite in_map_iff. split.
      - intros [(r & E & Hr) _]. injection E as E. eauto.
      - intros (r & Hr & E). split; [| discriminate]. exists r. rewrite E. auto. }
    destruct (in_dec cell_eq_dec (Str d) (group_keys days)) as [Hyes | Hno].
    + rewrite lookup_row_present by exact Hyes. split; [apply length_map |]. split.
      * intros _. apply Forall_forall. intros x Hx.
        apply in_map_iff in Hx. destruct Hx as (c & <- & _). apply pivot_cell_filled.
      * intros Hnone. apply Hday in Hyes. destruct Hyes as (r & Hr & E).
        exfalso. apply (Hnone r Hr E).
    + rewrite lookup_row_absent by exact Hno. split; [apply repeat_length |]. split.
      * intros Hsome. apply Hday in Hsome. contradiction.
      * intros _. apply Forall_forall. intros x Hx.
        apply repeat_spec in Hx. exact Hx.
Qed.

Lemma heatmap_rows_witness :
  exists valid iT,
    dropna_subset sample_reader_df "Last Access Date" = Ok valid /\
    col_pos "Last Access Date" (columns sample_reader_df) = Some iT /\
    map fst (mrows sample_heatmap) = map Str day_names /\
    forall d row, In (Str d, row) (mrows sample_heatmap) ->
      List.length row = List.length (mcolumns sample_heatmap) /\
      ((exists r, In r (rows valid) /\ day_name (stamp_of (at_pos iT r)) = d) ->
       Forall (fun x => x <> None) row) /\
      ((forall r, In r (rows valid) -> day_name (stamp_of (at_pos iT r)) <> d) ->
       Forall (fun x => x = None) row).
Proof.
  apply (heatmap_rows_are_week_days sample_reader_df sample_heatmap).
  vm_compute. reflexivity.
Defined.

(** ** The report's summary metrics *)

Lemma nunique_bounds (col : list cell) :
  0 <= nunique col <= Z.of_nat (List.length col).
Proof.
  unfold nunique. split; [lia |]. apply Nat2Z.inj_le.
  apply NoDup_incl_length; [apply unique_NoDup |].
  intros c Hc. apply unique_In, filter_In in Hc. tauto.
Qed.

Lemma nunique_distinct (col : list cell) :
  NoDup col -> ~ In NA col -> nunique col = Z.of_nat (List.length col).
Proof.
  intros Hnd Hna. unfold nunique. rewrite filter_all.
  - rewrite unique_fixed by exact Hnd. reflexivity.
  - intros c Hc. destruct c; auto; contradiction.
Qed.

(** In the report, the total is the Total Reads of the KPI row, and neither
    unique count exceeds the size of its view: Unique Readers is at most
    the KPI's Total Readers, and equals it when every filtered reader has a
    user identifier of its own. *)
Theorem summary_metrics_bounds :
  forall (g : Master.Globals) (total articles users : Z),
    Master.summary_metrics g = Ok (total, articles, users) ->
    Master.total_reads (Master.filtered_articles g) = Ok total /\
    0 <= articles <= len (Master.filtered_articles g) /\
    0 <= users <= len (Master.filtered_readers g) /\
    (NoDup (key_column (Master.filtered_readers g) "User Id") ->
     ~ In NA (key_column (Master.filtered_readers g) "User Id") ->
     users = len (Master.filtered_readers g)).
Proof.
  unfold Master.summary_metrics. intros g total articles users H.
  apply bind_ok in H. destruct H as (t & Ht & H).
  apply bind_ok in H. destruct H as (ids & Hids & H).
  apply bind_ok in H. destruct H as (us & Hus & H).
  injection H as <- <- <-.
  apply getitem_ok in Hids. destruct Hids as (i & Hi & ->).
  apply getitem_ok in Hus. destruct Hus as (j & Hj & ->).
  rewrite !values_labelled. unfold len, key_column. rewrite Hj.
  split; [exact Ht |]. split; [| split].
  - pose proof (nunique_bounds (map (at_pos i) (rows (Master.filtered_articles g)))) as Hb.
    rewrite length_map in Hb. exact Hb.
  - pose proof (nunique_bounds (map (at_pos j) (rows (Master.filtered_readers g)))) as Hb.
    rewrite length_map in Hb. exact Hb.
  - intros Hnd Hna. rewrite nunique_distinct by assumption.
    rewrite length_map. reflexivity.
Qed.

Lemma summary_metrics_witness :
  Master.total_reads (Master.filtered_articles sample_globals) = Ok 18 /\
  0 <= 3 <= len (Master.filtered_articles sample_globals) /\
  0 <= 3 <= len (Master.filtered_readers sample_globals) /\
  (NoDup (key_column (Master.filtered_readers sample_globals) "User Id") ->
   ~ In NA (key_column (Master.filtered_readers sample_globals) "User Id") ->
   3 = len (Master.filtered_readers sample_globals)).
Proof.
  apply (summary_metrics_bounds sample_globals 18 3 3). vm_compute. reflexivity.
Defined.

(** ** Company Deep Dive *)

Lemma nansum_ones {A : Type} (l : list A) :
  nansum (map (fun _ => Some 1) l) = Z.of_nat (List.length l).
Proof.
  induction l as [| a l IH]; [reflexivity |].
  simpl map. rewrite nansum_cons, IH. simpl List.length. simpl value_of. lia.
Qed.

Lemma company_data_rows (readers : DataFrame) (i : nat) (c : cell) :
  col_pos "Company Name" (columns readers) = Some i ->
  Master.company_data readers c
  = Ok (mkDataFrame (columns readers)
          (filter (fun r => cell_eqb (at_pos i r) c)
             (filter (fun r => notna (at_pos i r)) (rows readers)))).
Proof.
  intros Hi. unfold Master.company_data, getitem. rewrite Hi. cbn [bind].
  f_equal. unfold select. f_equal.
  rewrite values_labelled. unfold eq_scalar. rewrite map_map.
  rewrite <- filter_andb.
  apply (select_filter readers
           (fun r => notna (at_pos i r) && cell_eqb (at_pos i r) c)).
Qed.

(** Lines 112-116 for each value the selection can take: summed over the
    distinct company names, the readers selected add up to the readers that
    have a company and their reads to the reads of those readers. *)
Lemma company_sums_by_key :
  forall readers : DataFrame,
    In "Company Name" (columns readers) ->
    numeric_column readers "Reads" = true ->
    exists (readers_of reads_of : cell -> Z) (named : DataFrame) (reads : Series Z),
      (forall c, Master.company_total_readers readers c = Ok (readers_of c)) /\
      (forall c, Master.company_total_reads readers c = Ok (reads_of c)) /\
      (readers_of NA = 0 /\ reads_of NA = 0) /\
      dropna_subset readers "Company Name" = Ok named /\
      getitem named "Reads" = Ok reads /\
      sum_over readers_of (group_keys (key_column readers "Company Name")) = len named /\
      series_sum (values reads)
      = Ok (sum_over reads_of (group_keys (key_column readers "Company Name"))).
Proof.
  intros readers Hc Hnum.
  destruct (col_pos_In _ _ Hc) as [i Hi].
  apply column_all_spec in Hnum. destruct Hnum as (j & Hj & Hnum).
  set (K := fun r : Row => at_pos i r).
  set (V := fun r : Row => match at_pos j r with Num z => Some z | _ => None end).
  set (named := filter (fun r => notna (K r)) (rows readers)).
  set (group := fun c : cell => filter (fun r => cell_eqb (K r) c) named).
  assert (Hnumeric : forall rs, incl rs (rows readers) ->
            numeric (map (at_pos j) rs) = Ok (map V rs)).
  { intros rs Hin. apply mapM_map_ok_in. intros r Hr.
    specialize (Hnum r (Hin r Hr)). unfold V.
    destruct (at_pos j r); simpl in *; try discriminate; reflexivity. }
  assert (Hgroup_in : forall c, incl (group c) (rows readers)).
  { intros c r Hr. unfold group, named in Hr.
    apply filter_In in Hr. destruct Hr as [Hr _].
    apply filter_In in Hr. tauto. }
  assert (Hkeys : key_column readers "Company Name" = map K (rows readers)).
  { unfold key_column. rewrite Hi. reflexivity. }
  assert (Hcover : forall r, In r named ->
            In (K r) (group_keys (key_column readers "Company Name"))).
  { intros r Hr. unfold named in Hr. apply filter_In in Hr. destruct Hr as [Hr Hna].
    rewrite Hkeys. apply group_keys_In. split; [apply in_map; exact Hr |].
    intros E. rewrite E in Hna. discriminate. }
  exists (fun c => Z.of_nat (List.length (group c))),
         (fun c => nansum (map V (group c))),
         (select readers (map (fun v => negb (isna v)) (map K (rows readers)))),
         (map (fun r => (label r, at_pos j r)) named).
  assert (Hnamed : rows (select readers
                           (map (fun v => negb (isna v)) (map K (rows readers)))) = named).
  { rewrite map_map. apply (select_filter readers (fun r => notna (K r))). }
  split; [| split; [| split; [| split; [| split; [| split]]]]].
  - intros c. unfold Master.company_total_readers.
    rewrite (company_data_rows readers i c Hi). reflexivity.
  - intros c. unfold Master.company_total_reads.
    rewrite (company_data_rows readers i c Hi). cbn [bind].
    unfold getitem. cbn [columns rows]. rewrite Hj. cbn [bind].
    rewrite values_labelled. unfold series_sum.
    pose proof (Hnumeric (group c) (Hgroup_in c)) as Hx.
    unfold group, named, K in Hx. rewrite Hx. reflexivity.
  - assert (Hnone : group NA = []).
    { unfold group. apply filter_none.
      intros r Hr. unfold named in Hr. apply filter_In in Hr. destruct Hr as [_ Hna].
      unfold K in *. destruct (at_pos i r); simpl in *; auto; discriminate. }
    rewrite Hnone. split; reflexivity.
  - unfold dropna_subset, getitem. rewrite Hi. cbn [bind].
    rewrite values_labelled. reflexivity.
  - unfold getitem. cbn [columns select]. rewrite Hj, Hnamed. reflexivity.
  - unfold len. rewrite Hnamed, <- (nansum_ones named).
    rewrite <- (sum_by_key K (fun _ => Some 1)
                  (group_keys (key_column readers "Company Name")) named
                  (group_keys_NoDup _) Hcover).
    apply sum_over_ext. intros c _. rewrite nansum_ones. reflexivity.
  - rewrite values_labelled. unfold series_sum.
    rewrite (Hnumeric named).
    2: { intros r Hr. unfold named in Hr. apply filter_In in Hr. tauto. }
    cbn [bind]. f_equal. symmetry.
    apply (sum_by_key K V (group_keys (key_column readers "Company Name")) named
             (group_keys_NoDup _) Hcover).
Qed.

Lemma sum_over_perm (f : cell -> Z) (l1 l2 : list cell) :
  Permutation l1 l2 -> sum_over f l1 = sum_over f l2.
Proof.
  unfold sum_over. induction 1; simpl; lia.
Qed.

Lemma sum_over_named (f : cell -> Z) (l : list cell) :
  f NA = 0 -> sum_over f l = sum_over f (filter notna l).
Proof.
  intros H. induction l as [| c l IH]; [reflexivity |].
  cbn [filter sum_over fold_right]. fold (sum_over f l).
  destruct c; cbn [notna isna negb sum_over fold_right];
    fold (sum_over f (filter notna l)); rewrite IH; try reflexivity.
  rewrite H. reflexivity.
Qed.

Lemma filter_comm {A : Type} (f g : A -> bool) (l : list A) :
  filter f (filter g l) = filter g (filter f l).
Proof.
  induction l as [| a l IH]; simpl; [reflexivity |].
  destruct (f a) eqn:Ef, (g a) eqn:Eg; simpl; rewrite ?Ef, ?Eg, IH; reflexivity.
Qed.

Lemma filter_notna_unique (l : list cell) :
  filter notna (unique l) = unique (filter notna l).
Proof.
  induction l as [| x l IH]; [reflexivity |].
  cbn [unique filter]. destruct (notna x) eqn:E.
  - cbn [unique]. f_equal. rewrite filter_comm, IH. reflexivity.
  - rewrite filter_comm, IH. apply filter_all.
    intros c Hc. apply unique_In, filter_In in Hc. destruct Hc as [_ Hc].
    destruct x; try discriminate. destruct c; try discriminate; reflexivity.
Qed.

Lemma sorted_cells_perm (l l' : list cell) :
  sorted_cells l = Ok l' -> Permutation l' l.
Proof.
  unfold sorted_cells.
  destruct (existsb isna l && existsb is_str l); intros H; [discriminate |].
  injection H as <-. apply sort_cells_perm.
Qed.

Lemma sorted_cells_mixed (l : list cell) (s : string) :
  In NA l -> In (Str s) l -> exists msg, sorted_cells l = Raise (TypeError msg).
Proof.
  intros Hna Hs. unfold sorted_cells.
  assert (E1 : existsb isna l = true) by (apply existsb_exists; exists NA; auto).
  assert (E2 : existsb is_str l = true) by (apply existsb_exists; exists (Str s); auto).
  rewrite E1, E2. simpl. eauto.
Qed.

Section CompanyFacts.
Variable sorted : list cell -> result (list cell).
Hypothesis sorted_perm : forall l l', sorted l = Ok l' -> Permutation l' l.
Hypothesis sorted_mixed :
  forall l s, In NA l -> In (Str s) l -> exists msg, sorted l = Raise (TypeError msg).

(** The Company Deep Dive tab.  When one reader has no company name and
    another has one, building the options of the selector raises
    [TypeError], whatever would be picked: the tab shows no metric.  When
    the options are built, they are the distinct company names, and over
    them the Total Readers add up to the readers that have a company and
    the Total Reads to the reads of those readers. *)
Theorem company_tab_totals :
  forall readers : DataFrame,
    In "Company Name" (columns readers) ->
    numeric_column readers "Reads" = true ->
    (forall s,
       In NA (key_column readers "Company Name") ->
       In (Str s) (key_column readers "Company Name") ->
       exists msg,
         Master.company_options sorted readers = Raise (TypeError msg) /\
         forall choice,
           Master.company_metrics sorted readers choice = Raise (TypeError msg)) /\
    (forall options,
       Master.company_options sorted readers = Ok options ->
       Permutation options (unique (key_column readers "Company Name")) /\
       exists (readers_of reads_of : cell -> Z) (named : DataFrame) (reads : Series Z),
         (forall choice,
            Master.company_metrics sorted readers choice
            = Ok (readers_of (nth choice options NA),
                  reads_of (nth choice options NA))) /\
         dropna_subset readers "Company Name" = Ok named /\
         getitem named "Reads" = Ok reads /\
         sum_over readers_of options = len named /\
         series_sum (values reads) = Ok (sum_over reads_of options)).
Proof.
  intros readers Hc Hnum.
  destruct (col_pos_In _ _ Hc) as [i Hi].
  assert (Hkey : key_column readers "Company Name" = map (at_pos i) (rows readers)).
  { unfold key_column. rewrite Hi. reflexivity. }
  assert (Hopt : Master.company_options sorted readers
                 = sorted (unique (key_column readers "Company Name"))).
  { unfold Master.company_options, getitem. rewrite Hi. cbn [bind].
    rewrite values_labelled, Hkey. reflexivity. }
  split.
  - intros s Hna Hs.
    destruct (sorted_mixed (unique (key_column readers "Company Name")) s)
      as [msg Hmsg]; try (apply unique_In; assumption).
    exists msg. rewrite Hopt. split; [exact Hmsg |].
    intros choice. unfold Master.company_metrics. rewrite Hopt, Hmsg. reflexivity.
  - intros options Hoptions.
    assert (Hp : Permutation options (unique (key_column readers "Company Name"))).
    { apply sorted_perm. rewrite <- Hopt. exact Hoptions. }
    split; [exact Hp |].
    destruct (company_sums_by_key readers Hc Hnum)
      as (readers_of & reads_of & named & reads & Hr & Hs & [Hr0 Hs0]
          & Hnamed & Hreads & Hsum1 & Hsum2).
    assert (Hkeys : forall f : cell -> Z,
              f NA = 0 ->
              sum_over f options
              = sum_over f (group_keys (key_column readers "Company Name"))).
    { intros f Hf. rewrite (sum_over_perm f _ _ Hp).
      rewrite (sum_over_named f _ Hf), filter_notna_unique.
      apply sum_over_perm. apply Permutation_sym. apply sort_cells_perm. }
    exists readers_of, reads_of, named, reads.
    split; [| split; [exact Hnamed | split; [exact Hreads | split]]].
    + intros choice. unfold Master.company_metrics. rewrite Hoptions. cbn [bind].
      pose proof (Hr (nth choice options NA)) as H1.
      pose proof (Hs (nth choice options NA)) as H2.
      unfold Master.company_total_readers in H1.
      unfold Master.company_total_reads in H2.
      destruct (Master.company_data readers (nth choice options NA)) as [d | e];
        cbn [bind] in *; [| discriminate].
      destruct (getitem d "Reads") as [r | e]; cbn [bind] in *; [| discriminate].
      rewrite H2. cbn [bind]. congruence.
    + rewrite (Hkeys readers_of Hr0). exact Hsum1.
    + rewrite (Hkeys reads_of Hs0). exact Hsum2.
Qed.
End CompanyFacts.

Lemma company_tab_witness :
  (exists msg,
     Master.company_options sorted_cells company_readers = Raise (TypeError msg) /\
     forall choice,
       Master.company_metrics sorted_cells company_readers choice
       = Raise (TypeError msg)) /\
  (Permutation [Str "Acme"; Str "Birch"]
     (unique (key_column named_company_readers "Company Name")) /\
   exists (readers_of reads_of : cell -> Z) (named : DataFrame) (reads : Series Z),
     (forall choice,
        Master.company_metrics sorted_cells named_company_readers choice
        = Ok (readers_of (nth choice [Str "Acme"; Str "Birch"] NA),
              reads_of (nth choice [Str "Acme"; Str "Birch"] NA))) /\
     dropna_subset named_company_readers "Company Name" = Ok named /\
     getitem named "Reads" = Ok reads /\
     sum_over readers_of [Str "Acme"; Str "Birch"] = len named /\
     series_sum (values reads) = Ok (sum_over reads_of [Str "Acme"; Str "Birch"])).
Proof.
  split.
  - apply (proj1 (company_tab_totals sorted_cells sorted_cells_perm sorted_cells_mixed
                    company_readers ltac:(simpl; tauto) eq_refl) "Acme");
      simpl; tauto.
  - apply (proj2 (company_tab_totals sorted_cells sorted_cells_perm sorted_cells_mixed
                    named_company_readers ltac:(simpl; tauto) eq_refl)).
    vm_compute. reflexivity.
Defined.

(** ** The two loaders side by side *)

Lemma set_nth_app (i : nat) (v : cell) (l l' : list cell) :
  (i < List.length l)%nat -> set_nth i v (l ++ l') = set_nth i v l ++ l'.
Proof.
  revert l; induction i as [| i IH]; intros [| x l] H; simpl in *; try lia; auto.
  rewrite IH by lia. reflexivity.
Qed.

Lemma map_range_index (u : list cell -> list cell) (data : list (list cell)) :
  forall s,
    map (fun r => mkRow (label r) (u (cells r))) (range_index s data)
    = range_index s (map u data).
Proof.
  induction data as [| cs data IH]; simpl; intros s; auto.
  rewrite IH. reflexivity.
Qed.

Lemma map_flat_map {A B C : Type} (f : B -> C) (g : A -> list B) (l : list A) :
  map f (flat_map g l) = flat_map (fun a => map f (g a)) l.
Proof.
  induction l as [| a l IH]; simpl; auto. rewrite map_app, IH. reflexivity.
Qed.

Lemma flat_map_map {A B C : Type} (f : A -> B) (g : B -> list C) (l : list A) :
  flat_map g (map f l) = flat_map (fun a => g (f a)) l.
Proof.
  induction l as [| a l IH]; simpl; auto. rewrite IH. reflexivity.
Qed.

Lemma flat_map_ext_in {A B : Type} (f g : A -> list B) (l : list A) :
  (forall a, In a l -> f a = g a) -> flat_map f l = flat_map g l.
Proof.
  induction l as [| a l IH]; simpl; intros H; auto.
  rewrite (H a) by auto. rewrite IH by auto. reflexivity.
Qed.

Lemma setitem_existing (df : DataFrame) (c : string) (i : nat) (f : Row -> cell) :
  col_pos c (columns df) = Some i ->
  setitem df c (map f (rows df))
  = mkDataFrame (columns df)
      (map (fun r => mkRow (label r) (set_nth i (f r) (cells r))) (rows df)).
Proof.
  intros Hi. unfold setitem. rewrite Hi. f_equal.
  induction (rows df) as [| r rs IH]; simpl; auto. rewrite IH. reflexivity.
Qed.

Section LoadersAgree.
Variable parse : list cell -> cell -> option Timestamp.
Hypothesis parse_context_free : forall col col' c, parse col c = parse col' c.

Lemma to_datetime_cells (errors : errors_mode) (ctx : list cell) :
  forall (l out : list cell),
    mapM (to_datetime_cell parse errors ctx) l = Ok out ->
    out = map (coerce_cell parse) l.
Proof.
  induction l as [| c l IH]; simpl; intros out H.
  - inv_ok. subst. reflexivity.
  - apply bind_ok in H. destruct H as (d & Hd & H).
    apply bind_ok in H. destruct H as (ds & Hds & H). injection H as <-.
    rewrite (IH _ Hds). f_equal.
    unfold to_datetime_cell in Hd. unfold coerce_cell.
    destruct c; try (injection Hd as <-; reflexivity);
      rewrite (parse_context_free ctx []) in Hd;
      destruct (parse [] _); destruct errors;
      try discriminate; injection Hd as <-; reflexivity.
Qed.

(** Parsing a date column, whichever the mode, when it returns. *)
Lemma parse_date_column_rows (errors : errors_mode) (df df' : DataFrame) (c : string) :
  parse_date_column parse errors df c = Ok df' ->
  exists i,
    col_pos c (columns df) = Some i /\
    df' = mkDataFrame (columns df) (map (parse_row parse i) (rows df)).
Proof.
  unfold parse_date_column. intros H.
  apply bind_ok in H. destruct H as (s & Hs & H).
  apply bind_ok in H. destruct H as (parsed & Hp & H). injection H as <-.
  apply getitem_ok in Hs. destruct Hs as (i & Hi & ->).
  rewrite values_labelled in Hp.
  apply to_datetime_cells in Hp. subst parsed.
  exists i. split; [exact Hi |].
  rewrite map_map. apply (setitem_existing df c i (fun r => coerce_cell parse (at_pos i r)) Hi).
Qed.

(** Parsing the date of a joined row is joining the parsed row. *)
Lemma join_row_parsed (i ki kj : nat) (author : DataFrame) (l : Row) :
  i <> ki ->
  (i < List.length (cells l))%nat ->
  map (fun cs => set_nth i (coerce_cell parse (nth i cs NA)) cs) (join_row ki kj author l)
  = join_row ki kj author (parse_row parse i l).
Proof.
  intros Hne Hlen. unfold join_row, parse_row, matches, at_pos. cbn [cells].
  rewrite (set_nth_other i ki) by exact Hne.
  destruct (filter _ (rows author)) as [| r rs].
  - cbn [map]. rewrite app_nth1, set_nth_app by exact Hlen. reflexivity.
  - rewrite map_map. apply map_ext. intros r'.
    rewrite app_nth1, set_nth_app by exact Hlen. reflexivity.
Qed.

(** The two loaders return the same joined frame.  Whenever the basic
    dashboard's loader returns, which takes every date to parse, the master
    loader returns as well (given the readers' access-date column it also
    touches), and its joined frame is the same: parsing the dates before the
    join or after it makes no difference.  Stated for a parser whose verdict
    on a value does not depend on the column, and an article table with one
    cell per column in each row. *)
Theorem loaders_return_the_same_join :
  forall readers articles authors rd merged : DataFrame,
    well_formed (strip_columns articles) = true ->
    In "Date" (columns (strip_columns articles)) ->
    In "Last Access Date" (columns (strip_columns readers)) ->
    App.load_data parse readers articles authors = Ok (rd, merged) ->
    exists rd', Master.load_data parse readers articles authors = Ok (rd', merged).
Proof.
  intros readers articles authors rd merged Hwf Hdate Hlad H.
  unfold App.load_data in H.
  apply bind_ok in H. destruct H as (m0 & Hjoin & H).
  apply bind_ok in H. destruct H as (m1 & Hparse & H). injection H as _ <-.
  set (A := strip_columns articles) in *.
  set (AU := strip_columns authors) in *.
  (* the basic loader: join, then parse *)
  destruct (parse_date_column_rows _ _ _ _ Hparse) as (i' & Hi' & ->).
  destruct (join_authors_date _ _ _ Hjoin Hdate (col_pos_Some_In _ _ _ Hi'))
    as (i & Hi & Hmi).
  rewrite Hi' in Hmi. injection Hmi as ->.
  pose proof Hjoin as Hj. unfold Master.join_authors in Hj.
  apply bind_ok in Hj. destruct Hj as (j0 & Hmerge & Hj). injection Hj as <-.
  destruct (merge_left_columns _ _ _ _ _ _ Hmerge) as (ki & kj & Hki & Hkj & Hcols & Hrows).
  (* the master loader: parse, then join *)
  destruct (parse_date_column_coerce_defined parse (strip_columns readers)
              "Last Access Date" Hlad) as (rd' & Hrd' & _).
  destruct (parse_date_column_coerce_defined parse A "Date" Hdate) as (a1 & Ha1 & _).
  destruct (parse_date_column_rows _ _ _ _ Ha1) as (i2 & Hi2 & Ea1).
  rewrite Hi in Hi2. injection Hi2 as <-.
  exists rd'. unfold Master.load_data. fold A AU.
  rewrite Hrd'. cbn [bind]. rewrite Ha1. cbn [bind].
  unfold Master.join_authors, merge_left. rewrite Ea1. cbn [columns rows].
  rewrite Hki, Hkj. cbn [bind]. f_equal. f_equal.
  unfold rename. cbn [columns rows]. rewrite Hcols, Hrows. cbn zeta. f_equal.
  (* rows *)
  assert (Hne : i <> ki).
  { intros ->. apply col_pos_nth in Hi, Hki. rewrite Hi in Hki. discriminate. }
  rewrite flat_map_map.
  rewrite <- (flat_map_ext_in
                (fun l => map (fun cs => set_nth i (coerce_cell parse (nth i cs NA)) cs)
                              (join_row ki kj AU l))).
  - rewrite <- map_flat_map. symmetry.
    apply (map_range_index
             (fun cs => set_nth i (coerce_cell parse (nth i cs NA)) cs)).
  - intros l Hl. apply join_row_parsed; [exact Hne |].
    rewrite (well_formed_spec A l Hwf Hl). eapply col_pos_bound; eauto.
Qed.
End LoadersAgree.

Lemma iso_parse_context_free :
  forall col col' c, iso_parse col c = iso_parse col' c.
Proof. reflexivity. Qed.

Lemma loaders_agree_witness :
  exists rd',
    Master.load_data iso_parse sample_readers parsable_articles sample_authors
    = Ok (rd', parsable_merged).
Proof.
  apply (loaders_return_the_same_join iso_parse iso_parse_context_free
           sample_readers parsable_articles sample_authors
           (strip_columns sample_readers) parsable_merged).
  - reflexivity.
  - simpl. tauto.
  - simpl. tauto.
  - vm_compute. reflexivity.
Defined.

(** ** Top-N selections *)

Lemma strongly_sorted_app {A : Type} (R : A -> A -> Prop) (l1 l2 : list A) :
  StronglySorted R (l1 ++ l2) ->
  StronglySorted R l1 /\ forall x y, In x l1 -> In y l2 -> R x y.
Proof.
  induction l1 as [| a l1 IH]; simpl; intros H.
  - split; [constructor | intros x y []].
  - inversion H as [| b l Hs Hall]; subst.
    destruct (IH Hs) as [Hs1 Hcross]. rewrite Forall_app in Hall.
    destruct Hall as [Ha1 Ha2]. split.
    + constructor; auto.
    + intros x y [<- | Hx] Hy; [| auto].
      rewrite Forall_forall in Ha2. auto.
Qed.

Lemma insert_desc_perm {A : Type} (key : A -> Z) (x : A) (l : list A) :
  Permutation (insert_desc key x l) (x :: l).
Proof.
  induction l as [| y l IH]; simpl; auto.
  destruct (key y <=? key x); auto.
  rewrite IH. apply perm_swap.
Qed.

Lemma stable_sort_desc_perm (A : Type) (key : A -> Z) (l : list A) :
  Permutation (stable_sort_desc A key l) l.
Proof.
  induction l as [| x l IH]; simpl; auto.
  rewrite insert_desc_perm. auto.
Qed.

Lemma insert_desc_sorted {A : Type} (key : A -> Z) (x : A) (l : list A) :
  Sorted (fun a b => key b <= key a) l ->
  Sorted (fun a b => key b <= key a) (insert_desc key x l).
Proof.
  induction 1 as [| y l Hs IH Hhd]; simpl.
  - repeat constructor.
  - destruct (Z.leb_spec (key y) (key x)).
    + repeat constructor; auto.
    + constructor; auto.
      destruct l as [| z l]; simpl in *.
      * repeat constructor. lia.
      * destruct (key z <=? key x); constructor; [lia |].
        inversion Hhd; auto.
Qed.

Lemma stable_sort_desc_sorted (A : Type) (key : A -> Z) (l : list A) :
  Sorted (fun a b => key b <= key a) (stable_sort_desc A key l).
Proof.
  induction l as [| x l IH]; simpl; [constructor | apply insert_desc_sorted; auto].
Qed.

(** A list of numbers has one descending arrangement. *)
Lemma sorted_desc_unique (l1 l2 : list Z) :
  Sorted (fun a b => b <= a) l1 -> Sorted (fun a b => b <= a) l2 ->
  Permutation l1 l2 -> l1 = l2.
Proof.
  intros H1 H2.
  apply Sorted_StronglySorted in H1; [| intros a b c Hab Hbc; lia].
  apply Sorted_StronglySorted in H2; [| intros a b c Hab Hbc; lia].
  revert l2 H2. induction H1 as [| a l1 Hs IH Ha]; intros l2 H2 Hp.
  - apply Permutation_nil in Hp. auto.
  - destruct H2 as [| b l2 Hs2 Hb].
    + apply Permutation_sym, Permutation_nil in Hp. discriminate.
    + assert (E : a = b).
      { rewrite Forall_forall in Ha, Hb.
        assert (Hx : In a (b :: l2)) by (apply (Permutation_in _ Hp); simpl; auto).
        assert (Hy : In b (a :: l1))
          by (apply (Permutation_in _ (Permutation_sym Hp)); simpl; auto).
        simpl in Hx, Hy. destruct Hx as [Hx | Hx]; auto.
        destruct Hy as [Hy | Hy]; auto.
        specialize (Ha _ Hy). specialize (Hb _ Hx). lia. }
      subst b. f_equal. apply IH; auto. eapply Permutation_cons_inv; eauto.
Qed.

Lemma sorted_map_key {A : Type} (key : A -> Z) (l : list A) :
  Sorted (fun a b => key b <= key a) l ->
  Sorted (fun x y => y <= x) (map key l).
Proof.
  induction 1 as [| a l Hs IH Hhd]; simpl; constructor; auto.
  destruct Hhd; simpl; constructor; auto.
Qed.

(** Two descending arrangements of the same entries list the same keys. *)
Lemma sorted_keys_agree {A B : Type} (f : A -> Z) (g : B -> Z)
  (l1 : list A) (l2 : list B) :
  Sorted (fun a b => f b <= f a) l1 ->
  Sorted (fun a b => g b <= g a) l2 ->
  Permutation (map f l1) (map g l2) ->
  map f l1 = map g l2.
Proof.
  intros H1 H2 Hp. apply sorted_desc_unique; auto using sorted_map_key.
Qed.

Lemma total_perm (l1 l2 : list (cell * Z)) :
  Permutation l1 l2 -> total l1 = total l2.
Proof.
  unfold total. induction 1; simpl; lia.
Qed.

Lemma total_counts (f : cell -> Z) (keys : list cell) :
  total (map (fun k => (k, f k)) keys) = sum_over f keys.
Proof. apply fold_sums. Qed.

(** The counts of the distinct values add up to the number of non-null
    cells. *)
Lemma occurrences_total (col : list cell) :
  sum_over (fun k => occurrences k col) (unique (filter notna col))
  = Z.of_nat (List.length (filter notna col)).
Proof.
  rewrite <- (nansum_ones (filter notna col)).
  rewrite <- (sum_by_key (fun a => a) (fun _ => Some 1)
                (unique (filter notna col)) (filter notna col)).
  - apply sum_over_ext. intros k Hk. rewrite nansum_ones. unfold occurrences.
    rewrite filter_filter_sub; [reflexivity |].
    intros a Ha. apply cell_eqb_eq in Ha. subst a.
    apply unique_In, filter_In in Hk. tauto.
  - apply unique_NoDup.
  - intros a Ha. apply unique_In. exact Ha.
Qed.

Lemma occurrences_pos (k : cell) (col : list cell) :
  In k col -> 0 < occurrences k col.
Proof.
  intros Hk. unfold occurrences.
  assert (Hne : In k (filter (fun c => cell_eqb c k) col)).
  { apply filter_In. split; auto. apply cell_eqb_refl. }
  destruct (filter (fun c => cell_eqb c k) col); [contradiction |].
  simpl List.length. lia.
Qed.

Lemma notna_neq (k : cell) : notna k = true <-> k <> NA.
Proof.
  destruct k; simpl; split; intros H; try congruence; auto; discriminate.
Qed.

Lemma groupby_sum_form (keys vals : list cell) (s : list (cell * Z)) :
  groupby_sum keys vals = Ok s ->
  exists f, s = map (fun k => (k, f k)) (group_keys keys).
Proof.
  unfold groupby_sum. intros H. apply bind_ok in H.
  destruct H as (n & _ & H). injection H as <-.
  exists (fun k => nansum (group_values k (combine keys n))). reflexivity.
Qed.

(** A column is made of its non-null cells and its missing ones. *)
Lemma missing_split (col : list cell) :
  Z.of_nat (List.length (filter notna col)) + occurrences NA col
  = Z.of_nat (List.length col).
Proof.
  unfold occurrences.
  assert (H : (List.length (filter notna col)
               + List.length (filter (fun c => cell_eqb c NA) col)
               = List.length col)%nat).
  { induction col as [| c l IH]; [reflexivity |].
    cbn [filter]. destruct c; cbn [notna isna negb cell_eqb List.length]; lia. }
  lia.
Qed.

Section RankingFacts.
Variable sort_values_desc : forall A : Type, (A -> Z) -> list A -> list A.
Hypothesis sort_perm :
  forall (A : Type) (key : A -> Z) (l : list A),
    Permutation (sort_values_desc A key l) l.
Hypothesis sort_sorted :
  forall (A : Type) (key : A -> Z) (l : list A),
    Sorted (fun a b => key b <= key a) (sort_values_desc A key l).
Variable order_desc : list (cell * Z) -> list (cell * Z).
Hypothesis order_perm : forall l, Permutation (order_desc l) l.
Hypothesis order_sorted :
  forall l, Sorted (fun a b => snd b <= snd a) (order_desc l).

(** [nlargest n] takes [n] entries, or all when there are fewer; they are in
    descending order and none of the entries left out is greater than one
    taken. *)
Lemma nlargest_spec (n : nat) (s : list (cell * Z)) :
  List.length (nlargest order_desc n s) = Nat.min n (List.length s) /\
  Sorted (fun a b => snd b <= snd a) (nlargest order_desc n s) /\
  exists rest,
    Permutation s (nlargest order_desc n s ++ rest) /\
    forall x y, In x (nlargest order_desc n s) -> In y rest -> snd y <= snd x.
Proof.
  unfold nlargest.
  assert (Hss : StronglySorted (fun a b : cell * Z => snd b <= snd a) (order_desc s)).
  { apply Sorted_StronglySorted; [| apply order_sorted].
    intros a b c Hab Hbc. lia. }
  rewrite <- (firstn_skipn n (order_desc s)) in Hss.
  destruct (strongly_sorted_app _ _ _ Hss) as [Hs1 Hcross].
  split; [| split].
  - rewrite length_firstn. rewrite (Permutation_length (order_perm s)). reflexivity.
  - apply StronglySorted_Sorted. exact Hs1.
  - exists (skipn n (order_desc s)). split; [| exact Hcross].
    rewrite firstn_skipn. apply Permutation_sym, order_perm.
Qed.

(** [value_counts] lists each distinct non-null value once, with the number
    of its occurrences, greatest first. *)
Lemma value_counts_spec (col : list cell) :
  Permutation (value_counts sort_values_desc col)
              (map (fun k => (k, occurrences k col)) (unique (filter notna col))) /\
  Sorted (fun a b => snd b <= snd a) (value_counts sort_values_desc col) /\
  NoDup (map fst (value_counts sort_values_desc col)) /\
  (forall k v, In (k, v) (value_counts sort_values_desc col) <->
               k <> NA /\ In k col /\ v = occurrences k col) /\
  total (value_counts sort_values_desc col) = Z.of_nat (List.length (filter notna col)).
Proof.
  assert (Hp : Permutation (value_counts sort_values_desc col)
                 (map (fun k => (k, occurrences k col)) (unique (filter notna col))))
    by apply sort_perm.
  split; [exact Hp |]. split; [apply sort_sorted |]. split; [| split].
  - eapply Permutation_NoDup.
    + apply Permutation_map, Permutation_sym, Hp.
    + rewrite map_map. simpl. rewrite map_id. apply unique_NoDup.
  - intros k v. split.
    + intros Hin. apply (Permutation_in _ Hp) in Hin.
      apply in_map_iff in Hin. destruct Hin as (k0 & E & Hk0). injection E as -> <-.
      apply unique_In, filter_In in Hk0. destruct Hk0 as [Hk Hna].
      apply notna_neq in Hna. auto.
    + intros (Hna & Hk & ->). apply (Permutation_in _ (Permutation_sym Hp)).
      apply in_map_iff. exists k. split; auto.
      apply unique_In, filter_In. split; auto. apply notna_neq. exact Hna.
  - rewrite (total_perm _ _ Hp), total_counts. apply occurrences_total.
Qed.

(** The frequency top-N of a column: at most [n] distinct non-null values
    with their counts, greatest count first; a value left out occurs no
    more often than one listed; and when the column has no more than [n]
    distinct values all of them are listed, with nothing added. *)
Theorem frequency_top_spec :
  forall (view : DataFrame) (c : string) (n : nat) (top : list (cell * Z)),
    Master.frequency_top sort_values_desc order_desc view c n = Ok top ->
    exists col,
      getitem view c = Ok col /\
      List.length top = Nat.min n (List.length (unique (filter notna (values col)))) /\
      (forall k v, In (k, v) top ->
         k <> NA /\ In k (values col) /\ v = occurrences k (values col) /\ 0 < v) /\
      NoDup (map fst top) /\
      Sorted (fun a b => snd b <= snd a) top /\
      (forall k k' v', In k (values col) -> k <> NA -> ~ In k (map fst top) ->
         In (k', v') top -> occurrences k (values col) <= v') /\
      ((List.length (unique (filter notna (values col))) <= n)%nat ->
       forall k, In k (values col) -> k <> NA -> In k (map fst top)).
Proof.
  unfold Master.frequency_top. intros view c n top H.
  apply bind_ok in H. destruct H as (col & Hcol & H). injection H as <-.
  exists col. split; [exact Hcol |].
  destruct (value_counts_spec (values col)) as (Hvc & _ & Hnd & Hin & _).
  destruct (nlargest_spec n (value_counts sort_values_desc (values col)))
    as (Hlen & Hsorted & rest & Hperm & Hdom).
  set (vc := value_counts sort_values_desc (values col)) in *.
  set (top := nlargest order_desc n vc) in *.
  assert (Hlenvc : List.length vc
                   = List.length (unique (filter notna (values col)))).
  { rewrite (Permutation_length Hvc). apply length_map. }
  split; [| split; [| split; [| split; [| split]]]].
  - rewrite Hlen, Hlenvc. reflexivity.
  - intros k v Hk.
    assert (Hc : In (k, v) vc).
    { apply (Permutation_in _ (Permutation_sym Hperm)). apply in_or_app. auto. }
    apply Hin in Hc. destruct Hc as (Hna & Hkc & ->).
    repeat split; auto. apply occurrences_pos. exact Hkc.
  - assert (Hnd' : NoDup (map fst (top ++ rest))).
    { eapply Permutation_NoDup; [apply Permutation_map; exact Hperm | exact Hnd]. }
    rewrite map_app in Hnd'. eapply NoDup_app_remove_r; eauto.
  - exact Hsorted.
  - intros k k' v' Hk Hna Hout Hin'.
    assert (Hc : In (k, occurrences k (values col)) (top ++ rest)).
    { apply (Permutation_in _ Hperm). apply Hin. auto. }
    apply in_app_or in Hc. destruct Hc as [Hc | Hc].
    + exfalso. apply Hout. apply in_map_iff.
      exists (k, occurrences k (values col)). auto.
    + apply (Hdom (k', v') (k, occurrences k (values col)) Hin' Hc).
  - intros Hfew k Hk Hna.
    assert (Hrest : rest = []).
    { pose proof (Permutation_length Hperm) as Hl.
      rewrite length_app, Hlen, Hlenvc in Hl.
      destruct rest; auto. simpl in Hl. lia. }
    subst rest. rewrite app_nil_r in Hperm.
    apply in_map_iff. exists (k, occurrences k (values col)). split; auto.
    apply (Permutation_in _ Hperm). apply Hin. auto.
Qed.

(** The Top Authors chart shows at most ten authors, in descending order of
    their summed reads, and no author left out has more reads than one
    shown. *)
Theorem top_authors_spec :
  forall view top : DataFrame,
    Master.top_authors order_desc view = Ok top ->
    exists sums chosen rest,
      Master.reads_by_author view = Ok sums /\
      top = reset_index "Author Name" "Article Reads" chosen /\
      List.length chosen = Nat.min 10 (List.length sums) /\
      len top <= 10 /\
      Sorted (fun a b => snd b <= snd a) chosen /\
      Permutation sums (chosen ++ rest) /\
      forall x y, In x chosen -> In y rest -> snd y <= snd x.
Proof.
  unfold Master.top_authors. intros view top H.
  apply bind_ok in H. destruct H as (sums & Hsums & H). injection H as <-.
  destruct (nlargest_spec 10 sums) as (Hlen & Hsorted & rest & Hperm & Hdom).
  exists sums, (nlargest order_desc 10 sums), rest.
  repeat split; auto.
  unfold len, reset_index. cbn [rows].
  rewrite range_index_length, length_map, Hlen. lia.
Qed.

(** The Country Breakdown sheet lists each country of the view once, with
    the number of its readers, greatest first; the counts add up to the
    number of readers that have a country, so with the readers that have
    none they make up the view. *)
Theorem country_breakdown_counts :
  forall readers sheet : DataFrame,
    Master.country_breakdown sort_values_desc readers = Ok sheet ->
    exists col counts,
      getitem readers "Country" = Ok col /\
      sheet = reset_index "Country" "Reader Count" counts /\
      NoDup (map fst counts) /\
      Sorted (fun a b => snd b <= snd a) counts /\
      (forall k v, In (k, v) counts <->
                   k <> NA /\ In k (values col) /\ v = occurrences k (values col)) /\
      total counts + occurrences NA (values col) = len readers.
Proof.
  unfold Master.country_breakdown. intros readers sheet H.
  apply bind_ok in H. destruct H as (col & Hcol & H).
  unfold set_columns in H. simpl in H. injection H as <-.
  destruct (value_counts_spec (values col)) as (_ & Hs & Hnd & Hin & Htot).
  exists col, (value_counts sort_values_desc (values col)).
  split; [exact Hcol |]. split; [reflexivity |].
  split; [exact Hnd |]. split; [exact Hs |]. split; [exact Hin |].
  rewrite Htot. unfold len.
  assert (Hl : List.length (rows readers) = List.length (values col)).
  { unfold getitem in Hcol. destruct (col_pos "Country" (columns readers));
      [| discriminate]. injection Hcol as <-. unfold values.
    rewrite !length_map. reflexivity. }
  rewrite Hl. apply missing_split.
Qed.
End RankingFacts.

(** ** The author table, the report sheets and the video chart *)

Lemma sum_of_perm {A : Type} (f : A -> Z) (l1 l2 : list A) :
  Permutation l1 l2 -> sum_of f l1 = sum_of f l2.
Proof.
  unfold sum_of. induction 1; simpl; lia.
Qed.

Lemma sum_of_map {A B : Type} (f : B -> Z) (g : A -> B) (l : list A) :
  sum_of f (map g l) = sum_of (fun a => f (g a)) l.
Proof.
  unfold sum_of. induction l as [| a l IH]; simpl; [reflexivity | rewrite IH; reflexivity].
Qed.

Lemma occurrences_In (k : cell) (col : list cell) :
  0 < occurrences k col -> In k col.
Proof.
  unfold occurrences. intros H.
  destruct (filter (fun c => cell_eqb c k) col) as [| c l] eqn:E;
    [simpl in H; lia |].
  assert (Hc : In c (filter (fun c => cell_eqb c k) col)) by (rewrite E; simpl; auto).
  apply filter_In in Hc. destruct Hc as [Hc Heq].
  apply cell_eqb_eq in Heq. subst c. exact Hc.
Qed.

Lemma key_of_pos (df : DataFrame) (c : string) (i : nat) (r : Row) :
  col_pos c (columns df) = Some i -> key_of df c r = at_pos i r.
Proof.
  intros H. unfold key_of. rewrite H. reflexivity.
Qed.

(** The rows of a reset group-by result paired with their values. *)
Lemma keyed_rows_value (sums : list (cell * Z)) :
  forall (s : Z) (row : Row) (v : Z),
    In (row, v) (combine (range_index s (map (fun kv => [fst kv; Num (snd kv)]) sums))
                         (map snd sums)) ->
    at_pos 1 row = Num v.
Proof.
  induction sums as [| kv sums IH]; simpl; intros s row v H; [contradiction |].
  destruct H as [H | H]; [injection H as <- <-; reflexivity | eauto].
Qed.

Lemma keyed_rows_values (sums : list (cell * Z)) :
  forall s : Z,
    map snd (combine (range_index s (map (fun kv => [fst kv; Num (snd kv)]) sums))
                     (map snd sums))
    = map snd sums.
Proof.
  induction sums as [| kv sums IH]; simpl; intros s; [reflexivity |].
  rewrite IH. reflexivity.
Qed.

(** The author statistics before sorting: one record per named author, in
    the order of the names, its reads those of the group-by sum. *)
Lemma author_stats_form (view : DataFrame) (stats : list Master.AuthorStats) :
  Master.author_stats view = Ok stats ->
  exists (j i : nat) (R H P : cell -> Z),
    col_pos "Author Name" (columns view) = Some j /\
    col_pos "Article Id" (columns view) = Some i /\
    Master.reads_by_author view
    = Ok (map (fun k => (k, R k)) (group_keys (map (at_pos j) (rows view)))) /\
    stats
    = map (fun k =>
             Master.mkAuthorStats k
               (count_rows (fun r => cell_eqb (at_pos j r) k && notna (at_pos i r)) view)
               (R k) (H k) (P k))
          (group_keys (map (at_pos j) (rows view))).
Proof.
  unfold Master.author_stats. intros Hs.
  apply bind_ok in Hs. destruct Hs as (names & Hnames & Hs).
  apply bind_ok in Hs. destruct Hs as (ids & Hids & Hs).
  apply bind_ok in Hs. destruct Hs as (reads & Hreads & Hs).
  apply bind_ok in Hs. destruct Hs as (hist & Hhist & Hs).
  apply bind_ok in Hs. destruct Hs as (prof & Hprof & Hs).
  apply bind_ok in Hs. destruct Hs as (rs & Hrs & Hs).
  apply bind_ok in Hs. destruct Hs as (hs & Hhs & Hs).
  apply bind_ok in Hs. destruct Hs as (ps & Hps & Hs).
  injection Hs as <-.
  unfold getitem in Hnames, Hids.
  destruct (col_pos "Author Name" (columns view)) as [j |] eqn:Hj; [| discriminate].
  destruct (col_pos "Article Id" (columns view)) as [i |] eqn:Hi; [| discriminate].
  injection Hnames as <-. injection Hids as <-.
  rewrite !values_labelled in *.
  destruct (groupby_sum_form _ _ _ Hrs) as [R HR].
  destruct (groupby_sum_form _ _ _ Hhs) as [H HH].
  destruct (groupby_sum_form _ _ _ Hps) as [P HP].
  exists j, i, R, H, P. split; [reflexivity |]. split; [reflexivity |]. split.
  - assert (Hn : getitem view "Author Name"
                 = Ok (map (fun r => (label r, at_pos j r)) (rows view)))
      by (unfold getitem; rewrite Hj; reflexivity).
    unfold Master.reads_by_author. rewrite Hn. cbn [bind].
    rewrite Hreads. cbn [bind]. rewrite values_labelled, Hrs, HR. reflexivity.
  - subst rs hs ps. unfold groupby_count.
    rewrite !combine_map, map_map. apply map_ext. intros k. cbn [fst snd].
    f_equal. unfold count_rows.
    rewrite filter_map_length. reflexivity.
Qed.

Section TableFacts.
Variable sort_values_desc : forall A : Type, (A -> Z) -> list A -> list A.
Hypothesis sort_perm :
  forall (A : Type) (key : A -> Z) (l : list A),
    Permutation (sort_values_desc A key l) l.
Hypothesis sort_sorted :
  forall (A : Type) (key : A -> Z) (l : list A),
    Sorted (fun a b => key b <= key a) (sort_values_desc A key l).
Variable order_desc : list (cell * Z) -> list (cell * Z).
Hypothesis order_perm : forall l, Permutation (order_desc l) l.
Hypothesis order_sorted :
  forall l, Sorted (fun a b => snd b <= snd a) (order_desc l).

(** The author table has one row per named author of the view, greatest
    reads first; its reads are the sums the Top Authors chart ranks; the
    Articles of an author count the author's rows that have an article
    identifier, and over the table they add up to the rows of the view that
    have both an author name and an identifier. *)
Theorem author_summary_spec :
  forall view table : DataFrame,
    Master.author_summary sort_values_desc view = Ok table ->
    exists (stats : list Master.AuthorStats) (sums : list (cell * Z)),
      table = mkDataFrame
                ["Author Name"; "Articles"; "Article Reads"; "Historic Reads";
                 "Profile Views"]
                (range_index 0 (map Master.stats_row stats)) /\
      Master.reads_by_author view = Ok sums /\
      Permutation
        (map (fun s => (Master.author_name s, Master.article_reads s)) stats) sums /\
      Sorted (fun a b => Master.article_reads b <= Master.article_reads a) stats /\
      NoDup (map Master.author_name stats) /\
      (forall s, In s stats ->
         Master.author_name s <> NA /\
         Master.articles s
         = count_rows (fun r => cell_eqb (key_of view "Author Name" r)
                                         (Master.author_name s)
                                && notna (key_of view "Article Id" r)) view) /\
      sum_of Master.articles stats
      = count_rows (fun r => notna (key_of view "Author Name" r)
                             && notna (key_of view "Article Id" r)) view.
Proof.
  unfold Master.author_summary. intros view table Ht.
  apply bind_ok in Ht. destruct Ht as (stats0 & Hstats & Ht). injection Ht as <-.
  destruct (author_stats_form _ _ Hstats) as (j & i & R & H & P & Hj & Hi & Hsums & Hform).
  set (G := group_keys (map (at_pos j) (rows view))) in *.
  set (C := fun k => count_rows
                       (fun r => cell_eqb (at_pos j r) k && notna (at_pos i r)) view) in *.
  pose proof (sort_perm Master.AuthorStats Master.article_reads stats0) as Hp.
  set (stats := sort_values_desc Master.AuthorStats Master.article_reads stats0) in *.
  exists stats, (map (fun k => (k, R k)) G).
  split; [reflexivity |]. split; [exact Hsums |].
  split; [| split; [| split; [| split]]].
  - eapply Permutation_trans; [apply Permutation_map; exact Hp |].
    rewrite Hform, map_map. apply Permutation_refl.
  - apply sort_sorted.
  - eapply Permutation_NoDup.
    + apply Permutation_map, Permutation_sym, Hp.
    + rewrite Hform, map_map. cbn [Master.author_name]. rewrite map_id.
      apply group_keys_NoDup.
  - intros s Hs. apply (Permutation_in _ Hp) in Hs. rewrite Hform in Hs.
    apply in_map_iff in Hs. destruct Hs as (k & <- & Hk).
    cbn [Master.author_name Master.articles]. split.
    + intros E. subst k. apply (group_keys_notna _ Hk).
    + unfold C, count_rows. f_equal. f_equal. apply filter_ext. intros r.
      rewrite (key_of_pos view _ j r Hj), (key_of_pos view _ i r Hi). reflexivity.
  - rewrite (sum_of_perm _ _ _ Hp), Hform, sum_of_map. cbn [Master.articles].
    change (sum_of (fun k => C k) G) with (sum_over C G).
    set (named := filter (fun r => notna (at_pos j r) && notna (at_pos i r)) (rows view)).
    transitivity (Z.of_nat (List.length named)).
    2: { unfold count_rows, named. f_equal. f_equal. apply filter_ext. intros r.
         rewrite (key_of_pos view _ j r Hj), (key_of_pos view _ i r Hi). reflexivity. }
    rewrite <- (nansum_ones named).
    rewrite <- (sum_by_key (at_pos j) (fun _ => Some 1) G named).
    + apply sum_over_ext. intros k Hk. rewrite nansum_ones.
      unfold C, count_rows, named. f_equal. f_equal.
      rewrite <- filter_andb. apply filter_ext. intros r.
      destruct (cell_eqb (at_pos j r) k) eqn:E; simpl.
      * apply cell_eqb_eq in E.
        assert (Hna : notna (at_pos j r) = true).
        { rewrite E. apply notna_neq. intros E'. rewrite E' in Hk.
          apply (group_keys_notna _ Hk). }
        rewrite Hna. simpl. rewrite andb_true_r. reflexivity.
      * rewrite andb_false_r. reflexivity.
    + apply group_keys_NoDup.
    + intros r Hr. unfold named in Hr. apply filter_In in Hr.
      destruct Hr as [Hr Hna]. apply andb_true_iff in Hna. destruct Hna as [Hna _].
      apply group_keys_In. split; [apply in_map; exact Hr |].
      apply notna_neq. exact Hna.
Qed.

(** The reads the Top Authors chart shows are the reads of the first ten
    rows of the author table, in the same order, whichever way the two
    sorts arrange authors with equal reads. *)
Theorem chart_shows_head_of_author_table :
  forall view chart table : DataFrame,
    Master.top_authors order_desc view = Ok chart ->
    Master.author_summary sort_values_desc view = Ok table ->
    exists c t : Series Z,
      getitem chart "Article Reads" = Ok c /\
      getitem table "Article Reads" = Ok t /\
      values c = firstn 10 (values t).
Proof.
  unfold Master.top_authors, Master.author_summary. intros view chart table Hc Ht.
  apply bind_ok in Hc. destruct Hc as (sums & Hsums & Hc). injection Hc as <-.
  apply bind_ok in Ht. destruct Ht as (stats0 & Hstats & Ht). injection Ht as <-.
  destruct (author_stats_form _ _ Hstats) as (j & i & R & H & P & _ & _ & Hsums' & Hform).
  rewrite Hsums in Hsums'. injection Hsums' as Hs.
  set (G := group_keys (map (at_pos j) (rows view))) in *.
  eexists. eexists. split; [reflexivity |]. split; [reflexivity |].
  rewrite !values_labelled. cbn [rows reset_index].
  rewrite !at_pos_range_index, !map_map. cbn [nth Master.stats_row fst snd].
  unfold nlargest.
  rewrite <- (map_map snd Num), <- (map_map Master.article_reads Num).
  rewrite <- !firstn_map. f_equal. f_equal. f_equal.
  apply sorted_keys_agree; [apply order_sorted | apply sort_sorted |].
  eapply Permutation_trans; [apply Permutation_map, order_perm |].
  eapply Permutation_trans;
    [| apply Permutation_map, Permutation_sym, sort_perm].
  rewrite Hs, Hform, !map_map. apply Permutation_refl.
Qed.

(** The Top Authors sheet of the report is produced whenever the chart is,
    under the same column labels, and lists the same reads in the same
    order; the two can differ only in which of several authors with equal
    reads they show. *)
Theorem report_sheet_matches_chart :
  forall view chart : DataFrame,
    Master.top_authors order_desc view = Ok chart ->
    exists (sheet : DataFrame) (c r : Series Z),
      Master.report_top_authors sort_values_desc view = Ok sheet /\
      columns sheet = columns chart /\
      getitem chart "Article Reads" = Ok c /\
      getitem sheet "Article Reads" = Ok r /\
      values r = values c /\
      len sheet = len chart.
Proof.
  unfold Master.top_authors, Master.report_top_authors. intros view chart Hc.
  apply bind_ok in Hc. destruct Hc as (sums & Hsums & Hc). injection Hc as <-.
  rewrite Hsums. cbn [bind].
  set (keyed := combine (rows (reset_index "Author Name" "Article Reads" sums))
                        (map snd sums)).
  pose proof (sort_perm (Row * Z)%type snd keyed) as Hp.
  set (sorted := sort_values_desc (Row * Z)%type snd keyed) in *.
  assert (Hvals : map (at_pos 1) (firstn 10 (map fst sorted))
                  = map (at_pos 1)
                      (rows (reset_index "Author Name" "Article Reads"
                               (nlargest order_desc 10 sums)))).
  { cbn [rows reset_index]. rewrite at_pos_range_index, !map_map.
    cbn [nth fst snd]. unfold nlargest.
    rewrite <- firstn_map, map_map.
    rewrite <- (map_map snd Num (firstn 10 (order_desc sums))).
    rewrite <- !firstn_map.
    transitivity (firstn 10 (map Num (map snd sorted))).
    - f_equal. rewrite map_map. apply map_ext_in. intros [row v] Hin.
      apply (Permutation_in _ Hp) in Hin. cbn [fst snd].
      apply (keyed_rows_value sums 0 row v Hin).
    - f_equal. f_equal.
      apply sorted_keys_agree; [apply sort_sorted | apply order_sorted |].
      eapply Permutation_trans; [apply Permutation_map, Hp |].
      eapply Permutation_trans;
        [| apply Permutation_map, Permutation_sym, order_perm].
      unfold keyed. cbn [rows reset_index]. rewrite keyed_rows_values.
      apply Permutation_refl. }
  eexists. eexists. eexists.
  split; [reflexivity |]. split; [reflexivity |].
  split; [reflexivity |]. split; [reflexivity |]. split.
  - rewrite !values_labelled. exact Hvals.
  - unfold len. cbn [rows]. fold keyed. fold sorted.
    apply (f_equal (@List.length cell)) in Hvals. rewrite !length_map in Hvals.
    cbn [rows reset_index]. cbn [rows reset_index] in Hvals.
    rewrite Hvals. reflexivity.
Qed.

(** The video chart counts, for each author name, the articles whose tag
    cell is exactly [Video]: an article tagged with more than that, or with
    no author name, is counted for nobody, and the counts add up to the
    articles tagged [Video] that have an author name. *)
Theorem video_authors_counts :
  forall merged sheet : DataFrame,
    App.video_authors sort_values_desc merged = Ok sheet ->
    exists counts : list (cell * Z),
      sheet = reset_index "Author Name" "Video Count" counts /\
      NoDup (map fst counts) /\
      Sorted (fun a b => snd b <= snd a) counts /\
      (forall k v, In (k, v) counts <->
         k <> NA /\ 0 < v /\
         v = count_rows (fun r => cell_eqb (key_of merged "Mondaq Tags" r) (Str "Video")
                                  && cell_eqb (key_of merged "Author Name" r) k)
               merged) /\
      total counts
      = count_rows (fun r => cell_eqb (key_of merged "Mondaq Tags" r) (Str "Video")
                             && notna (key_of merged "Author Name" r)) merged.
Proof.
  unfold App.video_authors. intros merged sheet Hs.
  apply bind_ok in Hs. destruct Hs as (tags & Htags & Hs).
  apply bind_ok in Hs. destruct Hs as (a & Ha & Hs).
  unfold set_columns in Hs. simpl in Hs. injection Hs as <-.
  unfold getitem in Htags.
  destruct (col_pos "Mondaq Tags" (columns merged)) as [i |] eqn:Hi; [| discriminate].
  injection Htags as <-. rewrite values_labelled in Ha.
  unfold getitem in Ha. cbn [columns select] in Ha.
  destruct (col_pos "Author Name" (columns merged)) as [j |] eqn:Hj; [| discriminate].
  injection Ha as <-. rewrite values_labelled.
  set (video := fun r : Row => cell_eqb (at_pos i r) (Str "Video")).
  assert (Hrows : map fst
                    (filter (fun rb : Row * bool => snd rb)
                       (combine (rows merged)
                          (eq_scalar (Str "Video") (map (at_pos i) (rows merged)))))
                  = filter video (rows merged)).
  { unfold eq_scalar. rewrite map_map.
    rewrite <- (select_filter merged video). unfold select. cbn [rows].
    f_equal. f_equal. f_equal. apply map_ext. intros r. unfold video.
    destruct (at_pos i r); reflexivity. }
  rewrite Hrows.
  set (col := map (at_pos j) (filter video (rows merged))).
  destruct (value_counts_spec sort_values_desc sort_perm sort_sorted col)
    as (_ & Hsorted & Hnd & Hin & Htot).
  assert (Hocc : forall k,
            occurrences k col
            = count_rows (fun r => cell_eqb (key_of merged "Mondaq Tags" r) (Str "Video")
                                   && cell_eqb (key_of merged "Author Name" r) k)
                merged).
  { intros k. unfold occurrences, count_rows, col. f_equal.
    rewrite filter_map_length, <- filter_andb. f_equal.
    apply filter_ext. intros r.
    rewrite (key_of_pos merged _ i r Hi), (key_of_pos merged _ j r Hj). reflexivity. }
  exists (value_counts sort_values_desc col).
  split; [reflexivity |]. split; [exact Hnd |]. split; [exact Hsorted |]. split.
  - intros k v. rewrite Hin. split.
    + intros (Hna & Hk & ->). split; [exact Hna |].
      split; [apply occurrences_pos; exact Hk | apply Hocc].
    + intros (Hna & Hpos & ->). rewrite <- Hocc in *.
      split; [exact Hna |]. split; [apply occurrences_In; exact Hpos | reflexivity].
  - rewrite Htot. unfold count_rows, col. f_equal.
    rewrite filter_map_length, <- filter_andb. f_equal.
    apply filter_ext. intros r.
    rewrite (key_of_pos merged _ i r Hi), (key_of_pos merged _ j r Hj). reflexivity.
Qed.
End TableFacts.

Lemma stable_order_perm (l : list (cell * Z)) : Permutation (stable_order l) l.
Proof. apply stable_sort_desc_perm. Qed.

Lemma stable_order_sorted (l : list (cell * Z)) :
  Sorted (fun a b => snd b <= snd a) (stable_order l).
Proof. apply stable_sort_desc_sorted. Qed.

Lemma frequency_top_witness :
  exists col,
    getitem sample_reader_df "Country" = Ok col /\
    List.length sample_top_countries
    = Nat.min 10 (List.length (unique (filter notna (values col)))) /\
    (forall k v, In (k, v) sample_top_countries ->
       k <> NA /\ In k (values col) /\ v = occurrences k (values col) /\ 0 < v) /\
    NoDup (map fst sample_top_countries) /\
    Sorted (fun a b => snd b <= snd a) sample_top_countries /\
    (forall k k' v', In k (values col) -> k <> NA ->
       ~ In k (map fst sample_top_countries) ->
       In (k', v') sample_top_countries -> occurrences k (values col) <= v') /\
    ((List.length (unique (filter notna (values col))) <= 10)%nat ->
     forall k, In k (values col) -> k <> NA -> In k (map fst sample_top_countries)).
Proof.
  apply (frequency_top_spec stable_sort_desc stable_sort_desc_perm
           stable_sort_desc_sorted stable_order stable_order_perm
           stable_order_sorted sample_reader_df "Country" 10).
  vm_compute. reflexivity.
Defined.

Lemma top_authors_witness :
  exists sums chosen rest,
    Master.reads_by_author sample_merged_df = Ok sums /\
    sample_top_authors = reset_index "Author Name" "Article Reads" chosen /\
    List.length chosen = Nat.min 10 (List.length sums) /\
    len sample_top_authors <= 10 /\
    Sorted (fun a b => snd b <= snd a) chosen /\
    Permutation sums (chosen ++ rest) /\
    forall x y, In x chosen -> In y rest -> snd y <= snd x.
Proof.
  apply (top_authors_spec stable_order stable_order_perm stable_order_sorted
           sample_merged_df sample_top_authors).
  vm_compute. reflexivity.
Defined.

Lemma country_breakdown_witness :
  exists col counts,
    getitem sample_reader_df "Country" = Ok col /\
    sample_country_sheet = reset_index "Country" "Reader Count" counts /\
    NoDup (map fst counts) /\
    Sorted (fun a b => snd b <= snd a) counts /\
    (forall k v, In (k, v) counts <->
                 k <> NA /\ In k (values col) /\ v = occurrences k (values col)) /\
    total counts + occurrences NA (values col) = len sample_reader_df.
Proof.
  apply (country_breakdown_counts stable_sort_desc stable_sort_desc_perm
           stable_sort_desc_sorted sample_reader_df sample_country_sheet).
  vm_compute. reflexivity.
Defined.

Lemma author_summary_witness :
  exists (stats : list Master.AuthorStats) (sums : list (cell * Z)),
    sample_author_table
    = mkDataFrame
        ["Author Name"; "Articles"; "Article Reads"; "Historic Reads"; "Profile Views"]
        (range_index 0 (map Master.stats_row stats)) /\
    Master.reads_by_author sample_merged_df = Ok sums /\
    Permutation
      (map (fun s => (Master.author_name s, Master.article_reads s)) stats) sums /\
    Sorted (fun a b => Master.article_reads b <= Master.article_reads a) stats /\
    NoDup (map Master.author_name stats) /\
    (forall s, In s stats ->
       Master.author_name s <> NA /\
       Master.articles s
       = count_rows (fun r => cell_eqb (key_of sample_merged_df "Author Name" r)
                                       (Master.author_name s)
                              && notna (key_of sample_merged_df "Article Id" r))
           sample_merged_df) /\
    sum_of Master.articles stats
    = count_rows (fun r => notna (key_of sample_merged_df "Author Name" r)
                           && notna (key_of sample_merged_df "Article Id" r))
        sample_merged_df.
Proof.
  apply (author_summary_spec stable_sort_desc stable_sort_desc_perm
           stable_sort_desc_sorted sample_merged_df sample_author_table).
  vm_compute. reflexivity.
Defined.

Lemma chart_shows_head_witness :
  exists c t : Series Z,
    getitem sample_top_authors "Article Reads" = Ok c /\
    getitem sample_author_table "Article Reads" = Ok t /\
    values c = firstn 10 (values t).
Proof.
  apply (chart_shows_head_of_author_table stable_sort_desc stable_sort_desc_perm
           stable_sort_desc_sorted stable_order stable_order_perm
           stable_order_sorted sample_merged_df sample_top_authors
           sample_author_table).
  - vm_compute. reflexivity.
  - vm_compute. reflexivity.
Defined.

Lemma report_sheet_witness :
  exists (sheet : DataFrame) (c r : Series Z),
    Master.report_top_authors stable_sort_desc sample_merged_df = Ok sheet /\
    columns sheet = columns sample_top_authors /\
    getitem sample_top_authors "Article Reads" = Ok c /\
    getitem sheet "Article Reads" = Ok r /\
    values r = values c /\
    len sheet = len sample_top_authors.
Proof.
  apply (report_sheet_matches_chart stable_sort_desc stable_sort_desc_perm
           stable_sort_desc_sorted stable_order stable_order_perm
           stable_order_sorted sample_merged_df sample_top_authors).
  vm_compute. reflexivity.
Defined.

Lemma video_authors_witness :
  exists counts : list (cell * Z),
    sample_video_sheet = reset_index "Author Name" "Video Count" counts /\
    NoDup (map fst counts) /\
    Sorted (fun a b => snd b <= snd a) counts /\
    (forall k v, In (k, v) counts <->
       k <> NA /\ 0 < v /\
       v = count_rows
             (fun r => cell_eqb (key_of tagged_articles "Mondaq Tags" r) (Str "Video")
                       && cell_eqb (key_of tagged_articles "Author Name" r) k)
             tagged_articles) /\
    total counts
    = count_rows
        (fun r => cell_eqb (key_of tagged_articles "Mondaq Tags" r) (Str "Video")
                  && notna (key_of tagged_articles "Author Name" r))
        tagged_articles.
Proof.
  apply (video_authors_counts stable_sort_desc stable_sort_desc_perm
           stable_sort_desc_sorted tagged_articles sample_video_sheet).
  vm_compute. reflexivity.
Defined.

(** ** The Top Articles sheet *)

Lemma ts_leb_total (s t : Timestamp) : ts_leb s t = false -> ts_leb t s = true.
Proof.
  unfold ts_leb, ts_compare.
  rewrite (lex_compare_antisym (ts_fields s) (ts_fields t)).
  destruct (lex_compare (ts_fields s) (ts_fields t)); simpl; congruence.
Qed.

Lemma ts_leb_refl (t : Timestamp) : ts_leb t t = true.
Proof.
  unfold ts_leb, ts_compare. rewrite lex_compare_refl. reflexivity.
Qed.

Lemma ts_leb_trans (s t u : Timestamp) :
  ts_leb s t = true -> ts_leb t u = true -> ts_leb s u = true.
Proof.
  unfold ts_leb, ts_compare. intros Hst Htu.
  assert (H : lex_compare (ts_fields s) (ts_fields u) <> Gt).
  { apply lex_compare_le_trans with (b := ts_fields t).
    - destruct (lex_compare (ts_fields s) (ts_fields t)); congruence.
    - destruct (lex_compare (ts_fields t) (ts_fields u)); congruence. }
  destruct (lex_compare (ts_fields s) (ts_fields u)); congruence.
Qed.

(** The minimum is one of the timestamps and none is earlier; it is missing
    only when every timestamp is. *)
Lemma nanmin_spec (l : list (option Timestamp)) :
  match nanmin l with
  | Some m => In (Some m) l /\ forall t, In (Some t) l -> ts_leb m t = true
  | None => forall t, ~ In (Some t) l
  end.
Proof.
  induction l as [| [t |] l IH]; simpl.
  - intros t [].
  - destruct (nanmin l) as [m |].
    + destruct IH as [Hin Hle]. destruct (ts_leb t m) eqn:E.
      * split; [auto |]. intros t' [Ht | Ht].
        -- injection Ht as <-. apply ts_leb_refl.
        -- apply (ts_leb_trans t m t'); auto.
      * split; [auto |]. intros t' [Ht | Ht]; [| auto].
        injection Ht as <-. apply ts_leb_total. exact E.
    + split; [auto |]. intros t' [Ht | Ht].
      * injection Ht as <-. apply ts_leb_refl.
      * exfalso. apply (IH t'). exact Ht.
  - destruct (nanmin l) as [m |].
    + destruct IH as [Hin Hle]. split; [auto |].
      intros t [Ht | Ht]; [discriminate | auto].
    + intros t [Ht | Ht]; [discriminate | apply (IH t); exact Ht].
Qed.

Lemma group_cells_rows {V : Type} (K : Row -> cell) (g : Row -> V) (k : cell)
  (rs : list Row) :
  group_cells k (combine (map K rs) (map g rs))
  = map g (filter (fun r => cell_eqb (K r) k) rs).
Proof.
  unfold group_cells. rewrite combine_map.
  induction rs as [| r rs IH]; simpl; [reflexivity |].
  destruct (cell_eqb (K r) k); simpl; rewrite IH; reflexivity.
Qed.

Lemma datetime_rows (e : error) (g : Row -> cell) (rs : list Row)
  (stamps : list (option Timestamp)) :
  mapM (as_datetime e) (map g rs) = Ok stamps ->
  stamps = map (fun r => match g r with Time t => Some t | _ => None end) rs.
Proof.
  revert stamps.
  induction rs as [| r rs IH]; simpl; intros stamps H.
  - injection H as <-. reflexivity.
  - apply bind_ok in H. destruct H as (x & Hx & H).
    apply bind_ok in H. destruct H as (xs & Hxs & H). injection H as <-.
    rewrite (IH _ Hxs). f_equal.
    destruct (g r); simpl in Hx; try discriminate; injection Hx as <-; reflexivity.
Qed.

Lemma firstn_range_index (n : nat) (data : list (list cell)) :
  forall s, firstn n (range_index s data) = range_index s (firstn n data).
Proof.
  revert data. induction n as [| n IH]; intros [| cs data] s; simpl; auto.
  rewrite IH. reflexivity.
Qed.

Section ArticleSheet.
Variable sort_values_desc : forall A : Type, (A -> Z) -> list A -> list A.
Hypothesis sort_perm :
  forall (A : Type) (key : A -> Z) (l : list A),
    Permutation (sort_values_desc A key l) l.
Hypothesis sort_sorted :
  forall (A : Type) (key : A -> Z) (l : list A),
    Sorted (fun a b => key b <= key a) (sort_values_desc A key l).

(** The Top Articles sheet has one row per title, at most ten, greatest
    reads first, and no title left out has more reads than one shown.
    Articles that share a title are merged: the reads of the row are the
    sum over the title, its date is the earliest date any of them has
    (missing when none has one), and its author is the author name of the
    first of them that has one. *)
Theorem report_top_articles_spec :
  forall view sheet : DataFrame,
    Master.report_top_articles sort_values_desc view = Ok sheet ->
    exists (shown : list Master.ArticleStats) (sums : list (cell * Z)),
      sheet = mkDataFrame ["Title"; "Article Reads"; "Date"; "Author Name"]
                (range_index 0 (map Master.article_row shown)) /\
      groupby_sum (key_column view "Title") (key_column view "Article Reads")
      = Ok sums /\
      List.length shown = Nat.min 10 (List.length sums) /\
      NoDup (map Master.stats_title shown) /\
      Sorted (fun a b => Master.stats_reads b <= Master.stats_reads a) shown /\
      (forall s, In s shown -> In (Master.stats_title s, Master.stats_reads s) sums) /\
      (forall kv s, In kv sums -> ~ In (fst kv) (map Master.stats_title shown) ->
                    In s shown -> snd kv <= Master.stats_reads s) /\
      (forall s, In s shown ->
         Master.stats_author s
         = first_valid (map (key_of view "Author Name") (titled view (Master.stats_title s))) /\
         (Master.stats_date s = NA \/ exists m, Master.stats_date s = Time m) /\
         (forall m, Master.stats_date s = Time m ->
            exists r, In r (titled view (Master.stats_title s)) /\
                      key_of view "Date" r = Time m) /\
         (forall r t, In r (titled view (Master.stats_title s)) ->
            key_of view "Date" r = Time t ->
            exists m, Master.stats_date s = Time m /\ ts_leb m t = true)).
Proof.
  unfold Master.report_top_articles. intros view sheet Hs.
  apply bind_ok in Hs. destruct Hs as (stats0 & Hstats & Hs).
  assert (Hsheet :
            sheet
            = mkDataFrame ["Title"; "Article Reads"; "Date"; "Author Name"]
                (firstn 10
                   (range_index 0
                      (map Master.article_row
                         (sort_values_desc Master.ArticleStats Master.stats_reads
                            stats0))))) by congruence.
  clear Hs. subst sheet.
  unfold Master.article_stats in Hstats.
  apply bind_ok in Hstats. destruct Hstats as (titles & Htitles & Hstats).
  apply bind_ok in Hstats. destruct Hstats as (reads & Hreads & Hstats).
  apply bind_ok in Hstats. destruct Hstats as (dates & Hdates & Hstats).
  apply bind_ok in Hstats. destruct Hstats as (authors & Hauthors & Hstats).
  apply bind_ok in Hstats. destruct Hstats as (sums & Hsums & Hstats).
  apply bind_ok in Hstats. destruct Hstats as (stamps & Hstamps & Hstats).
  injection Hstats as Hform.
  unfold getitem in Htitles, Hreads, Hdates, Hauthors.
  destruct (col_pos "Title" (columns view)) as [jt |] eqn:Hjt; [| discriminate].
  destruct (col_pos "Article Reads" (columns view)) as [jr |] eqn:Hjr; [| discriminate].
  destruct (col_pos "Date" (columns view)) as [jd |] eqn:Hjd; [| discriminate].
  destruct (col_pos "Author Name" (columns view)) as [ja |] eqn:Hja; [| discriminate].
  injection Htitles as <-. injection Hreads as <-.
  injection Hdates as <-. injection Hauthors as <-.
  rewrite !values_labelled in *.
  apply datetime_rows in Hstamps. subst stamps.
  set (stamp := fun r : Row => match at_pos jd r with Time t => Some t | _ => None end) in *.
  set (group := fun k => filter (fun r => cell_eqb (at_pos jt r) k) (rows view)).
  set (f := fun kv : cell * Z =>
              Master.mkArticleStats (fst kv) (snd kv)
                (time_cell (nanmin (map stamp (group (fst kv)))))
                (first_valid (map (at_pos ja) (group (fst kv))))).
  assert (Hform' : stats0 = map f sums).
  { rewrite <- Hform. apply map_ext. intros kv. unfold f, group.
    rewrite !group_cells_rows. reflexivity. }
  clear Hform.
  assert (Htitled : forall k, titled view k = group k).
  { intros k. unfold titled, group. apply filter_ext. intros r.
    rewrite (key_of_pos view _ jt r Hjt). reflexivity. }
  destruct (groupby_sum_form _ _ _ Hsums) as [R HR].
  pose proof (sort_perm Master.ArticleStats Master.stats_reads stats0) as Hp.
  pose proof (sort_sorted Master.ArticleStats Master.stats_reads stats0) as Hsorted.
  set (sorted := sort_values_desc Master.ArticleStats Master.stats_reads stats0) in *.
  assert (Hss : StronglySorted
                  (fun a b => Master.stats_reads b <= Master.stats_reads a) sorted).
  { apply Sorted_StronglySorted; [| exact Hsorted]. intros a b c Hab Hbc. lia. }
  rewrite <- (firstn_skipn 10 sorted) in Hss, Hp.
  destruct (strongly_sorted_app _ _ _ Hss) as [Hs1 Hcross].
  assert (Hshown : forall s, In s (firstn 10 sorted) ->
                             exists kv, In kv sums /\ s = f kv).
  { intros s Hin.
    assert (Hin' : In s stats0).
    { apply (Permutation_in _ Hp). apply in_or_app. auto. }
    rewrite Hform' in Hin'. apply in_map_iff in Hin'.
    destruct Hin' as (kv & <- & Hkv). eauto. }
  exists (firstn 10 sorted), sums.
  split; [| split; [| split; [| split; [| split; [| split; [| split]]]]]].
  - rewrite firstn_range_index, firstn_map. reflexivity.
  - unfold key_column. rewrite Hjt, Hjr. exact Hsums.
  - rewrite length_firstn. f_equal.
    rewrite <- (firstn_skipn 10 sorted), (Permutation_length Hp), Hform'.
    apply length_map.
  - assert (Hnd : NoDup (map Master.stats_title
                          (firstn 10 sorted ++ skipn 10 sorted))).
    { eapply Permutation_NoDup.
      - apply Permutation_map, Permutation_sym, Hp.
      - rewrite Hform', map_map. cbn [f Master.stats_title].
        rewrite HR, map_map. cbn [fst]. rewrite map_id. apply group_keys_NoDup. }
    rewrite map_app in Hnd. eapply NoDup_app_remove_r; eauto.
  - apply StronglySorted_Sorted. exact Hs1.
  - intros s Hin. destruct (Hshown s Hin) as (kv & Hkv & ->).
    cbn [f Master.stats_title Master.stats_reads]. destruct kv; exact Hkv.
  - intros kv s Hkv Hout Hin.
    assert (Hall : In (f kv) (firstn 10 sorted ++ skipn 10 sorted)).
    { apply (Permutation_in _ (Permutation_sym Hp)). rewrite Hform'.
      apply in_map. exact Hkv. }
    apply in_app_or in Hall. destruct Hall as [Hall | Hall].
    + exfalso. apply Hout. apply in_map_iff. exists (f kv). auto.
    + apply (Hcross s (f kv) Hin Hall).
  - intros s Hin. destruct (Hshown s Hin) as (kv & Hkv & ->).
    cbn [f Master.stats_title Master.stats_author Master.stats_date].
    rewrite Htitled.
    pose proof (nanmin_spec (map stamp (group (fst kv)))) as Hmin.
    split; [| split; [| split]].
    + f_equal. apply map_ext. intros r.
      rewrite (key_of_pos view _ ja r Hja). reflexivity.
    + destruct (nanmin (map stamp (group (fst kv)))); simpl; eauto.
    + intros m Hm.
      destruct (nanmin (map stamp (group (fst kv)))) as [m' |]; [| discriminate].
      injection Hm as ->. destruct Hmin as [Hmin _].
      apply in_map_iff in Hmin. destruct Hmin as (r & Hr & Hrin).
      exists r. split; [exact Hrin |].
      rewrite (key_of_pos view _ jd r Hjd). unfold stamp in Hr.
      destruct (at_pos jd r); try discriminate. congruence.
    + intros r t Hr Ht. rewrite (key_of_pos view _ jd r Hjd) in Ht.
      assert (Hst : In (Some t) (map stamp (group (fst kv)))).
      { apply in_map_iff. exists r. split; [| exact Hr].
        unfold stamp. rewrite Ht. reflexivity. }
      destruct (nanmin (map stamp (group (fst kv)))) as [m |].
      * exists m. split; [reflexivity |]. destruct Hmin as [_ Hle]. auto.
      * exfalso. apply (Hmin t). exact Hst.
Qed.
End ArticleSheet.

Lemma report_top_articles_witness :
  exists (shown : list Master.ArticleStats) (sums : list (cell * Z)),
    sample_top_articles_sheet
    = mkDataFrame ["Title"; "Article Reads"; "Date"; "Author Name"]
        (range_index 0 (map Master.article_row shown)) /\
    groupby_sum (key_column retitled_articles "Title")
                (key_column retitled_articles "Article Reads")
    = Ok sums /\
    List.length shown = Nat.min 10 (List.length sums) /\
    NoDup (map Master.stats_title shown) /\
    Sorted (fun a b => Master.stats_reads b <= Master.stats_reads a) shown /\
    (forall s, In s shown -> In (Master.stats_title s, Master.stats_reads s) sums) /\
    (forall kv s, In kv sums -> ~ In (fst kv) (map Master.stats_title shown) ->
                  In s shown -> snd kv <= Master.stats_reads s) /\
    (forall s, In s shown ->
       Master.stats_author s
       = first_valid (map (key_of retitled_articles "Author Name")
                          (titled retitled_articles (Master.stats_title s))) /\
       (Master.stats_date s = NA \/ exists m, Master.stats_date s = Time m) /\
       (forall m, Master.stats_date s = Time m ->
          exists r, In r (titled retitled_articles (Master.stats_title s)) /\
                    key_of retitled_articles "Date" r = Time m) /\
       (forall r t, In r (titled retitled_articles (Master.stats_title s)) ->
          key_of retitled_articles "Date" r = Time t ->
          exists m, Master.stats_date s = Time m /\ ts_leb m t = true)).
Proof.
  apply (report_top_articles_spec stable_sort_desc stable_sort_desc_perm
           stable_sort_desc_sorted retitled_articles sample_top_articles_sheet).
  vm_compute. reflexivity.
Defined.
